(** * zeijemol: the triplanar views ([zeijemol/views/triplanar.py])

    A shallow embedding of the data transformations of the triplanar stack
    viewer and of the two BrainBrowser ajax callbacks, followed by the
    properties proved about them.

    Conventions of the embedding.
    - A Python call either returns a value or raises: [result A].
    - Module-level names are resolved when a statement runs ([lookup_name]);
      the names bound by the module are those of its import lines and of its
      top-level definitions ([module_globals]).
    - Everything the module obtains from other libraries or from the file
      system (nibabel, the legacy nifti reader, PIL, json, the files on disk)
      is a field of a [world] record.
    - A numpy array is a shape and an indexing function; [flatten] lists its
      items in row-major (C) order.
    - An item of a voxel array is a numpy scalar: a value with its dtype, an
      integer type of 8 to 64 bits or [float32] or [float64].  Integer
      arithmetic wraps in the dtype.  Float arithmetic is IEEE 754: every
      operation returns the float of its format nearest to the exact result,
      ties to even.  The sign of a zero is not kept.
    - The cast to an unsigned integer type truncates toward zero and reduces
      modulo [2 ^ bits]; NaN and the infinities become 0, as the conversion
      does on x86-64. *)

From Stdlib Require Import ZArith QArith Qround Qreduction Ascii String Lia.
From Stdlib.Strings Require Import Byte.
From stdpp Require Import gmap strings list fin_maps vector pretty.

Set Warnings "-register-all".
Open Scope Z_scope.

(** ** Python results and names *)

Inductive exn :=
  | NameError (name : string)
  | IOError (path : string)
  | ValueError (msg : string)
  | IndexError (msg : string)
  | PyException (msg : string)
  | LibraryError (msg : string).

Inductive result (A : Type) :=
  | Ok (a : A)
  | Raise (e : exn).
Arguments Ok {A} a.
Arguments Raise {A} e.

#[global] Instance result_ret : MRet result := fun _ a => Ok a.
#[global] Instance result_bind : MBind result := fun _ _ f r =>
  match r with Ok a => f a | Raise e => Raise e end.
#[global] Instance result_fmap : FMap result := fun _ _ f r =>
  match r with Ok a => Ok (f a) | Raise e => Raise e end.

(** The names bound at module level: lines 11-22 (imports) and the
    top-level classes and functions. *)
Definition module_globals : list string :=
  ["base64"; "json"; "os"; "nibabel"; "numpy"; "Image";
   "_"; "View"; "ajaxfunc"; "authenticated_user";
   "TriplanarStackViewer"; "get_b64_images"; "TriplanarImageViewer";
   "get_encoded_brainbrowser_image"; "get_brainbrowser_image"]%string.

(** The module with [import StringIO] and [import PIL] added. *)
Definition repaired_globals : list string :=
  ("StringIO" :: "PIL" :: module_globals)%string.

Definition lookup_name (ns : list string) (name : string) : result unit :=
  if bool_decide (name ∈ ns) then Ok () else Raise (NameError name).

(** ** [base64.b64encode] and [base64.b64decode] (RFC 4648) *)

Module Base64.

Definition alphabet : string :=
  "ABCDEFGHIJKLMNOPQRSTUVWXYZabcdefghijklmnopqrstuvwxyz0123456789+/"%string.

Definition pad : ascii := "="%char.

Definition byte_to_Z (b : byte) : Z := Z.of_N (Byte.to_N b).
Definition byte_of_Z (z : Z) : option byte := Byte.of_N (Z.to_N z).

Definition char_of_sextet (s : Z) : ascii :=
  default pad (String.get (Z.to_nat s) alphabet).

Fixpoint index_from (c : ascii) (s : string) (i : Z) : option Z :=
  match s with
  | EmptyString => None
  | String d rest => if Ascii.eqb c d then Some i else index_from c rest (i + 1)
  end.

Definition sextet_of_char (c : ascii) : option Z := index_from c alphabet 0.

Definition is_empty (s : string) : bool :=
  match s with EmptyString => true | _ => false end.

Fixpoint b64encode (bs : list byte) : string :=
  match bs with
  | [] => EmptyString
  | [a] =>
      let a := byte_to_Z a in
      String (char_of_sextet (a / 4))
        (String (char_of_sextet ((a mod 4) * 16))
           (String pad (String pad EmptyString)))
  | [a; b] =>
      let a := byte_to_Z a in
      let b := byte_to_Z b in
      String (char_of_sextet (a / 4))
        (String (char_of_sextet ((a mod 4) * 16 + b / 16))
           (String (char_of_sextet ((b mod 16) * 4))
              (String pad EmptyString)))
  | a :: b :: c :: rest =>
      let a := byte_to_Z a in
      let b := byte_to_Z b in
      let c := byte_to_Z c in
      String (char_of_sextet (a / 4))
        (String (char_of_sextet ((a mod 4) * 16 + b / 16))
           (String (char_of_sextet ((b mod 16) * 4 + c / 64))
              (String (char_of_sextet (c mod 64)) (b64encode rest))))
  end.

Fixpoint b64decode (s : string) : option (list byte) :=
  match s with
  | EmptyString => Some []
  | String c0 (String c1 (String c2 (String c3 rest))) =>
      s0 ← sextet_of_char c0;
      s1 ← sextet_of_char c1;
      if Ascii.eqb c2 pad then
        if Ascii.eqb c3 pad && is_empty rest then
          a ← byte_of_Z (s0 * 4 + s1 / 16);
          Some [a]
        else None
      else
        s2 ← sextet_of_char c2;
        if Ascii.eqb c3 pad then
          if is_empty rest then
            a ← byte_of_Z (s0 * 4 + s1 / 16);
            b ← byte_of_Z ((s1 mod 16) * 16 + s2 / 4);
            Some [a; b]
          else None
        else
          s3 ← sextet_of_char c3;
          a ← byte_of_Z (s0 * 4 + s1 / 16);
          b ← byte_of_Z ((s1 mod 16) * 16 + s2 / 4);
          c ← byte_of_Z ((s2 mod 4) * 64 + s3);
          tl ← b64decode rest;
          Some (a :: b :: c :: tl)
  | _ => None
  end.

End Base64.

(** ** numpy arrays *)

Record ndarray (A : Type) := NDArray {
  shape : list nat;
  item : list nat → A
}.
Arguments NDArray {A} shape item.
Arguments shape {A} _.
Arguments item {A} _ _.

(** All index tuples of a shape, in row-major order. *)
Fixpoint indices (shp : list nat) : list (list nat) :=
  match shp with
  | [] => [[]]
  | n :: rest => i ← seq 0 n; (i ::.) <$> indices rest
  end.

(** [a.flatten().tolist()] *)
Definition flatten {A} (a : ndarray A) : list A :=
  item a <$> indices (shape a).

(** The number of items of an array of shape [shp]. *)
Definition size_of (shp : list nat) : nat := foldr Nat.mul 1%nat shp.

(** The row-major position of the index tuple [idx]. *)
Fixpoint ravel (shp idx : list nat) : nat :=
  match shp, idx with
  | _ :: shp, i :: idx => (i * size_of shp + ravel shp idx)%nat
  | _, _ => 0%nat
  end.

(** The array of shape [shp] over a row-major buffer. *)
Definition array_of_list {A} (d : A) (shp : list nat) (buf : list A) : ndarray A :=
  NDArray shp (λ idx, nth (ravel shp idx) buf d).

(** An elementwise operation. *)
Definition amap {A B} (f : A → B) (a : ndarray A) : ndarray B :=
  NDArray (shape a) (λ idx, f (item a idx)).

(** [a[i]] *)
Definition subarray {A} (a : ndarray A) (i : nat) : ndarray A :=
  NDArray (tail (shape a)) (λ idx, item a (i :: idx)).

(** [a.shape[k]] *)
Definition shape_at {A} (a : ndarray A) (k : nat) : result nat :=
  match shape a !! k with
  | Some n => Ok n
  | None => Raise (IndexError "tuple index out of range")
  end.

(** The position of axis [k] in [axes]. *)
Fixpoint axis_position (k : nat) (axes : list nat) : nat :=
  match axes with
  | [] => 0%nat
  | ax :: rest => if bool_decide (ax = k) then 0%nat else S (axis_position k rest)
  end.

(** [numpy.transpose(a, axes)]: axis [i] of the result is axis [axes[i]] of
    [a]. *)
Definition transpose {A} (axes : list nat) (a : ndarray A) : result (ndarray A) :=
  let ndim := length (shape a) in
  if bool_decide (length axes = ndim ∧ NoDup axes ∧ Forall (λ ax, ax < ndim)%nat axes)
  then Ok (NDArray ((λ ax, nth ax (shape a) 0%nat) <$> axes)
             (λ idx, item a ((λ k, nth (axis_position k axes) idx 0%nat) <$> seq 0 ndim)))
  else Raise (ValueError "axes don't match array").

(** [a.T] *)
Definition transpose_T {A} (a : ndarray A) : ndarray A :=
  NDArray (reverse (shape a)) (λ idx, item a (reverse idx)).

(** ** Floats *)

(** A float is a rational, an infinity or NaN.  The sign of a zero is not
    kept: the rescaling never divides by a negative zero, and both zeros
    are cast to 0. *)
Inductive float64 :=
  | Finite (q : Q)
  | Infinity (negative : bool)
  | NaN.

(** The float of a small integer literal. *)
Definition of_int (z : Z) : float64 := Finite (inject_Z z).

Definition Qnegative (q : Q) : bool := negb (Qle_bool 0 q).

(** The IEEE 754 formats of numpy's [float32] and [float64]: [prec] bits of
    significand, finite values below [2 ^ emax], and [2 ^ emin] the least
    positive value. *)
Inductive float_format := binary32 | binary64.

Definition prec (fmt : float_format) : Z :=
  match fmt with binary32 => 24 | binary64 => 53 end.

Definition emax (fmt : float_format) : Z :=
  match fmt with binary32 => 128 | binary64 => 1024 end.

Definition emin (fmt : float_format) : Z := 3 - emax fmt - prec fmt.

(** The exponent [e] of the leading bit of [n / d], for positive [n] and
    [d]: [2 ^ e ≤ n / d < 2 ^ (e + 1)]. *)
Definition log2_ratio (n d : Z) : Z :=
  if d <=? n then Z.log2 (n / d) else - Z.log2_up ((d + n - 1) / n).

(** The integer nearest to [n / d], the even one of two that are equally
    near. *)
Definition round_half_even (n d : Z) : Z :=
  let q := n / d in
  match 2 * (n mod d) ?= d with
  | Lt => q
  | Eq => if Z.even q then q else q + 1
  | Gt => q + 1
  end.

(** The float of the format nearest to [n / d], as a significand [m] and an
    exponent [ex]: the value [m * 2 ^ ex]. *)
Definition round_positive (fmt : float_format) (n d : Z) : Z * Z :=
  let ex := Z.max (log2_ratio n d - (prec fmt - 1)) (emin fmt) in
  (if 0 <=? ex then round_half_even n (d * 2 ^ ex)
   else round_half_even (n * 2 ^ (- ex)) d,
   ex).

Definition scaled (m ex : Z) : Q :=
  if 0 <=? ex then inject_Z (m * 2 ^ ex) else m # Z.to_pos (2 ^ (- ex)).

(** Rounding to nearest, ties to even, with overflow to an infinity: the
    result of every arithmetic operation of the format. *)
Definition round_to (fmt : float_format) (q : Q) : float64 :=
  match Qnum q with
  | 0 => Finite 0
  | Z.pos n =>
      let '(m, ex) := round_positive fmt (Z.pos n) (Z.pos (Qden q)) in
      if 2 ^ (emax fmt - ex) <=? m then Infinity false
      else Finite (Qred (scaled m ex))
  | Z.neg n =>
      let '(m, ex) := round_positive fmt (Z.pos n) (Z.pos (Qden q)) in
      if 2 ^ (emax fmt - ex) <=? m then Infinity true
      else Finite (Qred (scaled (- m) ex))
  end.

Definition round_float (fmt : float_format) (x : float64) : float64 :=
  match x with
  | Finite q => round_to fmt q
  | _ => x
  end.

Definition fsub (fmt : float_format) (x y : float64) : float64 :=
  match x, y with
  | Finite a, Finite b => round_to fmt (a - b)
  | Finite _, Infinity s => Infinity (negb s)
  | Infinity s, Finite _ => Infinity s
  | Infinity s, Infinity t => if Bool.eqb s t then NaN else Infinity s
  | _, _ => NaN
  end.

Definition fmul (fmt : float_format) (x y : float64) : float64 :=
  match x, y with
  | Finite a, Finite b => round_to fmt (a * b)
  | Finite a, Infinity s | Infinity s, Finite a =>
      if Qeq_bool a 0 then NaN else Infinity (xorb s (Qnegative a))
  | Infinity s, Infinity t => Infinity (xorb s t)
  | _, _ => NaN
  end.

Definition fdiv (fmt : float_format) (x y : float64) : float64 :=
  match x, y with
  | Finite a, Finite b =>
      if Qeq_bool b 0
      then (if Qeq_bool a 0 then NaN else Infinity (Qnegative a))
      else round_to fmt (a / b)
  | Finite _, Infinity _ => Finite 0
  | Infinity s, Finite b => Infinity (xorb s (Qnegative b))
  | _, _ => NaN
  end.

(** [x < y] *)
Definition flt (x y : float64) : bool :=
  match x, y with
  | Finite a, Finite b => negb (Qle_bool b a)
  | Finite _, Infinity s => negb s
  | Infinity s, Finite _ => s
  | Infinity s, Infinity t => s && negb t
  | _, _ => false
  end.

(** The integer part of a float (0 for NaN and the infinities). *)
Definition truncate (x : float64) : Z :=
  match x with
  | Finite q => Z.quot (Qnum q) (Z.pos (Qden q))
  | _ => 0
  end.

(** ** numpy scalars and the intensity rescaling *)

(** The dtypes of voxel data: [int8] to [int64], [uint8] to [uint64],
    [float32] and [float64] (complex, RGB and extended-precision volumes
    are left out). *)
Inductive width := w8 | w16 | w32 | w64.

Definition bits_of (w : width) : Z :=
  match w with w8 => 8 | w16 => 16 | w32 => 32 | w64 => 64 end.

Inductive dtype :=
  | IntType (signed : bool) (w : width)
  | FloatType (fmt : float_format).

(** An item of an array, as indexing and [a.min()] return it: a value with
    its dtype.  All items of an array have the dtype of the array. *)
Inductive scalar :=
  | Integer (signed : bool) (w : width) (z : Z)
  | Floating (fmt : float_format) (x : float64).

Definition dtype_of (x : scalar) : dtype :=
  match x with
  | Integer s w _ => IntType s w
  | Floating f _ => FloatType f
  end.

(** The value an integer dtype keeps of [z]: integer arithmetic wraps. *)
Definition wrap (signed : bool) (w : width) (z : Z) : Z :=
  let m := z mod 2 ^ bits_of w in
  if signed && (2 ^ (bits_of w - 1) <=? m) then m - 2 ^ bits_of w else m.

Definition wider (a b : width) : width := if bits_of a <? bits_of b then b else a.

(** [numpy.promote_types]: the dtype of an operation on two dtypes (the
    same dtype for two items of one array). *)
Definition promote_types (a b : dtype) : dtype :=
  match a, b with
  | IntType s m, IntType t n =>
      if Bool.eqb s t then IntType s (wider m n)
      else
        let '(i, u) := if s then (m, n) else (n, m) in
        if bits_of u <? bits_of i then IntType true i
        else match u with
             | w8 => IntType true w16
             | w16 => IntType true w32
             | w32 => IntType true w64
             | w64 => FloatType binary64
             end
  | FloatType f, FloatType g =>
      FloatType (match f, g with binary32, binary32 => binary32 | _, _ => binary64 end)
  | FloatType f, IntType _ n | IntType _ n, FloatType f =>
      if bits_of n <=? 16 then FloatType f else FloatType binary64
  end.

(** An item read as an integer, and as a float of a format. *)
Definition int_value (x : scalar) : Z :=
  match x with
  | Integer _ _ z => z
  | Floating _ x => truncate x
  end.

Definition float_value (fmt : float_format) (x : scalar) : float64 :=
  match x with
  | Integer _ _ z => round_to fmt (inject_Z z)
  | Floating _ x => round_float fmt x
  end.

(** [x - y] on items: in the dtype of the operands, so an integer
    difference wraps. *)
Definition subtract (x y : scalar) : scalar :=
  match promote_types (dtype_of x) (dtype_of y) with
  | IntType s w => Integer s w (wrap s w (int_value x - int_value y))
  | FloatType f => Floating f (fsub f (float_value f x) (float_value f y))
  end.

(** [x * c] for a Python float [c]: an integer item is converted to
    [float64], a float item keeps its format. *)
Definition multiply_float (x : scalar) (c : float64) : scalar :=
  let f := match x with Integer _ _ _ => binary64 | Floating f _ => f end in
  Floating f (fmul f (float_value f x) (round_float f c)).

(** [x / y] on items: true division, in the float format the two dtypes
    promote to ([float64] for a [float64] dividend or two integers,
    [float32] for two [float32] items). *)
Definition true_divide (x y : scalar) : scalar :=
  let f := match promote_types (dtype_of x) (dtype_of y) with
           | IntType _ _ => binary64
           | FloatType f => f
           end in
  Floating f (fdiv f (float_value f x) (float_value f y)).

Definition exact_value (x : scalar) : float64 :=
  match x with
  | Integer _ _ z => Finite (inject_Z z)
  | Floating _ x => x
  end.

Definition is_nan (x : scalar) : bool :=
  match x with Floating _ NaN => true | _ => false end.

(** The steps of [a.min()] and [a.max()]: a NaN wins. *)
Definition minimum (x y : scalar) : scalar :=
  if is_nan x then x else if is_nan y then y
  else if flt (exact_value y) (exact_value x) then y else x.

Definition maximum (x y : scalar) : scalar :=
  if is_nan x then x else if is_nan y then y
  else if flt (exact_value x) (exact_value y) then y else x.

(** [a.min()] and [a.max()] *)
Definition amin (a : ndarray scalar) : result scalar :=
  match flatten a with
  | [] => Raise (ValueError "zero-size array to reduction operation minimum which has no identity")
  | x :: xs => Ok (foldl minimum x xs)
  end.

Definition amax (a : ndarray scalar) : result scalar :=
  match flatten a with
  | [] => Raise (ValueError "zero-size array to reduction operation maximum which has no identity")
  | x :: xs => Ok (foldl maximum x xs)
  end.

(** [numpy.cast[numpy.uint<bits>]] on one item: a float is truncated
    toward zero and the integer is reduced modulo [2 ^ bits]; NaN and the
    infinities give 0.  On an integer part within [0, 2 ^ bits) this is the
    conversion of C.  C leaves the other cases undefined; there this is
    what the conversion returns on x86-64, where it goes through a signed
    machine integer (a NaN becomes 0 and -2062.9 becomes 63474 for 16
    bits). *)
Definition astype_unsigned (bits : Z) (x : scalar) : Z :=
  int_value x mod 2 ^ bits.

(** One item of [(data - lo) * omax. / (hi - lo)], before the cast. *)
Definition rescale_float (omax : Z) (lo hi x : scalar) : scalar :=
  true_divide (multiply_float (subtract x lo) (of_int omax)) (subtract hi lo).

(** One item of
    [numpy.cast[numpy.uint<bits>]((data - lo) * omax. / (hi - lo))]. *)
Definition rescale_voxel (bits omax : Z) (lo hi x : scalar) : Z :=
  astype_unsigned bits (rescale_float omax lo hi x).

(** Lines 921-923 and 1033-1035:
    [numpy.cast[numpy.uint<bits>](
       (data - data.min()) * omax. / (data.max() - data.min()))]. *)
Definition rescale (bits omax : Z) (data : ndarray scalar) : result (ndarray Z) :=
  lo ← amin data;
  hi ← amax data;
  Ok (amap (astype_unsigned bits)
        (amap (λ x, true_divide x (subtract hi lo))
           (amap (λ x, multiply_float x (of_int omax))
              (amap (λ x, subtract x lo) data)))).

(** ** The NIfTI-1 header and the BrainBrowser header *)

Record nifti1_header := {
  dim : vec Z 8;
  pixdim : vec float64 8;
  qoffset_x : float64;
  qoffset_y : float64;
  qoffset_z : float64;
  srow_x : vec float64 4;
  srow_y : vec float64 4;
  srow_z : vec float64 4
}.

(** The values [json.dumps] serialises. *)
Inductive value :=
  | VInt (z : Z)
  | VFloat (x : float64)
  | VStr (s : string)
  | VList (l : list value)
  | VDict (d : gmap string value).

Definition order : list string := ["time"; "xspace"; "yspace"; "zspace"]%string.

(** [{"start": float(start), "space_length": int(len), "step": float(step),
      "direction_cosines": [float(x) for x in srow[:3]]}] *)
Definition axis_entry (start : float64) (len : Z) (step : float64)
    (srow : vec float64 4) : value :=
  VDict (list_to_map
    [("start", VFloat start);
     ("space_length", VInt len);
     ("step", VFloat step);
     ("direction_cosines", VList (VFloat <$> take 3 (vec_to_list srow)))]%string).

(** Lines 932-949 and 1041-1058. *)
Definition header_3d (h : nifti1_header) : gmap string value :=
  list_to_map
    [("order", VList (VStr <$> drop 1 order));
     ("xspace", axis_entry (qoffset_x h) (dim h !!! 1%fin) (pixdim h !!! 1%fin) (srow_x h));
     ("yspace", axis_entry (qoffset_y h) (dim h !!! 2%fin) (pixdim h !!! 2%fin) (srow_y h));
     ("zspace", axis_entry (qoffset_z h) (dim h !!! 3%fin) (pixdim h !!! 3%fin) (srow_z h))]%string.

(** Lines 964-984 and 1060-1080. *)
Definition header_4d (h : nifti1_header) : gmap string value :=
  list_to_map
    [("order", VList (VStr <$> order));
     ("xspace", axis_entry (qoffset_x h) (dim h !!! 1%fin) (pixdim h !!! 1%fin) (srow_x h));
     ("yspace", axis_entry (qoffset_y h) (dim h !!! 2%fin) (pixdim h !!! 2%fin) (srow_y h));
     ("zspace", axis_entry (qoffset_z h) (dim h !!! 3%fin) (pixdim h !!! 3%fin) (srow_z h));
     ("time", VDict (list_to_map
        [("start", VInt 0); ("space_length", VInt (dim h !!! 4%fin))]%string))]%string.

Definition unsupported : exn :=
  PyException "Only 3D or 3D + t images are currently supported!".

(** ** What the module gets from outside *)

(** The object [nibabel.load] returns: [im.header] and [im.get_data()]. *)
Record nibabel_image := {
  nib_header : nifti1_header;
  nib_get_data : result (ndarray scalar)
}.

Record world := {
  (** [open(path, "rb").read()] *)
  files : gmap string (list byte);
  (** [Image.open(path).size] *)
  image_sizes : gmap string (Z * Z);
  nibabel_load : string → result nibabel_image;
  (** [import nifti; nifti.NiftiImage(imagefile).getDataArray()] *)
  nifti_getDataArray : string → result (ndarray scalar);
  (** [PIL.Image.fromarray(slicedata).save(openfile, format="JPEG"[,
      quality=q])] followed by [openfile.getvalue()] *)
  jpeg_save : option Z → ndarray Z → result (list byte);
  json_dumps : value → string;
  (** [self._cw.data_url] *)
  data_url : string → string;
  (** Lines 110-172: the page of the stack viewer, from [shapes],
      [nb_slices], [file_data] and [data_type]. *)
  viewer_page :
    gmap string (Z * Z) → gmap string Z → list (string * list string) → string → string
}.

(** The dictionary an ajax callback returns. *)
Record im_info (D : Type) := ImInfo {
  info_header : string;
  info_data : D
}.
Arguments ImInfo {D} info_header info_data.
Arguments info_header {D} _.
Arguments info_data {D} _.

Section Views.

Context (globals : list string) (w : world).

(** ** [TriplanarStackViewer.call] *)

Definition orientations : list string := ["sagittal"; "coronal"; "axial"]%string.

Definition error_message (snap_eid : string) : string :=
  ("Triplanar view not responding. Please contact the service administrator "
   +:+ "specifying the the snap code '" +:+ snap_eid +:+ "'.")%string.

Definition dquote : string := String "034"%char EmptyString.

Definition script_tag (src : string) : string :=
  ("<script type=" +:+ dquote +:+ "text/javascript" +:+ dquote +:+ " src="
   +:+ dquote +:+ src +:+ dquote +:+ "></script>")%string.

Definition link_tag (href : string) : string :=
  ("<link type=" +:+ dquote +:+ "text/css" +:+ dquote +:+ " rel=" +:+ dquote
   +:+ "stylesheet" +:+ dquote +:+ " href=" +:+ dquote +:+ href +:+ dquote
   +:+ ">")%string.

(** Lines 71-81: what is written before the inputs are checked. *)
Definition resources : list string :=
  [script_tag "https://ajax.googleapis.com/ajax/libs/jquery/1.12.0/jquery.min.js";
   script_tag (data_url w "triview/js/simple-slider.min.js");
   script_tag (data_url w "triview/js/triview.js");
   link_tag (data_url w "triview/css/simple-slider-volume.css");
   link_tag (data_url w "triview/css/triview.css")]%string.

(** Lines 90-93 and 104-107: the four writes before [return]. *)
Definition error_page (error : string) : list string :=
  [("<h1>" +:+ error +:+ "</h1>"); "<script>"; "disableTriViewBtn();"; "</script>"]%string.

(** Lines 98-108, the loop over the images of one orientation.  [None]: a
    size differs from [stack_size] (the error page is written and [call]
    returns); [Some s]: the loop ran to its end with [stack_size = s]. *)
Fixpoint check_sizes (paths : list string) (stack_size : option (Z * Z))
    : result (option (option (Z * Z))) :=
  match paths with
  | [] => Ok (Some stack_size)
  | path :: rest =>
      _ ← lookup_name globals "Image";
      match image_sizes w !! path with
      | None => Raise (IOError path)
      | Some size =>
          match stack_size with
          | None => check_sizes rest (Some size)
          | Some s =>
              if bool_decide (s ≠ size) then Ok None
              else check_sizes rest stack_size
          end
      end
  end.

(** Lines 87-108, the loop over [file_data], given as its items in
    iteration order.  [None]: the error page is written and [call] returns;
    [Some (shapes, nb_slices)]: every orientation passed. *)
Fixpoint check_inputs (items : list (string * list string))
    (shapes : gmap string (Z * Z)) (nb_slices : gmap string Z)
    : result (option (gmap string (Z * Z) * gmap string Z)) :=
  match items with
  | [] => Ok (Some (shapes, nb_slices))
  | (orient, paths) :: rest =>
      if bool_decide (orient ∉ orientations) then Ok None
      else
        let nb_slices := <[orient := Z.of_nat (length paths) - 1]> nb_slices in
        checked ← check_sizes paths None;
        match checked with
        | None => Ok None
        | Some stack_size =>
            let shapes :=
              match stack_size with
              | Some size => <[orient := size]> shapes
              | None => shapes
              end in
            check_inputs rest shapes nb_slices
        end
  end.

(** The strings passed to [self.w], in order. *)
Definition call (snap_eid : string) (file_data : list (string * list string))
    (data_type : string) : result (list string) :=
  _ ← lookup_name globals "json";
  let error := error_message snap_eid in
  checked ← check_inputs file_data ∅ ∅;
  match checked with
  | None => Ok (resources ++ error_page error)
  | Some (shapes, nb_slices) =>
      Ok (resources ++ [viewer_page w shapes nb_slices file_data data_type])
  end.

(** ** [get_b64_images] *)

(** Lines 182-186, the loop over the paths of one orientation. *)
Definition encode_files (fpaths : list string) : result (list string) :=
  mapM (λ path,
    match files w !! path with
    | None => Raise (IOError path)
    | Some contents =>
        _ ← lookup_name globals "base64";
        Ok (Base64.b64encode contents)
    end) fpaths.

(** Lines 181-187, over the items of [file_data] in iteration order. *)
Fixpoint b64_images_loop (items : list (string * list string))
    (output : gmap string (list string)) : result (gmap string (list string)) :=
  match items with
  | [] => Ok output
  | (orient, fpaths) :: rest =>
      encoded_images ← encode_files fpaths;
      b64_images_loop rest (<[orient := encoded_images]> output)
  end.

Definition get_b64_images (file_data : list (string * list string))
    : result (gmap string (list string)) :=
  _ ← lookup_name globals "json";
  b64_images_loop file_data ∅.

(** ** [get_encoded_brainbrowser_image] *)

(** Lines 954-959 and 991-996: one slice, saved as JPEG and base64-encoded.
    [quality] is [Some dquality] where [save] is given [quality=dquality]. *)
Definition save_slice (quality : option Z) (slicedata : ndarray Z)
    : result string :=
  _ ← lookup_name globals "StringIO";
  _ ← lookup_name globals "PIL";
  contents ← jpeg_save w quality slicedata;
  _ ← lookup_name globals "base64";
  Ok (Base64.b64encode contents).

(** Lines 952-959. *)
Definition encode_volume_3d (dquality : Z) (data : ndarray Z)
    : result (list string) :=
  n ← shape_at data 0;
  mapM (λ index, save_slice (Some dquality) (subarray data index)) (seq 0 n).

(** Lines 987-996. *)
Definition encode_volume_4d (data : ndarray Z) : result (list string) :=
  _ ← lookup_name globals "numpy";
  data ← transpose [3; 0; 1; 2]%nat data;
  nb_timepoints ← shape_at data 0;
  rows ← mapM (λ timepoint,
            nb_indices ← shape_at data 1;
            mapM (λ index, save_slice None (subarray (subarray data timepoint) index))
              (seq 0 nb_indices))
          (seq 0 nb_timepoints);
  Ok (concat rows).

Definition get_encoded_brainbrowser_image (imagefile : string) (dquality : Z)
    : result (im_info (list string)) :=
  _ ← lookup_name globals "nibabel";
  im ← nibabel_load w imagefile;
  let header := nib_header im in
  data ← nib_get_data im;
  _ ← lookup_name globals "numpy";
  data ← rescale 8 255 data;
  '(header, encoded_data) ←
    (if bool_decide (dim header !!! 0%fin = 3) then
       encoded_data ← encode_volume_3d dquality data;
       Ok (header_3d header, encoded_data)
     else if bool_decide (dim header !!! 0%fin = 4) then
       encoded_data ← encode_volume_4d data;
       Ok (header_4d header, encoded_data)
     else Raise unsupported);
  _ ← lookup_name globals "json";
  Ok (ImInfo (json_dumps w (VDict header)) encoded_data).

(** ** [get_brainbrowser_image] *)

(** Lines 1024-1031: [im.get_data()], and the old library when it raises. *)
Definition read_voxels (imagefile : string) (im : nibabel_image)
    : result (ndarray scalar) :=
  match nib_get_data im with
  | Ok data => Ok data
  | Raise _ =>
      data ← nifti_getDataArray w imagefile;
      Ok (transpose_T data)
  end.

(** Lines 1033-1091. *)
Definition raw_payload (header : nifti1_header) (data : ndarray scalar)
    : result (im_info (list Z)) :=
  _ ← lookup_name globals "numpy";
  data ← rescale 16 65535 data;
  '(header, data) ←
    (if bool_decide (dim header !!! 0%fin = 3) then
       Ok (header_3d header, data)
     else if bool_decide (dim header !!! 0%fin = 4) then
       _ ← lookup_name globals "numpy";
       data ← transpose [3; 0; 1; 2]%nat data;
       Ok (header_4d header, data)
     else Raise unsupported);
  _ ← lookup_name globals "json";
  Ok (ImInfo (json_dumps w (VDict header)) (flatten data)).

Definition get_brainbrowser_image (imagefile : string)
    : result (im_info (list Z)) :=
  _ ← lookup_name globals "nibabel";
  im ← nibabel_load w imagefile;
  let header := nib_header im in
  data ← read_voxels imagefile im;
  raw_payload header data.

End Views.

(** ** Notions used in the statements *)

(** The rescaling as the specification words it, on the voxels in
    row-major order: [round((x - min) * omax / (max - min))]. *)
Definition round_nearest (q : Q) : Z := Qfloor (q + (1 # 2)).

Definition spec_rescale (omax : Z) (voxels : list Z) : list Z :=
  match voxels with
  | [] => []
  | x :: xs =>
      let lo := foldl Z.min x xs in
      let hi := foldl Z.max x xs in
      (λ v, round_nearest (inject_Z ((v - lo) * omax) / inject_Z (hi - lo))) <$> voxels
  end.

(** An entry of the BrainBrowser header for a spatial axis: exactly the
    keys start, space_length, step and direction_cosines. *)
Definition is_spatial_axis (start : float64) (len : Z) (step : float64)
    (srow : vec float64 4) (v : value) : Prop :=
  ∃ entry : gmap string value,
    v = VDict entry ∧
    dom entry = {["start"; "space_length"; "step"; "direction_cosines"]}%string ∧
    entry !! "start"%string = Some (VFloat start) ∧
    entry !! "space_length"%string = Some (VInt len) ∧
    entry !! "step"%string = Some (VFloat step) ∧
    entry !! "direction_cosines"%string
    = Some (VList [VFloat (srow !!! 0%fin); VFloat (srow !!! 1%fin);
                   VFloat (srow !!! 2%fin)]).

(** The entry for the time axis: start and space_length only. *)
Definition is_time_axis (len : Z) (v : value) : Prop :=
  ∃ entry : gmap string value,
    v = VDict entry ∧
    entry !! "start"%string = Some (VInt 0) ∧
    entry !! "space_length"%string = Some (VInt len) ∧
    entry !! "step"%string = None ∧
    entry !! "direction_cosines"%string = None.

(** The three spatial entries of a header built from [h]. *)
Definition has_spatial_axes (h : nifti1_header) (header : gmap string value) : Prop :=
  (∃ v, header !! "xspace"%string = Some v ∧
        is_spatial_axis (qoffset_x h) (dim h !!! 1%fin) (pixdim h !!! 1%fin) (srow_x h) v) ∧
  (∃ v, header !! "yspace"%string = Some v ∧
        is_spatial_axis (qoffset_y h) (dim h !!! 2%fin) (pixdim h !!! 2%fin) (srow_y h) v) ∧
  (∃ v, header !! "zspace"%string = Some v ∧
        is_spatial_axis (qoffset_z h) (dim h !!! 3%fin) (pixdim h !!! 3%fin) (srow_z h) v).

(** All items of an array have the dtype [dt]. *)
Definition has_dtype (dt : dtype) (data : ndarray scalar) : Prop :=
  Forall (λ x, dtype_of x = dt) (flatten data).

(** The integer [z] is a value of the integer dtype. *)
Definition representable (signed : bool) (w : width) (z : Z) : Prop :=
  if signed then - 2 ^ (bits_of w - 1) ≤ z < 2 ^ (bits_of w - 1)
  else 0 ≤ z < 2 ^ bits_of w.

(** The array of one axis over a list of integers, of dtype [int16] and of
    dtype [int64]. *)
Definition int16_array (voxels : list Z) : ndarray scalar :=
  array_of_list (Integer true w16 0) [length voxels] (Integer true w16 <$> voxels).

Definition int64_array (voxels : list Z) : ndarray scalar :=
  array_of_list (Integer true w64 0) [length voxels] (Integer true w64 <$> voxels).

(** Three [int16] voxels; four [int16] voxels whose range, 33767, is not a
    value of [int16]; two [int64] voxels whose range has 53 bits; the
    [float32] voxels 0 and 0.3; and the volume of the scenario of
    section 8: shape (10, 20, 30), intensity 5 everywhere. *)
Definition voxels_0_1_4 : ndarray scalar := int16_array [0; 1; 4].

Definition voxels_wide : ndarray scalar := int16_array [-1000; 0; 1000; 32767].

Definition voxels_large : ndarray scalar := int64_array [0; 5127070542049781].

Definition voxels_float32 : ndarray scalar :=
  array_of_list (Floating binary32 (Finite 0)) [2%nat]
    [Floating binary32 (Finite 0); Floating binary32 (round_to binary32 (3 # 10))].

Definition uniform_volume : ndarray scalar :=
  NDArray [10; 20; 30]%nat (λ _, Integer true w16 5).

(** Every listed image can be opened. *)
Definition all_openable (w : world) (items : list (string * list string)) : Prop :=
  Forall (λ it, Forall (λ path, is_Some (image_sizes w !! path)) it.2) items.

(** Some image of the list has a size different from the first one's. *)
Definition size_mismatch (w : world) (fpaths : list string) : Prop :=
  ∃ first path s0 s,
    fpaths !! 0%nat = Some first ∧ path ∈ fpaths ∧
    image_sizes w !! first = Some s0 ∧ image_sizes w !! path = Some s ∧ s ≠ s0.

(** Some key is not an orientation, or some orientation has a mismatch. *)
Definition rejected_input (w : world) (items : list (string * list string)) : Prop :=
  ∃ orient fpaths,
    (orient, fpaths) ∈ items ∧ (orient ∉ orientations ∨ size_mismatch w fpaths).

(** The bytes of a file, and the encoded images of a list of files. *)
Definition file_contents (w : world) (path : string) : list byte :=
  default [] (files w !! path).

Definition encoded_stack (w : world) (fpaths : list string) : list string :=
  (λ path, Base64.b64encode (file_contents w path)) <$> fpaths.

(** ** Example inputs *)

(** A header of 4 x 4 x 3 voxels and 2 timepoints, with the given
    [dim[0]]. *)
Definition example_header (ndim : Z) : nifti1_header :=
  {| dim := [# ndim; 4; 4; 3; 2; 1; 1; 1];
     pixdim := [# of_int 1; of_int 2; of_int 2; of_int 3;
                  of_int 1; of_int 0; of_int 0; of_int 0];
     qoffset_x := of_int (-90);
     qoffset_y := of_int (-126);
     qoffset_z := of_int (-72);
     srow_x := [# of_int (-2); of_int 0; of_int 0; of_int 90];
     srow_y := [# of_int 0; of_int 2; of_int 0; of_int (-126)];
     srow_z := [# of_int 0; of_int 0; of_int 3; of_int (-72)] |}.

(** The [int16] array whose voxels are their own row-major positions. *)
Definition ramp (shp : list nat) : ndarray scalar :=
  NDArray shp (λ idx, Integer true w16 (Z.of_nat (ravel shp idx))).

Definition example_image_3d : nibabel_image :=
  {| nib_header := example_header 3; nib_get_data := Ok (ramp [4; 4; 3]%nat) |}.

Definition example_image_4d : nibabel_image :=
  {| nib_header := example_header 4; nib_get_data := Ok (ramp [4; 4; 3; 2]%nat) |}.

Definition example_image_5d : nibabel_image :=
  {| nib_header := example_header 5;
     nib_get_data := Ok (ramp [4; 4; 3; 2; 1]%nat) |}.

(** An image whose voxels nibabel cannot extract. *)
Definition example_image_old : nibabel_image :=
  {| nib_header := example_header 4;
     nib_get_data := Raise (LibraryError "missing bytes") |}.

Definition example_volumes : gmap string nibabel_image :=
  {[ "vol3d.nii" := example_image_3d;
     "vol4d.nii" := example_image_4d;
     "vol5d.nii" := example_image_5d;
     "old4d.nii" := example_image_old ]}%string.

(** A stand-in for the JPEG encoder: the quality (75 when none is given)
    followed by the voxels of the slice. *)
Definition example_jpeg (quality : option Z) (slicedata : ndarray Z)
    : result (list byte) :=
  Ok (omap Base64.byte_of_Z (default 75 quality :: flatten slicedata)).

(** A stand-in for [json.dumps]: the keys of a dictionary. *)
Definition example_dumps (v : value) : string :=
  match v with
  | VDict d => "{" +:+ String.concat "," (map_to_list d).*1 +:+ "}"
  | _ => "null"
  end%string.

Definition example_world : world :=
  {| files := {[ "oblique/0.png" := [x89; x50; x4e; x47];
                 "oblique/1.png" := [x0d; x0a; x1a; x0a; x00];
                 "axial/0.png" := [xff; xd8] ]}%string%byte;
     image_sizes := {[ "sag/0.png" := (256, 256); "sag/1.png" := (256, 256);
                       "cor/0.png" := (256, 124); "cor/1.png" := (256, 124);
                       "axi/0.png" := (124, 256) ]}%string;
     nibabel_load := λ imagefile,
       match example_volumes !! imagefile with
       | Some im => Ok im
       | None => Raise (IOError imagefile)
       end;
     nifti_getDataArray := λ imagefile,
       if bool_decide (imagefile = "old4d.nii"%string)
       then Ok (ramp [2; 3; 4; 4]%nat)
       else Raise (IOError imagefile);
     jpeg_save := example_jpeg;
     json_dumps := example_dumps;
     data_url := λ path, ("/data/" +:+ path)%string;
     viewer_page := λ _ _ _ _, "<div class='container'></div>"%string |}.

(** Three stacks whose sizes agree within each orientation only. *)
Definition example_stacks : list (string * list string) :=
  [("sagittal", ["sag/0.png"; "sag/1.png"]);
   ("coronal", ["cor/0.png"; "cor/1.png"]);
   ("axial", ["axi/0.png"])]%string.

(** A dictionary with a key that is not an orientation. *)
Definition example_file_data : gmap string (list string) :=
  {[ "oblique" := ["oblique/0.png"; "oblique/1.png"];
     "axial" := ["axial/0.png"] ]}%string.

(** ** [TriplanarImageViewer] *)

(** A line feed. *)
Definition newline : string := String "010"%char EmptyString.

(** The value of [html] after a sequence of [html += fragment]. *)
Definition join (fragments : list string) : string :=
  foldr append EmptyString fragments.

(** [l[index]] on a Python list. *)
Definition getitem {A} (l : list A) (index : Z) : result A :=
  let n := Z.of_nat (length l) in
  let i := if bool_decide (index < 0) then index + n else index in
  if bool_decide (0 ≤ i < n) then
    match l !! Z.to_nat i with
    | Some x => Ok x
    | None => Raise (IndexError "list index out of range")
    end
  else Raise (IndexError "list index out of range").

(** [os.path.basename]: what follows the last slash. *)
Fixpoint basename_from (p acc : string) : string :=
  match p with
  | EmptyString => acc
  | String c rest =>
      if Ascii.eqb c "/"%char
      then basename_from rest EmptyString
      else basename_from rest (acc +:+ String c EmptyString)
  end.

Definition basename (p : string) : string := basename_from p EmptyString.

(** [str.lower] on ASCII. *)
Definition lower_char (c : ascii) : ascii :=
  let n := nat_of_ascii c in
  if (65 <=? n)%nat && (n <=? 90)%nat then ascii_of_nat (n + 32) else c.

Fixpoint lower (s : string) : string :=
  match s with
  | EmptyString => EmptyString
  | String c rest => String (lower_char c) (lower rest)
  end.

Fixpoint ends_with_slash (s : string) : bool :=
  match s with
  | EmptyString => false
  | String c EmptyString => Ascii.eqb c "/"%char
  | String _ rest => ends_with_slash rest
  end.

(** [os.path.join(a, b)] *)
Definition path_join (a b : string) : string :=
  match b with
  | String "/"%char _ => b
  | _ =>
      match a with
      | EmptyString => b
      | _ => if ends_with_slash a then a +:+ b else a +:+ "/"%string +:+ b
      end
  end.

(** The [imagefiles] argument of [call] and the value of the form field:
    nothing, one path or a list of paths. *)
Inductive imagefiles_arg :=
  | ArgNone
  | ArgStr (path : string)
  | ArgList (paths : list string).

Inductive form_value :=
  | FormStr (path : string)
  | FormList (paths : list string).

(** Lines 225-229:
    [imagefiles = imagefiles or self._cw.form.get('imagefiles', '')], then
    [[imagefiles]] unless it is a list. *)
Definition normalise (imagefiles : imagefiles_arg)
    (form_imagefiles : option form_value) : list string :=
  match imagefiles with
  | ArgStr (String c rest) => [String c rest]
  | ArgList (path :: paths) => path :: paths
  | _ =>
      match form_imagefiles with
      | Some (FormList paths) => paths
      | Some (FormStr path) => [path]
      | None => [EmptyString]
      end
  end.

Module TriplanarImageViewer.

Section ImageViewer.

Context (globals : list string) (w : world) (base_url : string).

(** Lines 309-455. *)
Definition build_nifti_image_loader : string :=
  join
   (["<script type='text/javascript'>";
     "var VolumeViewer = BrainBrowser.VolumeViewer;";
     "VolumeViewer.volume_loaders.nifti = function(description, callback) {";
     "$('#loading').show();";
     "var postData = {};";
     "postData.imagefile = description.data_file;";
     "postData.dquality = quality;";
     "var post = $.ajax({";
     ("url: '" +:+ base_url +:+ "ajax?fname=' + ajaxcallback,");
     "type: 'POST',";
     "data: postData";
     "});";
     "post.done(function(p){";
     "$('#loading').hide();";
     "var data = p.data;";
     "var header_text = p.header;";
     "if (ajaxcallback == 'get_encoded_brainbrowser_image') {";
     "var slice_cnt = 0;";
     "var the_array = [];";
     "data.forEach(function(slicedata, slice_cnt) {";
     "var effect = function(slicedata, length, callback) {";
     "var img = new Image();";
     "img.onload = function() {";
     "var canvas = document.createElement('canvas');";
     "canvas.width  = img.width;";
     "canvas.height = img.height;";
     "var ctx = canvas.getContext('2d');";
     "ctx.drawImage(img, 0, 0);";
     "var imageData = ctx.getImageData(0,0,canvas.width, canvas.height);";
     "var slicedata = imageData.data;";
     "for (var j = 0; j < slicedata.length; j += 4) {";
     "the_array.push(slicedata[j] * 257);";
     "}";
     "callback(the_array, (slice_cnt + 1) == length);";
     "};";
     "img.src = 'data:image/jpg;base64,' + slicedata;";
     "};";
     "effect(slicedata, data.length, function(data, is_loaded) {";
     "if (is_loaded) {";
     "var error_message;";
     "if (description.data_file) {";
     "BrainBrowser.parseHeader(header_text, function(header) {";
     "BrainBrowser.createMincVolume(header, data, callback);";
     "});";
     "error_message = header.xspace.name;";
     "BrainBrowser.events.triggerEvent('error', { message: error_message });";
     "throw new Error(error_message);";
     "} else {";
     "error_message = 'Error';";
     "BrainBrowser.events.triggerEvent('error', { message: error_message });";
     "throw new Error(error_message);";
     "}";
     "};";
     "});";
     "});";
     "}";
     "else {";
     "var error_message;";
     "if (description.data_file) {";
     "BrainBrowser.parseHeader(header_text, function(header) {";
     "BrainBrowser.createMincVolume(header, data, callback);";
     "});";
     "error_message = header.xspace.name;";
     "BrainBrowser.events.triggerEvent('error', { message: error_message });";
     "throw new Error(error_message);";
     "} else {";
     "error_message = 'Error';";
     "BrainBrowser.events.triggerEvent('error', { message: error_message });";
     "throw new Error(error_message);";
     "}";
     "}";
     "});";
     "post.fail(function(){";
     "$('#loading').hide();";
     " alert('Error : Image buffering failed!');";
     "});";
     "};";
     "</script>"]%string).

(** Lines 489-496: one volume of the multiple view. *)
Definition loader_volume (path : string) : list string :=
  ["{";
     "type: 'nifti',";
     ("data_file: '" +:+ path +:+ "',");
     "template: {";
     "element_id: 'volume-ui-template',";
     "viewer_insert_class: 'volume-viewer-display'";
     "}";
     "},"]%string.

(** Lines 457-529. *)
Definition build_cw_loader (imagefiles : list string) (index : Z)
    (decorated multiview : bool) : result string :=
  let html :=
    [EmptyString]%string ++
    (if decorated
     then ["<script type='text/javascript'>"]%string
     else []) ++
    ["$(document).ready(function() {";
     "var viewer = window.viewer;"]%string in
  html ←
    (if multiview
     then
       Ok (html ++
       ["viewer.loadVolumes({";
     "volumes: ["]%string ++
       (imagefiles ≫= loader_volume) ++
       ["],";
     "complete: function() {";
     "$('#volume-type').hide();";
     "$('.slice-display').css('display', 'inline');";
     "$('.volume-controls').css('width', 'auto');";
     "$('#loading').hide();";
     "$('#brainbrowser-wrapper').slideDown({duration: 600});";
     "}";
     "});"]%string)
     else
       image ← getitem imagefiles index;
       Ok (html ++
       ["viewer.loadVolume({";
     "type: 'nifti',";
     ("data_file: '" +:+ image +:+ "',");
     "template: {";
     "element_id: 'volume-ui-template',";
     "viewer_insert_class: 'volume-viewer-display'";
     "}";
     "}, function() {";
     "$('#volume-type').show();";
     "$('.slice-display').css('display', 'inline');";
     "$('.volume-controls').css('width', 'auto');";
     "$('#loading').hide();";
     "$('#brainbrowser-wrapper').slideDown({duration: 600});";
     "});"]%string));
  Ok (join (html ++
    ["});"]%string ++
    (if decorated
     then ["</script>"]%string
     else []))).

(** Lines 632-643: the event of image [cnt]; the loader of the multiple
    view is built first, then the one of the single view. *)
Definition image_event (imagefiles : list string) (cnt : nat) : result (list string) :=
  multi ← build_cw_loader imagefiles (Z.of_nat cnt) false true;
  single ← build_cw_loader imagefiles (Z.of_nat cnt) false false;
  Ok ((if bool_decide (cnt = 0%nat)
     then [("if ($('#volume-type').val() === '" +:+ pretty cnt +:+ "') {")]%string
     else [("else if ($('#volume-type').val() === '" +:+ pretty cnt +:+ "') {")]%string) ++
    ["viewer.clearVolumes();";
     "if ($('#volume-rendering').val() == 'multi') {";
     multi;
     "}";
     "else {";
     single;
     "}";
     "}"]%string).

(** Lines 607-657. *)
Definition build_image_callback (imagefiles : list string) (decorated : bool)
    : result string :=
  events ← mapM (image_event imagefiles) (seq 0 (length imagefiles));
  Ok (join
   ([EmptyString]%string ++
    (if decorated
     then ["<script type='text/javascript'>";
     "$('#volume-type').change(function() {"]%string
     else []) ++
    concat events ++
    ["else {";
     "viewer.clearVolumes();";
     "}"]%string ++
    (if decorated
     then ["});";
     "</script>"]%string
     else []))).

(** Lines 531-575. *)
Definition build_quality_callback (imagefiles : list string) : result string :=
  callback ← build_image_callback imagefiles false;
  Ok (join
   (["<script type='text/javascript'>";
     "$('#volume-quality').change(function() {";
     "if ($('#volume-quality').val() === 'RAW') {";
     "ajaxcallback = 'get_brainbrowser_image';";
     "}";
     "else if ($('#volume-quality').val() === 'LOW JPEG') {";
     "ajaxcallback = 'get_encoded_brainbrowser_image';";
     "quality = 50;";
     "}";
     "else {";
     "ajaxcallback = 'get_brainbrowser_image';";
     "}";
     callback;
     "});";
     "</script>"]%string)).

(** Lines 577-605. *)
Definition build_rendering_callback (imagefiles : list string) : result string :=
  callback ← build_image_callback imagefiles false;
  Ok (join
   (["<script type='text/javascript'>";
     "$('#volume-rendering').change(function() {";
     callback;
     "});";
     "</script>"]%string)).

(** Lines 674-681: one color map. *)
Definition color_map (baseurl name color : string) : result (list string) :=
  _ ← lookup_name globals "os"%string;
  let resource := data_url w (path_join baseurl (lower name +:+ ".txt"%string)) in
  Ok (["{";
     ("name: '" +:+ name +:+ "',");
     ("url: '" +:+ resource +:+ "',");
     ("cursor_color: '" +:+ color +:+ "'");
     "},"]%string).

(** Lines 659-685. *)
Definition build_color_maps : result string :=
  let baseurl := "brainbrowser/color-maps/"%string in
  maps ← mapM (λ '(name, color), color_map baseurl name color)
            [("Gray", "#FF0000"); ("Spectral", "#FFFFFF"); ("Thermal", "#FFFFFF");
             ("Blue", "#FFFFFF"); ("Green", "#FF0000")]%string;
  Ok (join
   (["<script>";
     "BrainBrowser.config.set('color_maps', ["]%string ++
    concat maps ++
    ["]);";
     "</script>"]%string)).

(** Lines 687-834. *)
Definition build_brainbrowser_tools (time contrast brightness : bool) : string :=
  join
   (["<script id='volume-ui-template' type='x-volume-ui-template'>";
     "<div class='volume-viewer-display'>";
     ("</div>" +:+ newline);
     "<div class='volume-viewer-controls volume-controls'>";
     "<div class='coords'>";
     "<div class='control-container'>";
     "<div class='control-heading' id='voxel-coordinates-heading-{{VOLID}}'>";
     "Voxel Coordinates:";
     "</div>";
     "<div class='voxel-coords' data-volume-id='{{VOLID}}'>";
     "I:<input id='voxel-i-{{VOLID}}' class='control-inputs'>";
     "J:<input id='voxel-j-{{VOLID}}' class='control-inputs'>";
     "K:<input id='voxel-k-{{VOLID}}' class='control-inputs'>";
     "</div>";
     "<div class='control-heading' id='world-coordinates-heading-{{VOLID}}'>";
     "World Coordinates:";
     "</div>";
     "<div class='world-coords' data-volume-id='{{VOLID}}'>";
     "X:<input id='world-x-{{VOLID}}' class='control-inputs'>";
     "Y:<input id='world-y-{{VOLID}}' class='control-inputs'>";
     "Z:<input id='world-z-{{VOLID}}' class='control-inputs'>";
     "</div>"]%string ++
    (if time
     then ["<div id='time-{{VOLID}}' class='time-div' data-volume-id='{{VOLID}}' style='display:none'>";
     "<div class='control-heading'>";
     "<span>Time:</span>";
     "</div>";
     "<input class='control-inputs' value='0' id='time-val-{{VOLID}}'/>";
     "<input type='checkbox' class='button' id='play-{{VOLID}}'><label for='play-{{VOLID}}'>Play</label>";
     "<div class='slider volume-viewer-threshold' id='time-slider-{{VOLID}}'></div>";
     "</div>";
     "</div>"]%string
     else ["</div>"]%string) ++
    ["<div class='control-container'>";
     "<div id='color-map-{{VOLID}}'>";
     "<div class='control-heading'>";
     "<span id='color-map-heading-{{VOLID}}'>";
     "Color Map:";
     "</span>";
     "</div>";
     "</div>";
     "<div id='intensity-value-div-{{VOLID}}'>";
     "<div class='control-heading'>";
     "<span data-volume-id='{{VOLID}}'>";
     "Value:";
     "</span>";
     "</div>";
     "<span id='intensity-value-{{VOLID}}' class='intensity-value'></span>";
     "</div>";
     "</div>";
     "<div class='control-container'>";
     "<div class='threshold-div' data-volume-id='{{VOLID}}'>";
     "<div class='control-heading'>";
     "Brightness/Contrast:";
     "</div>";
     "<div class='thresh-inputs'>";
     "<input id='min-threshold-{{VOLID}}' class='control-inputs thresh-input-left' value='0'/>";
     "<input id='max-threshold-{{VOLID}}' class='control-inputs thresh-input-right' value='65535'/>";
     "</div>";
     "<div class='slider volume-viewer-threshold' id='threshold-slider-{{VOLID}}'></div>";
     "</div>";
     "<div id='slice-series-{{VOLID}}' class='slice-series-div' data-volume-id='{{VOLID}}'>";
     "<div class='control-heading' id='slice-series-heading-{{VOLID}}'>All slices: </div>";
     "<span class='slice-series-button button' data-axis='xspace'>Sagittal</span>";
     "<span class='slice-series-button button' data-axis='yspace'>Coronal</span>";
     "<span class='slice-series-button button' data-axis='zspace'>Transverse</span>";
     "</div>";
     "</div>"]%string ++
    (if contrast
     then ["<div class='control-container'>";
     "<div class='contrast-div' data-volume-id='{{VOLID}}'>";
     "<span class='control-heading' id='contrast-heading{{VOLID}}'>Contrast (0.0 to 2.0):</span>";
     "<input class='control-inputs' value='1.0' id='contrast-val'/>";
     "<div id='contrast-slider' class='slider volume-viewer-contrast'></div>";
     "</div>";
     "</div>"]%string
     else []) ++
    (if brightness
     then ["<div class='control-container'>";
     "<div class='brightness-div' data-volume-id='{{VOLID}}'>";
     "<span class='control-heading' id='brightness-heading{{VOLID}}'>Brightness (-1 to 1):</span>";
     "<input class='control-inputs' value='0' id='brightness-val'/>";
     "<div id='brightness-slider' class='slider volume-viewer-brightness'></div>";
     "</div>";
     "</div>"]%string
     else []) ++
    ["</div>";
     "</script>"]%string).

(** Line 864: the option of image [cnt]. *)
Definition image_option (cnt : nat) (path : string) : result string :=
  _ ← lookup_name globals "os"%string;
  Ok ("<option value='" +:+ pretty cnt +:+ "'>" +:+ basename path +:+ "</option>")%string.

(** Lines 836-899. *)
Definition build_brainbrowser_banner (imagefiles : list string) : result string :=
  options ← mapM (λ '(cnt, path), image_option cnt path) (imap pair imagefiles);
  Ok (join
   (["<div id='brainbrowser-wrapper' style='display:none'>";
     "<div id='volume-viewer'>";
     "<div id='global-controls' class='volume-viewer-controls'>";
     "<span class='control-heading'>Select rendering:</span>";
     "<select id='volume-rendering'>";
     "<option value='single'>Single</option>";
     "<option value='multi'>Multi</option>";
     "</select>";
     "<select id='volume-type'>"]%string ++
    options ++
    ["</select>";
     "<select id='volume-quality'>";
     "<option value='RAW' SELECTED>RAW</option>";
     "</select>";
     "<span class='control-heading'>Panel size:</span>";
     "<select id='panel-size'>";
     "<option value='128'>128</option>";
     "<option value='256' SELECTED>256</option>";
     "<option value='512'>512</option>";
     "</select>";
     "<span id='screenshot' class='button'>Screenshot</span>";
     "<div class='instructions'>Shift-click to drag. Hold ctrl to measure distance.</div>";
     "</div>";
     "<div id='brainbrowser'></div>";
     "</div>";
     "</div>"]%string)).

(** Lines 235-237 and 242-260. *)
Definition css_resources : list string :=
  ["brainbrowser/css/ui-darkness/jquery-ui-1.8.10.custom.css";
   "brainbrowser/css/common.css";
   "zeijemol.triplanar.css"]%string.

Definition js_resources : list string :=
  ["brainbrowser/src/jquery-1.6.4.min.js";
   "brainbrowser/src/jquery-ui-1.8.10.custom.min.js";
   "brainbrowser/src/ui.js";
   "brainbrowser/src/brainbrowser/brainbrowser.js";
   "brainbrowser/src/brainbrowser/core/tree-store.js";
   "brainbrowser/src/brainbrowser/lib/config.js";
   "brainbrowser/src/brainbrowser/lib/utils.js";
   "brainbrowser/src/brainbrowser/lib/events.js";
   "brainbrowser/src/brainbrowser/lib/loader.js";
   "brainbrowser/src/brainbrowser/lib/color-map.js";
   "brainbrowser/src/brainbrowser/volume-viewer.js";
   "brainbrowser/src/brainbrowser/volume-viewer/lib/display.js";
   "brainbrowser/src/brainbrowser/volume-viewer/lib/panel.js";
   "brainbrowser/src/brainbrowser/volume-viewer/lib/utils.js";
   "brainbrowser/src/brainbrowser/volume-viewer/modules/loading.js";
   "brainbrowser/src/brainbrowser/volume-viewer/modules/rendering.js";
   "brainbrowser/src/brainbrowser/volume-viewer/volume-loaders/overlay.js";
   "brainbrowser/src/brainbrowser/volume-viewer/volume-loaders/minc.js";
   "zeijemol.triplanar.js"]%string.

(** Lines 216-307: the strings passed to [self.w], in order. *)
Definition call (imagefiles : imagefiles_arg) (form_imagefiles : option form_value)
    : result (list string) :=
  let imagefiles := normalise imagefiles form_imagefiles in
  let wait_image_url := data_url w "images/please_wait.gif"%string in
  let written :=
    ((λ path, link_tag (data_url w path)) <$> css_resources) ++
    ((λ path, script_tag (data_url w path)) <$> js_resources) in
  banner ← build_brainbrowser_banner imagefiles;
  color_maps ← build_color_maps;
  quality ← build_quality_callback imagefiles;
  image ← build_image_callback imagefiles true;
  rendering ← build_rendering_callback imagefiles;
  loader ← build_cw_loader imagefiles 0 true false;
  Ok (written ++ [join
   ([build_brainbrowser_tools true false false;
     ("<div id='loading' style='display:none' align='center'><img src='" +:+ wait_image_url +:+ "'/></div>");
     banner;
     color_maps;
     "<script type='text/javascript'>";
     "var quality = 50;";
     "var ajaxcallback = 'get_brainbrowser_image';";
     "</script>";
     build_nifti_image_loader;
     quality;
     image;
     rendering;
     loader;
     ("<div id=" +:+ dquote +:+ "zeijemol-credits" +:+ dquote +:+ ">");
     "<strong>BrainBrowser&#169; visualisation tool :</strong>";
     ("<dl class=" +:+ dquote +:+ "dl-horizontal" +:+ dquote +:+ ">");
     "<dt>Lead Developer</dt><dd>Tarek Sherif</dd>";
     ("<dt>Full credits</dt><dd><a href=" +:+ dquote +:+ "https://brainbrowser.cbrain.mcgill.ca/" +:+ dquote +:+ ">BrainBrowser Website</a></dd>");
     "</dl>";
     "<div>"]%string)]).

End ImageViewer.

End TriplanarImageViewer.

(** ** Further notions and example inputs *)

(** The errors numpy and Python raise in the cases below. *)
Definition zero_size_minimum : exn :=
  ValueError "zero-size array to reduction operation minimum which has no identity".

Definition axes_mismatch : exn := ValueError "axes don't match array".

Definition index_error : exn := IndexError "list index out of range".

(** The voxel array [get_brainbrowser_image] works on: the one of
    [im.get_data()], or the transposed array of the old reader. *)
Definition voxels_read (w : world) (imagefile : string) (im : nibabel_image)
    (data : ndarray scalar) : Prop :=
  nib_get_data im = Ok data ∨
  ∃ e legacy, nib_get_data im = Raise e ∧
              nifti_getDataArray w imagefile = Ok legacy ∧ data = transpose_T legacy.

(** A path of one of the lists of [file_data]. *)
Definition listed (items : list (string * list string)) (path : string) : Prop :=
  ∃ orient fpaths, (orient, fpaths) ∈ items ∧ path ∈ fpaths.

(** The size of the first image of a list, when there is one. *)
Definition first_size (w : world) (fpaths : list string) : option (Z * Z) :=
  head fpaths ≫= λ path, image_sizes w !! path.

(** An image without voxels, and a 4D header over an array of three axes. *)
Definition example_image_empty : nibabel_image :=
  {| nib_header := example_header 3; nib_get_data := Ok (ramp [4; 0; 3]%nat) |}.

Definition example_image_flat : nibabel_image :=
  {| nib_header := example_header 4; nib_get_data := Ok (ramp [4; 4; 3]%nat) |}.

Definition edge_world : world :=
  {| files := files example_world;
     image_sizes := image_sizes example_world;
     nibabel_load := λ imagefile,
       match ({[ "empty.nii" := example_image_empty;
                 "flat4d.nii" := example_image_flat ]}%string
              : gmap string nibabel_image) !! imagefile with
       | Some im => Ok im
       | None => Raise (IOError imagefile)
       end;
     nifti_getDataArray := nifti_getDataArray example_world;
     jpeg_save := jpeg_save example_world;
     json_dumps := json_dumps example_world;
     data_url := data_url example_world;
     viewer_page := viewer_page example_world |}.

(** The stacks of [example_stacks] as the dictionary [json.loads] returns. *)
Definition example_stack_data : gmap string (list string) :=
  list_to_map example_stacks.

(** * Properties *)

(** ** Base64 *)

Module Base64Facts.
Import Base64.

Lemma byte_to_Z_range b : 0 ≤ byte_to_Z b < 256.
Proof.
  unfold byte_to_Z. pose proof (Byte.to_N_bounded b) as H.
  lia.
Qed.

Lemma byte_of_to_Z b : byte_of_Z (byte_to_Z b) = Some b.
Proof. unfold byte_of_Z, byte_to_Z. rewrite N2Z.id. apply Byte.of_to_N. Qed.

Lemma sextet_cases (P : Z → Prop) :
  (∀ n : nat, (n < 64)%nat → P (Z.of_nat n)) → ∀ s, 0 ≤ s < 64 → P s.
Proof.
  intros H s Hs. rewrite <- (Z2Nat.id s) by lia. apply H. lia.
Qed.

Lemma sextet_char_inv s :
  0 ≤ s < 64 → sextet_of_char (char_of_sextet s) = Some s.
Proof.
  revert s. apply sextet_cases. intros n Hn.
  do 64 (destruct n as [|n]; [reflexivity|]). lia.
Qed.

Lemma sextet_char_not_pad s :
  0 ≤ s < 64 → Ascii.eqb (char_of_sextet s) pad = false.
Proof.
  revert s. apply sextet_cases. intros n Hn.
  do 64 (destruct n as [|n]; [reflexivity|]). lia.
Qed.

Lemma three_step_ind {A} (P : list A → Prop) :
  P [] → (∀ a, P [a]) → (∀ a b, P [a; b]) →
  (∀ a b c l, P l → P (a :: b :: c :: l)) → ∀ l, P l.
Proof.
  intros H0 H1 H2 H3.
  assert (∀ l, P l ∧ (∀ a, P (a :: l)) ∧ (∀ a b, P (a :: b :: l))) as H.
  { induction l as [|x l (IH0 & IH1 & IH2)]; [by auto|].
    split_and!; auto. }
  intros l. apply H.
Qed.

Lemma byte_of_Z_eq z b : z = byte_to_Z b → byte_of_Z z = Some b.
Proof. intros ->. apply byte_of_to_Z. Qed.

Ltac sextet_arith :=
  repeat match goal with
         | |- context [byte_to_Z ?b] =>
             let x := fresh "x" in
             set (x := byte_to_Z b) in *; clearbody x
         end;
  Z.div_mod_to_equations; lia.

Ltac decode_group :=
  cbn [b64encode b64decode];
  rewrite ?sextet_char_inv by sextet_arith;
  cbn [mbind option_bind];
  rewrite ?sextet_char_not_pad by sextet_arith;
  rewrite ?sextet_char_inv by sextet_arith;
  cbn [mbind option_bind];
  change (Ascii.eqb pad pad) with true;
  cbn [andb is_empty].

Ltac decode_byte b :=
  match goal with
  | |- context [byte_of_Z ?z] =>
      rewrite (byte_of_Z_eq z b) by sextet_arith; cbn [mbind option_bind]
  end.

Theorem b64decode_b64encode bs : b64decode (b64encode bs) = Some bs.
Proof.
  induction bs as [|a|a b|a b c rest IH] using three_step_ind.
  - reflexivity.
  - pose proof (byte_to_Z_range a).
    decode_group. by decode_byte a.
  - pose proof (byte_to_Z_range a). pose proof (byte_to_Z_range b).
    decode_group. decode_byte a. by decode_byte b.
  - pose proof (byte_to_Z_range a). pose proof (byte_to_Z_range b).
    pose proof (byte_to_Z_range c).
    decode_group. decode_byte a. decode_byte b. decode_byte c.
    by rewrite IH.
Qed.
End Base64Facts.

(** ** Names and loops *)

Lemma lookup_bound name :
  name ∈ module_globals → lookup_name module_globals name = Ok ().
Proof. intros H. unfold lookup_name. by rewrite bool_decide_eq_true_2. Qed.

Lemma StringIO_unbound :
  lookup_name module_globals "StringIO" = Raise (NameError "StringIO").
Proof. reflexivity. Qed.

Lemma PIL_unbound :
  lookup_name module_globals "PIL" = Raise (NameError "PIL").
Proof. reflexivity. Qed.

Ltac resolve_names :=
  repeat (rewrite lookup_bound by (unfold module_globals; repeat constructor);
          cbn [mbind result_bind]).

Section ResultLoops.
Context {A B : Type}.

Lemma mapM_raise_first (f : A → result B) e x l :
  f x = Raise e → mapM f (x :: l) = Raise e.
Proof. intros H. cbn [mapM]. by rewrite H. Qed.

Lemma mapM_cons_ok (f : A → result B) x l y ys :
  f x = Ok y → mapM f l = Ok ys → mapM f (x :: l) = Ok (y :: ys).
Proof. intros Hx Hl. cbn [mapM]. by rewrite Hx, Hl. Qed.

Lemma mapM_all_ok (f : A → result B) (g : A → B) l :
  Forall (λ x, f x = Ok (g x)) l → mapM f l = Ok (g <$> l).
Proof.
  induction 1 as [|x l Hx _ IH]; [done|].
  cbn [mapM]. rewrite Hx. cbn [mbind result_bind]. by rewrite IH.
Qed.
End ResultLoops.

(** ** Arrays *)

Section Arrays.
Local Open Scope nat_scope.

Lemma lookup_bind_block {A B} (f : A → list B) (l : list A) m i j x :
  Forall (λ y, length (f y) = m) l →
  l !! i = Some x → j < m →
  (l ≫= f) !! (i * m + j) = f x !! j.
Proof.
  intros Hlen. revert i. induction Hlen as [|y l Hy _ IH]; intros i Hi Hj; [done|].
  rewrite bind_cons. destruct i as [|i]; cbn in Hi.
  - simplify_eq. rewrite lookup_app_l by lia. done.
  - rewrite lookup_app_r by lia. rewrite Hy.
    replace (S i * m + j - m) with (i * m + j) by lia. by apply IH.
Qed.

Lemma length_bind_block {A B} (f : A → list B) (l : list A) m :
  Forall (λ y, length (f y) = m) l → length (l ≫= f) = length l * m.
Proof.
  induction 1 as [|y l Hy _ IH]; [done|].
  rewrite bind_cons, length_app, Hy, IH. cbn. lia.
Qed.

Lemma length_indices shp : length (indices shp) = size_of shp.
Proof.
  induction shp as [|n shp IH]; [done|]. cbn [indices size_of foldr].
  rewrite (length_bind_block _ _ (size_of shp)).
  - by rewrite length_seq.
  - apply Forall_forall. intros i _. by rewrite length_fmap.
Qed.

Lemma ravel_lt shp idx : Forall2 lt idx shp → ravel shp idx < size_of shp.
Proof.
  induction 1 as [|i n idx shp Hi _ IH]; cbn [ravel size_of foldr]; [lia|].
  fold (size_of shp). nia.
Qed.

Lemma lookup_indices shp idx :
  Forall2 lt idx shp → indices shp !! ravel shp idx = Some idx.
Proof.
  intros H. induction H as [|i n idx shp Hi Hrest IH]; [done|].
  cbn [indices ravel].
  rewrite (lookup_bind_block _ _ (size_of shp) _ _ i).
  - by rewrite list_lookup_fmap, IH.
  - apply Forall_forall. intros k _. by rewrite length_fmap, length_indices.
  - by apply lookup_seq_lt.
  - by apply ravel_lt.
Qed.

Lemma lookup_flatten {A} (a : ndarray A) idx :
  Forall2 lt idx (shape a) → flatten a !! ravel (shape a) idx = Some (item a idx).
Proof. intros H. unfold flatten. by rewrite list_lookup_fmap, lookup_indices. Qed.

Lemma length_flatten {A} (a : ndarray A) : length (flatten a) = size_of (shape a).
Proof. unfold flatten. by rewrite length_fmap, length_indices. Qed.

Lemma transpose_time_first {A} (a : ndarray A) X Y Z T :
  shape a = [X; Y; Z; T] →
  ∃ a', transpose [3; 0; 1; 2] a = Ok a' ∧ shape a' = [T; X; Y; Z] ∧
        ∀ t x y z, item a' [t; x; y; z] = item a [x; y; z; t].
Proof.
  intros Hshape. unfold transpose. rewrite Hshape. cbn [length].
  rewrite bool_decide_eq_true_2.
  - eexists. split; [done|]. by split.
  - split; [done|]. split; [compute_done|repeat constructor].
Qed.

Lemma transpose_rank_mismatch {A} (a : ndarray A) :
  length (shape a) ≠ 4 →
  transpose [3; 0; 1; 2] a = Raise (ValueError "axes don't match array").
Proof.
  intros Hrank. unfold transpose. rewrite bool_decide_eq_false_2; [done|].
  intros [Hlen _]. by rewrite <- Hlen in Hrank.
Qed.

Lemma nonempty_min_max (data : ndarray scalar) :
  0 < size_of (shape data) → ∃ lo hi, amin data = Ok lo ∧ amax data = Ok hi.
Proof.
  intros Hsize. rewrite <- length_flatten in Hsize.
  unfold amin, amax. destruct (flatten data) as [|x xs]; [cbn in Hsize; lia|].
  by eexists _, _.
Qed.

End Arrays.

(** ** The intensity rescaling *)

Section Rescale.

Lemma foldl_min_init x xs : foldl Z.min x xs ≤ x.
Proof.
  revert x. induction xs as [|z xs IH]; intros x; cbn [foldl]; [done|].
  etrans; [apply IH|]. lia.
Qed.

Lemma foldl_min_le x xs y : y ∈ x :: xs → foldl Z.min x xs ≤ y.
Proof.
  revert x. induction xs as [|z xs IH]; intros x Hin; cbn [foldl].
  - apply list_elem_of_singleton in Hin. lia.
  - apply elem_of_cons in Hin as [->|[->|Hin]%elem_of_cons].
    + etrans; [apply foldl_min_init|]. lia.
    + etrans; [apply foldl_min_init|]. lia.
    + apply IH. by apply list_elem_of_further.
Qed.

Lemma foldl_min_elem x xs : foldl Z.min x xs ∈ x :: xs.
Proof.
  revert x. induction xs as [|z xs IH]; intros x; cbn [foldl].
  - apply list_elem_of_here.
  - specialize (IH (x `min` z)).
    apply elem_of_cons in IH as [->|Hin].
    + destruct (Z.min_spec x z) as [[_ ->]|[_ ->]].
      * apply list_elem_of_here.
      * apply list_elem_of_further, list_elem_of_here.
    + by do 2 apply list_elem_of_further.
Qed.

Lemma foldl_max_init x xs : x ≤ foldl Z.max x xs.
Proof.
  revert x. induction xs as [|z xs IH]; intros x; cbn [foldl]; [done|].
  etrans; [|apply IH]. lia.
Qed.

Lemma foldl_max_ge x xs y : y ∈ x :: xs → y ≤ foldl Z.max x xs.
Proof.
  revert x. induction xs as [|z xs IH]; intros x Hin; cbn [foldl].
  - apply list_elem_of_singleton in Hin. lia.
  - apply elem_of_cons in Hin as [->|[->|Hin]%elem_of_cons].
    + etrans; [|apply foldl_max_init]. lia.
    + etrans; [|apply foldl_max_init]. lia.
    + apply IH. by apply list_elem_of_further.
Qed.

Lemma foldl_max_elem x xs : foldl Z.max x xs ∈ x :: xs.
Proof.
  revert x. induction xs as [|z xs IH]; intros x; cbn [foldl].
  - apply list_elem_of_here.
  - specialize (IH (x `max` z)).
    apply elem_of_cons in IH as [->|Hin].
    + destruct (Z.max_spec x z) as [[_ ->]|[_ ->]].
      * apply list_elem_of_further, list_elem_of_here.
      * apply list_elem_of_here.
    + by do 2 apply list_elem_of_further.
Qed.

(** *** Rounding *)

Lemma round_half_even_bounds n d l h :
  0 < d → l * d ≤ n ≤ h * d → l ≤ round_half_even n d ≤ h.
Proof.
  intros Hd [Hl Hh]. unfold round_half_even.
  pose proof (Z.div_mod n d ltac:(lia)) as Hdm.
  pose proof (Z.mod_pos_bound n d Hd) as Hr.
  assert (l ≤ n `div` d) by (apply Z.div_le_lower_bound; lia).
  assert (n `div` d ≤ h) by (apply Z.div_le_upper_bound; lia).
  assert (n `mod` d ≠ 0 → n `div` d < h) by nia.
  destruct (Z.compare_spec (2 * (n `mod` d)) d);
    [destruct (Z.even (n `div` d))|..]; lia.
Qed.

Lemma log2_ratio_lt n d k :
  0 < n → 0 < d → 0 ≤ k → n < 2 ^ k * d → log2_ratio n d < k.
Proof.
  intros Hn Hd Hk Hlt. unfold log2_ratio. destruct (Z.leb_spec d n).
  - apply Z.log2_lt_pow2.
    + apply Z.div_str_pos. lia.
    + apply Z.div_lt_upper_bound; lia.
  - pose proof (Z.log2_up_nonneg ((d + n - 1) `div` n)).
    assert (1 < (d + n - 1) `div` n).
    { apply Z.lt_le_trans with ((2 * n) `div` n).
      - rewrite Z.div_mul by lia. lia.
      - apply Z.div_le_mono; lia. }
    assert (0 < Z.log2_up ((d + n - 1) `div` n)) by (apply Z.log2_up_pos; lia).
    lia.
Qed.

Lemma round_positive_nonpos fmt n d :
  0 < n → 0 < d → (round_positive fmt n d).2 ≤ 0 →
  (round_positive fmt n d).1
  = round_half_even (n * 2 ^ (- (round_positive fmt n d).2)) d.
Proof.
  unfold round_positive. cbn [fst snd].
  set (ex := Z.max _ _). intros Hn Hd Hex.
  destruct (Z.leb_spec 0 ex); [|done].
  replace ex with 0 by lia. cbn. by rewrite Z.mul_1_r, Z.mul_1_r.
Qed.

Lemma emin_neg fmt : emin fmt < 0.
Proof. by destruct fmt. Qed.

Lemma prec_le_emax fmt : 0 < prec fmt ≤ emax fmt.
Proof. by destruct fmt. Qed.

Lemma Qred_inject_Z z : Qred (inject_Z z) = inject_Z z.
Proof.
  unfold Qred, inject_Z.
  pose proof (Z.ggcd_gcd z 1) as Hg.
  pose proof (Z.ggcd_correct_divisors z 1) as Hdiv.
  destruct (Z.ggcd z 1) as [g [a b]]. cbn [fst snd] in *.
  rewrite Z.gcd_1_r in Hg. subst g. destruct Hdiv as [Ha Hb].
  replace a with z by lia. by replace b with 1 by lia.
Qed.

Lemma scaled_nonpos m ex :
  ex ≤ 0 → (scaled m ex == m # Z.to_pos (2 ^ (- ex)))%Q.
Proof.
  intros Hex. unfold scaled. destruct (Z.leb_spec 0 ex); [|reflexivity].
  replace ex with 0 by lia. cbn. unfold Qeq. cbn. lia.
Qed.

(** A non-negative integer below [2 ^ prec] is a float of the format. *)
Lemma round_to_integer fmt z :
  0 ≤ z < 2 ^ prec fmt → round_to fmt (inject_Z z) = Finite (inject_Z z).
Proof.
  intros [Hz Hlt]. unfold round_to. cbn [inject_Z Qnum Qden].
  destruct z as [|p|p]; [done| |lia].
  pose proof (prec_le_emax fmt) as Hprec. pose proof (emin_neg fmt) as Hemin.
  assert ((round_positive fmt (Z.pos p) 1).2 ≤ 0) as Hex.
  { unfold round_positive. cbn [snd].
    assert (log2_ratio (Z.pos p) 1 < prec fmt).
    { apply log2_ratio_lt; lia. }
    lia. }
  pose proof (round_positive_nonpos fmt (Z.pos p) 1 ltac:(lia) ltac:(lia) Hex) as Hm.
  destruct (round_positive fmt (Z.pos p) 1) as [m ex]. cbn [fst snd] in *.
  set (t := - ex) in *.
  assert (0 < 2 ^ t) by (apply Z.pow_pos_nonneg; lia).
  assert (m = Z.pos p * 2 ^ t) as ->.
  { pose proof (round_half_even_bounds (Z.pos p * 2 ^ t) 1 (Z.pos p * 2 ^ t)
                  (Z.pos p * 2 ^ t) ltac:(lia) ltac:(lia)). lia. }
  assert (Z.pos p * 2 ^ t < 2 ^ (emax fmt - ex)).
  { replace (emax fmt - ex) with (emax fmt + t) by lia.
    rewrite Z.pow_add_r by lia.
    assert (2 ^ prec fmt ≤ 2 ^ emax fmt) by (apply Z.pow_le_mono_r; lia).
    nia. }
  destruct (Z.leb_spec (2 ^ (emax fmt - ex)) (Z.pos p * 2 ^ t)); [lia|].
  f_equal. rewrite <- (Qred_inject_Z (Z.pos p)). apply Qred_complete.
  rewrite scaled_nonpos by done. fold t. unfold Qeq. cbn [Qnum Qden inject_Z].
  rewrite Z2Pos.id by done. lia.
Qed.

Lemma truncate_nonneg q :
  (0 <= q)%Q → truncate (Finite q) = Qfloor q.
Proof.
  intros Hq. unfold truncate, Qfloor. destruct q as [n d]. cbn [Qnum Qden].
  unfold Qle in Hq. cbn in Hq. apply Z.quot_div_nonneg; lia.
Qed.

(** The [float64] nearest to a quotient of integers has the integer part
    of the quotient, for a divisor of at most 32 bits and a quotient below
    [2 ^ 16]. *)
Lemma round_to_quotient a d :
  0 ≤ a → 0 < d ≤ 2 ^ 32 → a `div` d < 2 ^ 16 →
  ∃ q, round_to binary64 (inject_Z a / inject_Z d) = Finite q ∧
       truncate (Finite q) = a `div` d.
Proof.
  intros Ha [Hd Hd32] Hk.
  destruct d as [|pd|pd]; [lia| |lia].
  unfold round_to, Qdiv, Qinv, Qmult, inject_Z. cbn [Qnum Qden].
  rewrite Z.mul_1_r, Pos.mul_1_l.
  destruct a as [|pa|pa]; [|clear Ha|lia].
  { exists 0%Q. split; [done|]. by rewrite Z.div_0_l. }
  set (a := Z.pos pa) in *. set (d := Z.pos pd) in *. set (k := a `div` d) in *.
  pose proof (Z.div_mod a d ltac:(lia)) as Hdm.
  pose proof (Z.mod_pos_bound a d Hd) as Hr. fold k in Hdm.
  assert (0 ≤ k) by (apply Z.div_pos; lia).
  assert ((round_positive binary64 a d).2 ≤ - 32) as Hex.
  { unfold round_positive. cbn [snd].
    assert (log2_ratio a d < 16).
    { apply log2_ratio_lt; [lia..|]. nia. }
    unfold emin, emax, prec. lia. }
  pose proof (round_positive_nonpos binary64 a d ltac:(lia) ltac:(lia) ltac:(lia)) as Hm.
  destruct (round_positive binary64 a d) as [m ex]. cbn [fst snd] in *.
  set (t := - ex) in *.
  assert (0 < 2 ^ (t - 32)) by (apply Z.pow_pos_nonneg; lia).
  assert (2 ^ t = 2 ^ (t - 32) * 2 ^ 32) as Ht.
  { rewrite <- Z.pow_add_r by lia. f_equal. lia. }
  assert (k * 2 ^ t ≤ m ≤ (k + 1) * 2 ^ t - 2 ^ (t - 32)) as [Hm1 Hm2].
  { rewrite Hm. apply round_half_even_bounds; [done|]. nia. }
  assert (0 < 2 ^ t) by lia.
  assert (m < 2 ^ (emax binary64 - ex)).
  { replace (emax binary64 - ex) with (1024 + t) by (unfold emax; lia).
    rewrite Z.pow_add_r by lia.
    assert (2 ^ 16 ≤ 2 ^ 1024) by (apply Z.pow_le_mono_r; lia). nia. }
  destruct (Z.leb_spec (2 ^ (emax binary64 - ex)) m); [lia|].
  eexists. split; [done|].
  assert (scaled m ex == m # Z.to_pos (2 ^ t))%Q as Hs by (apply scaled_nonpos; lia).
  rewrite truncate_nonneg.
  2:{ rewrite Qred_correct, Hs. unfold Qle. cbn. nia. }
  rewrite Qred_correct, Hs. unfold Qfloor. rewrite Z2Pos.id by done.
  symmetry. apply Z.div_unique with (m - k * 2 ^ t); lia.
Qed.

(** *** Items of an integer dtype *)

Lemma wrap_representable signed w z : representable signed w z → wrap signed w z = z.
Proof.
  unfold representable, wrap. intros Hz.
  assert (2 ^ bits_of w = 2 * 2 ^ (bits_of w - 1)) as Hpow by (by destruct w).
  assert (0 < 2 ^ (bits_of w - 1)) by (by destruct w).
  destruct signed; cbn [andb].
  - destruct (Z.leb_spec (2 ^ (bits_of w - 1)) (z `mod` 2 ^ bits_of w)) as [Hge|Hlt].
    + destruct (Z.neg_nonneg_cases z) as [Hneg|Hpos].
      * rewrite <- (Z.mod_add z 1) by lia.
        rewrite Z.mod_small by lia. lia.
      * rewrite Z.mod_small in Hge by lia. lia.
    + destruct (Z.neg_nonneg_cases z) as [Hneg|Hpos].
      * rewrite <- (Z.mod_add z 1) in Hlt by lia.
        rewrite Z.mod_small in Hlt by lia. lia.
      * apply Z.mod_small. lia.
  - apply Z.mod_small. lia.
Qed.

Lemma promote_types_same dt : promote_types dt dt = dt.
Proof.
  destruct dt as [s w|f]; cbn.
  - rewrite Bool.eqb_reflx. unfold wider. by rewrite Z.ltb_irrefl.
  - by destruct f.
Qed.

Lemma subtract_integers s w a b :
  subtract (Integer s w a) (Integer s w b) = Integer s w (wrap s w (a - b)).
Proof. unfold subtract. cbn [dtype_of]. by rewrite promote_types_same. Qed.

Lemma multiply_float_integer s w a c :
  0 ≤ a → 0 ≤ c → a * c < 2 ^ 53 → c < 2 ^ 53 → a < 2 ^ 53 →
  multiply_float (Integer s w a) (of_int c)
  = Floating binary64 (Finite (inject_Z (a * c))).
Proof.
  intros Ha Hc Hac Hc' Ha'.
  unfold multiply_float, float_value, round_float, of_int, fmul.
  rewrite !round_to_integer by (cbn; lia).
  change (inject_Z a * inject_Z c)%Q with (inject_Z (a * c)).
  by rewrite round_to_integer by (cbn; lia).
Qed.

Lemma true_divide_integer s w a d bits :
  0 ≤ a < 2 ^ 53 → 0 < d ≤ 2 ^ 32 → a `div` d < 2 ^ 16 →
  a `div` d < 2 ^ bits →
  astype_unsigned bits
    (true_divide (Floating binary64 (Finite (inject_Z a))) (Integer s w d))
  = a `div` d.
Proof.
  intros Ha Hd Hk Hbits. unfold true_divide. cbn [dtype_of promote_types].
  assert ((match (if bits_of w <=? 16 then FloatType binary64 else FloatType binary64) with
           | IntType _ _ => binary64
           | FloatType f => f
           end) = binary64) as -> by (by destruct (bits_of w <=? 16)).
  unfold float_value, round_float.
  rewrite !round_to_integer by (cbn; lia).
  unfold fdiv. unfold Qeq_bool at 1. cbn [Qnum Qden inject_Z].
  rewrite (proj2 (Z.eqb_neq _ _)) by lia.
  destruct (round_to_quotient a d ltac:(lia) Hd Hk) as (q & -> & Hq).
  unfold astype_unsigned. cbn [int_value]. rewrite Hq.
  apply Z.mod_small. split; [apply Z.div_pos; lia|done].
Qed.

(** One voxel of an array of an integer dtype whose range [hi - lo] is a
    value of the dtype and is below [2 ^ 32]: the cast returns the integer
    part of the exact quotient. *)
Lemma rescale_voxel_integer s w bits omax lo hi z :
  0 ≤ omax < 2 ^ bits → bits ≤ 16 →
  lo < hi → lo ≤ z ≤ hi →
  representable s w (hi - lo) → hi - lo < 2 ^ 32 →
  rescale_voxel bits omax (Integer s w lo) (Integer s w hi) (Integer s w z)
  = ((z - lo) * omax) `div` (hi - lo).
Proof.
  intros Homax Hbits Hlt Hz Hfit H32.
  assert (2 ^ bits ≤ 2 ^ 16) by (apply Z.pow_le_mono_r; lia).
  assert (representable s w (z - lo)) as Hfit'.
  { unfold representable in *. destruct s; lia. }
  unfold rescale_voxel, rescale_float.
  rewrite !subtract_integers, !wrap_representable by done.
  assert (0 ≤ (z - lo) * omax) by nia.
  assert ((z - lo) * omax < 2 ^ 32 * 2 ^ 16) by nia.
  rewrite multiply_float_integer by lia.
  assert (((z - lo) * omax) `div` (hi - lo) ≤ omax).
  { apply Z.div_le_upper_bound; [lia|]. nia. }
  apply true_divide_integer; lia.
Qed.

Lemma minimum_integer s w a b :
  minimum (Integer s w a) (Integer s w b) = Integer s w (a `min` b).
Proof.
  unfold minimum, flt, Qle_bool. cbn. rewrite !Z.mul_1_r.
  destruct (Z.leb_spec a b); cbn; f_equal; lia.
Qed.

Lemma maximum_integer s w a b :
  maximum (Integer s w a) (Integer s w b) = Integer s w (a `max` b).
Proof.
  unfold maximum, flt, Qle_bool. cbn. rewrite !Z.mul_1_r.
  destruct (Z.leb_spec b a); cbn; f_equal; lia.
Qed.

Lemma foldl_minimum_integer s w a zs :
  foldl minimum (Integer s w a) (Integer s w <$> zs) = Integer s w (foldl Z.min a zs).
Proof.
  revert a. induction zs as [|z zs IH]; intros a; [done|].
  cbn [fmap list_fmap foldl]. by rewrite minimum_integer, IH.
Qed.

Lemma foldl_maximum_integer s w a zs :
  foldl maximum (Integer s w a) (Integer s w <$> zs) = Integer s w (foldl Z.max a zs).
Proof.
  revert a. induction zs as [|z zs IH]; intros a; [done|].
  cbn [fmap list_fmap foldl]. by rewrite maximum_integer, IH.
Qed.

Lemma integer_items s w (l : list scalar) :
  Forall (λ x, dtype_of x = IntType s w) l → l = Integer s w <$> (int_value <$> l).
Proof.
  induction 1 as [|x l Hx _ IH]; [done|].
  cbn [fmap list_fmap]. rewrite <- IH. f_equal.
  destruct x; [|done]. by injection Hx as -> ->.
Qed.

Lemma integer_item s w (data : ndarray scalar) x :
  has_dtype (IntType s w) data → x ∈ flatten data → x = Integer s w (int_value x).
Proof.
  unfold has_dtype. rewrite Forall_forall. intros Hall Hx.
  specialize (Hall _ Hx). destruct x; [|done]. by injection Hall as -> ->.
Qed.

Lemma amin_spec s w (data : ndarray scalar) lo :
  has_dtype (IntType s w) data → amin data = Ok (Integer s w lo) →
  Integer s w lo ∈ flatten data ∧ ∀ x, x ∈ flatten data → lo ≤ int_value x.
Proof.
  unfold has_dtype, amin. intros Hall%integer_items. rewrite Hall.
  destruct (int_value <$> flatten data) as [|z zs]; [done|].
  cbn [fmap list_fmap]. rewrite foldl_minimum_integer. intros [= <-]. split.
  - rewrite <- fmap_cons. apply list_elem_of_fmap_2, foldl_min_elem.
  - intros x. rewrite <- fmap_cons.
    intros (y & -> & Hy)%list_elem_of_fmap. by apply foldl_min_le.
Qed.

Lemma amax_spec s w (data : ndarray scalar) hi :
  has_dtype (IntType s w) data → amax data = Ok (Integer s w hi) →
  Integer s w hi ∈ flatten data ∧ ∀ x, x ∈ flatten data → int_value x ≤ hi.
Proof.
  unfold has_dtype, amax. intros Hall%integer_items. rewrite Hall.
  destruct (int_value <$> flatten data) as [|z zs]; [done|].
  cbn [fmap list_fmap]. rewrite foldl_maximum_integer. intros [= <-]. split.
  - rewrite <- fmap_cons. apply list_elem_of_fmap_2, foldl_max_elem.
  - intros x. rewrite <- fmap_cons.
    intros (y & -> & Hy)%list_elem_of_fmap. by apply foldl_max_ge.
Qed.

Lemma rescale_items bits omax (data : ndarray scalar) lo hi :
  amin data = Ok lo → amax data = Ok hi →
  rescale bits omax data = Ok (amap (rescale_voxel bits omax lo hi) data).
Proof. intros Hlo Hhi. unfold rescale. by rewrite Hlo, Hhi. Qed.

Lemma flatten_amap {A B} (f : A → B) (a : ndarray A) :
  flatten (amap f a) = f <$> flatten a.
Proof. unfold flatten, amap. cbn. by rewrite <- list_fmap_compose. Qed.

(** *** The voxel of least intensity *)

Lemma foldl_minimum_elem x xs : foldl minimum x xs ∈ x :: xs.
Proof.
  revert x. induction xs as [|y xs IH]; intros x; cbn [foldl].
  - apply list_elem_of_here.
  - specialize (IH (minimum x y)).
    apply elem_of_cons in IH as [->|Hin]; [|by do 2 apply list_elem_of_further].
    unfold minimum. repeat case_match;
      (apply list_elem_of_here || apply list_elem_of_further, list_elem_of_here).
Qed.

Lemma amin_elem (data : ndarray scalar) lo : amin data = Ok lo → lo ∈ flatten data.
Proof.
  unfold amin. destruct (flatten data) as [|x xs]; [done|].
  intros [= <-]. apply foldl_minimum_elem.
Qed.

Lemma round_to_diag fmt q : round_to fmt (q - q) = Finite 0.
Proof.
  unfold round_to. replace (Qnum (q - q)) with 0; [done|].
  destruct q as [n d]. cbn. lia.
Qed.

Lemma fsub_diag fmt x : fsub fmt x x = Finite 0 ∨ fsub fmt x x = NaN.
Proof.
  destruct x as [q|s|]; cbn.
  - left. apply round_to_diag.
  - right. by rewrite Bool.eqb_reflx.
  - by right.
Qed.

Lemma round_float_zero_or_nan fmt x : x = Finite 0 ∨ x = NaN → round_float fmt x = x.
Proof. by intros [-> | ->]. Qed.

Lemma fmul_zero_or_nan fmt x c :
  x = Finite 0 ∨ x = NaN → fmul fmt x c = Finite 0 ∨ fmul fmt x c = NaN.
Proof.
  intros [-> | ->]; [|by right].
  destruct c as [q|s|]; cbn; [by left|by right|by right].
Qed.

Lemma fdiv_zero_or_nan fmt x y :
  x = Finite 0 ∨ x = NaN → fdiv fmt x y = Finite 0 ∨ fdiv fmt x y = NaN.
Proof.
  intros [-> | ->]; [|by right].
  destruct y as [b|s|]; cbn; [|by left|by right].
  destruct (Qeq_bool b 0); [by right|by left].
Qed.

(** The dividend of a voxel equal to [lo] is a zero or NaN. *)
Lemma multiply_subtract_diag omax v :
  ∃ fmt x, (x = Finite 0 ∨ x = NaN) ∧
    multiply_float (subtract v v) (of_int omax) = Floating fmt x.
Proof.
  destruct v as [s w z|f x].
  - rewrite subtract_integers, Z.sub_diag.
    assert (wrap s w 0 = 0) as -> by (by destruct s, w).
    unfold multiply_float. cbn [float_value].
    eexists binary64, _. split; [|done]. apply fmul_zero_or_nan. by left.
  - unfold subtract. cbn [dtype_of]. rewrite promote_types_same.
    unfold multiply_float. cbn [float_value].
    pose proof (fsub_diag f (round_float f x)) as Hz.
    rewrite (round_float_zero_or_nan _ _ Hz).
    eexists f, _. split; [|done]. by apply fmul_zero_or_nan.
Qed.

Lemma true_divide_zero_or_nan fmt x d :
  x = Finite 0 ∨ x = NaN →
  ∃ fmt' y, (y = Finite 0 ∨ y = NaN) ∧
    true_divide (Floating fmt x) d = Floating fmt' y.
Proof.
  intros Hx. unfold true_divide. eexists _, _. split; [|done].
  cbn [float_value]. apply fdiv_zero_or_nan.
  by rewrite (round_float_zero_or_nan _ _ Hx).
Qed.

(** The voxel of the minimum is rescaled to 0, whatever the dtype and the
    maximum are. *)
Lemma rescale_voxel_min bits omax lo hi : rescale_voxel bits omax lo hi lo = 0.
Proof.
  unfold rescale_voxel, rescale_float.
  destruct (multiply_subtract_diag omax lo) as (fmt & x & Hx & ->).
  destruct (true_divide_zero_or_nan fmt x (subtract hi lo) Hx)
    as (fmt' & y & [-> | ->] & ->); apply Zmod_0_l.
Qed.

Lemma astype_unsigned_range bits x :
  0 < 2 ^ bits → 0 ≤ astype_unsigned bits x < 2 ^ bits.
Proof. intros Hbits. by apply Z.mod_pos_bound. Qed.

(** *** An integer dtype whose range does not overflow *)

(** The voxels of such an array, with the bounds on each. *)
Lemma rescale_voxel_exact s w bits omax (data : ndarray scalar) lo hi x :
  0 ≤ omax < 2 ^ bits → bits ≤ 16 →
  has_dtype (IntType s w) data →
  amin data = Ok (Integer s w lo) → amax data = Ok (Integer s w hi) → hi ≠ lo →
  representable s w (hi - lo) → hi - lo < 2 ^ 32 →
  x ∈ flatten data →
  lo < hi ∧ lo ≤ int_value x ≤ hi ∧
  rescale_voxel bits omax (Integer s w lo) (Integer s w hi) x
  = ((int_value x - lo) * omax) `div` (hi - lo).
Proof.
  intros Homax Hbits Hdt Hlo Hhi Hne Hfit H32 Hx.
  destruct (amin_spec _ _ _ _ Hdt Hlo) as [Hlo_in Hlo_le].
  destruct (amax_spec _ _ _ _ Hdt Hhi) as [Hhi_in Hhi_ge].
  assert (lo < hi) as Hlt by (specialize (Hlo_le _ Hhi_in); cbn in Hlo_le; lia).
  pose proof (Hlo_le _ Hx). pose proof (Hhi_ge _ Hx).
  split; [done|]. split; [lia|].
  rewrite (integer_item s w data x Hdt Hx) at 1.
  apply rescale_voxel_integer; (done || lia).
Qed.

Lemma rescaled_unsigned bits omax (data : ndarray scalar) lo hi :
  0 < 2 ^ bits → amin data = Ok lo →
  Forall (λ v, 0 ≤ v < 2 ^ bits)
    (flatten (amap (rescale_voxel bits omax lo hi) data)) ∧
  0 ∈ flatten (amap (rescale_voxel bits omax lo hi) data).
Proof.
  intros Hbits Hlo. rewrite flatten_amap. split.
  - apply Forall_fmap, Forall_forall. intros x _.
    by apply astype_unsigned_range.
  - apply list_elem_of_fmap. exists lo.
    split; [by rewrite rescale_voxel_min|by apply amin_elem].
Qed.

Lemma rescaled_integers signed w bits omax (data : ndarray scalar) lo hi :
  0 ≤ omax < 2 ^ bits → bits ≤ 16 →
  has_dtype (IntType signed w) data →
  amin data = Ok (Integer signed w lo) → amax data = Ok (Integer signed w hi) →
  hi ≠ lo →
  representable signed w (hi - lo) → hi - lo < 2 ^ 32 →
  flatten (amap (rescale_voxel bits omax (Integer signed w lo)
                   (Integer signed w hi)) data)
  = (λ x, ((int_value x - lo) * omax) `div` (hi - lo)) <$> flatten data ∧
  Forall (λ v, 0 ≤ v ≤ omax)
    (flatten (amap (rescale_voxel bits omax (Integer signed w lo)
                      (Integer signed w hi)) data)) ∧
  omax ∈ flatten (amap (rescale_voxel bits omax (Integer signed w lo)
                          (Integer signed w hi)) data).
Proof.
  intros Homax Hbits Hdt Hlo Hhi Hne Hfit H32.
  pose proof (rescale_voxel_exact signed w bits omax data lo hi) as Hvoxel.
  destruct (amax_spec _ _ _ _ Hdt Hhi) as [Hhi_in _].
  rewrite flatten_amap.
  assert (rescale_voxel bits omax (Integer signed w lo) (Integer signed w hi)
            <$> flatten data
          = (λ x, ((int_value x - lo) * omax) `div` (hi - lo)) <$> flatten data)
    as Hflat.
  { apply list_fmap_ext. intros i x Hx%list_elem_of_lookup_2. by apply Hvoxel. }
  rewrite Hflat. split_and!; [done|..].
  - apply Forall_fmap, Forall_forall. intros x Hx.
    destruct (Hvoxel x) as (Hlt & Hrange & _); [done..|]. cbn.
    split; [apply Z.div_pos; nia|].
    apply Z.div_le_upper_bound; [lia|]. nia.
  - apply list_elem_of_fmap. exists (Integer signed w hi). split; [|done].
    destruct (Hvoxel _ Homax Hbits Hdt Hlo Hhi Hne Hfit H32 Hhi_in) as (Hlt & _).
    cbn. by rewrite Z.mul_comm, Z.div_mul by lia.
Qed.

(** C2 (amended).  Each voxel becomes the float
    [(x - min) * omax / (max - min)] cast to the unsigned type of [bits]
    bits ([bits = 8], [omax = 255] in encoded mode; [bits = 16],
    [omax = 65535] in raw mode): the differences are taken in the dtype of
    the array, the product and the quotient are floats, and the cast
    truncates.  For every array that is not empty the rescaled voxels are
    values of the unsigned type and the minimum of the output is 0.  For an
    array of an integer dtype whose maximum differs from its minimum and
    whose range [max - min] is a value of the dtype and is below [2 ^ 32],
    every rescaled voxel is the integer part of the exact quotient and lies
    in [0, omax], and the maximum of the output is [omax]. *)
Theorem rescale_range bits omax (data : ndarray scalar) lo hi :
  0 ≤ omax < 2 ^ bits →
  amin data = Ok lo → amax data = Ok hi →
  ∃ out,
    rescale bits omax data = Ok out ∧
    Forall (λ v, 0 ≤ v < 2 ^ bits) (flatten out) ∧
    0 ∈ flatten out ∧
    ∀ signed w l h,
      bits ≤ 16 →
      has_dtype (IntType signed w) data →
      lo = Integer signed w l → hi = Integer signed w h → h ≠ l →
      representable signed w (h - l) → h - l < 2 ^ 32 →
      flatten out
      = (λ x, ((int_value x - l) * omax) `div` (h - l)) <$> flatten data ∧
      Forall (λ v, 0 ≤ v ≤ omax) (flatten out) ∧
      omax ∈ flatten out.
Proof.
  intros Homax Hlo Hhi.
  exists (amap (rescale_voxel bits omax lo hi) data).
  split; [by apply rescale_items|].
  destruct (rescaled_unsigned bits omax data lo hi ltac:(lia) Hlo) as [Hrange Hzero].
  split; [done|]. split; [done|].
  intros signed w l h Hbits Hdt -> -> Hne Hfit H32.
  by apply rescaled_integers.
Qed.

(** C2 (counterexample).  On the [int16] voxels 0, 1, 4 the 8-bit
    rescaling gives 63 for the middle voxel, where the rounded formula
    gives 64.  On the [int16] voxels -1000, 0, 1000, 32767 the range wraps
    to -31769 and the 16-bit rescaling gives 63474 and 61411 for the two
    middle voxels, where the formula gives 1941 and 3882.  On the [int64]
    voxels 0 and 5127070542049781, and on the [float32] voxels 0 and 0.3,
    the maximum of the output is 65534 and not 65535. *)
Lemma rescale_not_rounded :
  (∃ out,
     rescale 8 255 voxels_0_1_4 = Ok out ∧
     flatten out = [0; 63; 255] ∧
     spec_rescale 255 (int_value <$> flatten voxels_0_1_4) = [0; 64; 255]) ∧
  (∃ out,
     rescale 16 65535 voxels_wide = Ok out ∧
     flatten out = [0; 63474; 61411; 65535] ∧
     spec_rescale 65535 (int_value <$> flatten voxels_wide) = [0; 1941; 3882; 65535]) ∧
  (∃ out,
     rescale 16 65535 voxels_large = Ok out ∧
     flatten out = [0; 65534] ∧
     spec_rescale 65535 (int_value <$> flatten voxels_large) = [0; 65535]) ∧
  (∃ out,
     rescale 16 65535 voxels_float32 = Ok out ∧ flatten out = [0; 65534]).
Proof.
  split; [|split; [|split]].
  - eexists. split; [apply rescale_items; vm_compute; reflexivity|].
    split; vm_compute; reflexivity.
  - eexists. split; [apply rescale_items; vm_compute; reflexivity|].
    split; vm_compute; reflexivity.
  - eexists. split; [apply rescale_items; vm_compute; reflexivity|].
    split; vm_compute; reflexivity.
  - eexists. split; [apply rescale_items; vm_compute; reflexivity|].
    vm_compute; reflexivity.
Qed.

(** *** A constant volume *)

(** With [hi = lo] the divisor is zero too: the quotient is NaN. *)
Lemma rescale_float_degenerate omax v :
  ∃ fmt, rescale_float omax v v v = Floating fmt NaN.
Proof.
  unfold rescale_float.
  destruct (multiply_subtract_diag omax v) as (fmt & x & Hx & ->).
  assert (∃ fmt', (float_value fmt' (subtract v v) = Finite 0 ∨
                   float_value fmt' (subtract v v) = NaN) ∧
            true_divide (Floating fmt x) (subtract v v)
            = Floating fmt' (fdiv fmt' (round_float fmt' x)
                               (float_value fmt' (subtract v v))))
    as (fmt' & Hd & ->).
  { unfold true_divide. eexists. split; [|done].
    destruct v as [s w z|f y].
    - rewrite subtract_integers, Z.sub_diag.
      assert (wrap s w 0 = 0) as -> by (by destruct s, w). by left.
    - unfold subtract. cbn [dtype_of]. rewrite promote_types_same.
      cbn [float_value].
      pose proof (fsub_diag f (round_float f y)) as Hz.
      by rewrite (round_float_zero_or_nan _ _ Hz). }
  exists fmt'. f_equal. rewrite (round_float_zero_or_nan _ _ Hx).
  by destruct Hx as [-> | ->], Hd as [-> | ->].
Qed.

Lemma minimum_diag v : minimum v v = v.
Proof. unfold minimum. by repeat case_match. Qed.

Lemma maximum_diag v : maximum v v = v.
Proof. unfold maximum. by repeat case_match. Qed.

Lemma foldl_diag (f : scalar → scalar → scalar) v xs :
  f v v = v → Forall (λ x, x = v) xs → foldl f v xs = v.
Proof.
  intros Hf. induction 1 as [|x xs -> _ IH]; [done|].
  cbn [foldl]. by rewrite Hf.
Qed.

Lemma constant_min_max (data : ndarray scalar) v :
  (0 < size_of (shape data))%nat → Forall (λ x, x = v) (flatten data) →
  amin data = Ok v ∧ amax data = Ok v.
Proof.
  rewrite <- length_flatten. unfold amin, amax. intros Hsize Hall.
  destruct (flatten data) as [|x xs]; [cbn in Hsize; lia|].
  apply Forall_cons in Hall as [-> Hall].
  by rewrite !foldl_diag by (done || apply minimum_diag || apply maximum_diag).
Qed.

(** C3 (amended).  For a volume of one intensity, in either mode, the
    rescaling does not raise and every voxel of its output is 0.  The
    division is not guarded: its divisor is zero, every quotient is NaN,
    and it is the cast to the unsigned type that turns NaN into 0. *)
Theorem constant_volume_zeros bits omax (data : ndarray scalar) v :
  (0 < size_of (shape data))%nat →
  Forall (λ x, x = v) (flatten data) →
  amin data = Ok v ∧ amax data = Ok v ∧
  (∃ fmt, Forall (λ x, rescale_float omax v v x = Floating fmt NaN) (flatten data)) ∧
  ∃ out, rescale bits omax data = Ok out ∧ Forall (λ z, z = 0) (flatten out).
Proof.
  intros Hsize Hall.
  destruct (constant_min_max data v Hsize Hall) as [Hlo Hhi].
  destruct (rescale_float_degenerate omax v) as [fmt Hnan].
  split; [done|]. split; [done|]. split.
  - exists fmt. eapply Forall_impl; [exact Hall|]. by intros x ->.
  - eexists. split; [by apply rescale_items|].
    rewrite flatten_amap. apply Forall_fmap.
    eapply Forall_impl; [exact Hall|]. intros x ->.
    cbn. unfold rescale_voxel. rewrite Hnan. apply Zmod_0_l.
Qed.

(** C3 (counterexample).  On the uniform volume of shape (10, 20, 30) and
    intensity 5 nothing guards the division: the divisor [max - min] is 0
    and the quotient of every voxel is NaN, in both modes. *)
Lemma constant_volume_unguarded :
  amin uniform_volume = Ok (Integer true w16 5) ∧
  amax uniform_volume = Ok (Integer true w16 5) ∧
  subtract (Integer true w16 5) (Integer true w16 5) = Integer true w16 0 ∧
  (∀ idx, rescale_float 255 (Integer true w16 5) (Integer true w16 5)
            (item uniform_volume idx) = Floating binary64 NaN) ∧
  (∀ idx, rescale_float 65535 (Integer true w16 5) (Integer true w16 5)
            (item uniform_volume idx) = Floating binary64 NaN).
Proof.
  split; [vm_compute; reflexivity|]. split; [vm_compute; reflexivity|].
  split; [reflexivity|]. split; intros idx; vm_compute; reflexivity.
Qed.

End Rescale.

(** ** The stack viewer *)

Section StackViewer.

Context (w : world).

Lemma check_sizes_from paths s0 :
  Forall (λ path, is_Some (image_sizes w !! path)) paths →
  (check_sizes module_globals w paths (Some s0) = Ok None ∧
     ∃ path s, path ∈ paths ∧ image_sizes w !! path = Some s ∧ s ≠ s0) ∨
  (check_sizes module_globals w paths (Some s0) = Ok (Some (Some s0)) ∧
     ∀ path, path ∈ paths → image_sizes w !! path = Some s0).
Proof.
  induction 1 as [|path paths [s Hs] _ IH].
  - right. split; [done|]. intros path Hin. by apply elem_of_nil in Hin.
  - cbn [check_sizes]. resolve_names. rewrite Hs.
    destruct (decide (s0 = s)) as [->|Hne].
    + rewrite bool_decide_eq_false_2 by (intros Hc; by apply Hc).
      destruct IH as [[-> (p & t & Hin & Hp & Hne)]|[-> Hall]].
      * left. split; [done|]. exists p, t.
        split_and!; [by apply list_elem_of_further|done..].
      * right. split; [done|]. intros p [->|Hin]%elem_of_cons; auto.
    + rewrite bool_decide_eq_true_2 by done.
      left. split; [done|]. exists path, s.
      split_and!; [apply list_elem_of_here|done|congruence].
Qed.

Lemma check_sizes_start paths :
  Forall (λ path, is_Some (image_sizes w !! path)) paths →
  (check_sizes module_globals w paths None = Ok None ∧ size_mismatch w paths) ∨
  ((∃ stack_size, check_sizes module_globals w paths None = Ok (Some stack_size)) ∧
     ¬ size_mismatch w paths).
Proof.
  destruct 1 as [|first paths [s0 Hs0] Hrest].
  - right. split; [by eexists|]. intros (first & ? & ? & ? & Hfirst & _). done.
  - cbn [check_sizes]. resolve_names. rewrite Hs0.
    destruct (check_sizes_from paths s0 Hrest)
      as [[-> (p & t & Hin & Hp & Hne)]|[-> Hall]].
    + left. split; [done|]. exists first, p, s0, t.
      split_and!; [done|by apply list_elem_of_further|done..].
    + right. split; [by eexists|].
      intros (first' & p & s0' & t & Hfirst & Hin & Hs0' & Hp & Hne).
      cbn in Hfirst. simplify_eq.
      apply elem_of_cons in Hin as [->|Hin]; [congruence|].
      rewrite (Hall _ Hin) in Hp. congruence.
Qed.

Lemma check_inputs_decides items shapes nb_slices :
  all_openable w items →
  (check_inputs module_globals w items shapes nb_slices = Ok None ∧
     rejected_input w items) ∨
  ((∃ out, check_inputs module_globals w items shapes nb_slices = Ok (Some out)) ∧
     ¬ rejected_input w items).
Proof.
  intros Hall. revert shapes nb_slices.
  induction Hall as [|[orient fpaths] items Hpaths _ IH]; intros shapes nb_slices.
  - right. split; [by eexists|]. intros (? & ? & Hin & _). by apply elem_of_nil in Hin.
  - cbn [check_inputs]. case_bool_decide as Horient.
    { left. split; [done|]. exists orient, fpaths.
      split; [apply list_elem_of_here|by left]. }
    destruct (check_sizes_start fpaths Hpaths) as [[-> Hmis]|[[stack_size ->] Hok]];
      cbn [mbind result_bind].
    { left. split; [done|]. exists orient, fpaths.
      split; [apply list_elem_of_here|by right]. }
    match goal with
    | |- context [check_inputs _ _ _ ?s ?n] =>
        destruct (IH s n) as [[-> Hrej]|[[out ->] Hacc]]
    end.
    + left. split; [done|]. destruct Hrej as (o & ps & Hin & Hbad).
      exists o, ps. split; [by apply list_elem_of_further|done].
    + right. split; [by eexists|].
      intros (o & ps & Hin & Hbad).
      apply elem_of_cons in Hin as [Heq|Hin].
      * simplify_eq. destruct Hbad as [Hbad|Hbad]; [|done].
        apply Hbad. by apply dec_stable.
      * apply Hacc. by exists o, ps.
Qed.


End StackViewer.

(** ** The base64 callback *)

Section B64Images.

Context (w : world).

Lemma encode_files_readable fpaths :
  Forall (λ path, is_Some (files w !! path)) fpaths →
  encode_files module_globals w fpaths = Ok (encoded_stack w fpaths).
Proof.
  unfold encode_files, encoded_stack.
  induction 1 as [|path fpaths [contents Hc] _ IH]; [done|].
  cbn [fmap list_fmap]. apply mapM_cons_ok; [|exact IH].
  unfold file_contents. rewrite Hc. by resolve_names.
Qed.

Lemma b64_images_loop_readable items output :
  NoDup items.*1 →
  Forall (λ it, Forall (λ path, is_Some (files w !! path)) it.2) items →
  b64_images_loop module_globals w items output
  = Ok ((encoded_stack w <$> (list_to_map items : gmap string (list string)))
        ∪ output).
Proof.
  intros Hnd Hall. revert output.
  induction Hall as [|[orient fpaths] items Hpaths _ IH]; intros output.
  - cbn. by rewrite fmap_empty, (left_id_L ∅ (∪)).
  - apply NoDup_cons in Hnd as [Hnotin Hnd].
    cbn [b64_images_loop]. rewrite encode_files_readable by done.
    cbn [mbind result_bind]. rewrite IH by done. f_equal.
    cbn [list_to_map foldr uncurry Datatypes.uncurry fst snd].
    rewrite fmap_insert, <- insert_union_l, <- insert_union_r; [done|].
    rewrite lookup_fmap. by rewrite (not_elem_of_list_to_map_1 _ _ Hnotin).
Qed.

Lemma get_b64_images_readable (file_data : gmap string (list string)) items :
  items ≡ₚ map_to_list file_data →
  map_Forall (λ _ fpaths, Forall (λ path, is_Some (files w !! path)) fpaths)
    file_data →
  get_b64_images module_globals w items = Ok (encoded_stack w <$> file_data).
Proof.
  intros Hperm Hall. unfold get_b64_images. resolve_names.
  assert (NoDup items.*1) as Hnd.
  { rewrite Hperm. apply NoDup_fst_map_to_list. }
  rewrite b64_images_loop_readable; [|done|].
  - rewrite (right_id_L ∅ (∪)).
    rewrite (list_to_map_proper items (map_to_list file_data)) by done.
    by rewrite list_to_map_to_list.
  - apply Forall_forall. intros [orient fpaths] Hin. cbn.
    rewrite Hperm in Hin. apply elem_of_map_to_list in Hin.
    by apply (Hall orient fpaths).
Qed.

(** C9.  For a dictionary [file_data] iterated in any order and whose
    listed files can all be read, [get_b64_images] returns a dictionary
    with the keys of [file_data]; under each key the i-th element is the
    base64 encoding of the bytes of the i-th file, and decoding it gives
    these bytes back.  No condition is put on the keys. *)
Theorem get_b64_images_roundtrip
    (file_data : gmap string (list string)) (items : list (string * list string)) :
  items ≡ₚ map_to_list file_data →
  map_Forall (λ _ fpaths, Forall (λ path, is_Some (files w !! path)) fpaths)
    file_data →
  ∃ output,
    get_b64_images module_globals w items = Ok output ∧
    dom output = dom file_data ∧
    ∀ orient fpaths, file_data !! orient = Some fpaths →
      ∃ encoded_images,
        output !! orient = Some encoded_images ∧
        length encoded_images = length fpaths ∧
        ∀ i path, fpaths !! i = Some path →
          ∃ contents,
            files w !! path = Some contents ∧
            encoded_images !! i = Some (Base64.b64encode contents) ∧
            Base64.b64decode (Base64.b64encode contents) = Some contents.
Proof.
  intros Hperm Hall. eexists. split; [by apply get_b64_images_readable|].
  split; [by rewrite dom_fmap_L|].
  intros orient fpaths Hlook. exists (encoded_stack w fpaths).
  split; [by rewrite lookup_fmap, Hlook|].
  split; [apply length_fmap|].
  intros i path Hi.
  pose proof (Hall _ _ Hlook) as Hpaths.
  rewrite Forall_lookup in Hpaths. destruct (Hpaths _ _ Hi) as [contents Hc].
  exists contents. split; [done|]. split.
  - unfold encoded_stack. rewrite list_lookup_fmap, Hi. cbn.
    unfold file_contents. by rewrite Hc.
  - apply Base64Facts.b64decode_b64encode.
Qed.

End B64Images.

(** ** The BrainBrowser header *)

Section Header.

Lemma axis_entry_spatial start len step (srow : vec float64 4) :
  is_spatial_axis start len step srow (axis_entry start len step srow).
Proof.
  unfold is_spatial_axis, axis_entry. eexists. split; [done|].
  inv_vec srow. intros s0 s1 s2 s3. by split_and!.
Qed.

Lemma header_3d_spec h :
  header_3d h !! "order"%string = Some (VList [VStr "xspace"; VStr "yspace"; VStr "zspace"]) ∧
  header_3d h !! "time"%string = None ∧
  dom (header_3d h) = {["order"; "xspace"; "yspace"; "zspace"]}%string ∧
  has_spatial_axes h (header_3d h).
Proof.
  split_and!; try done.
  unfold has_spatial_axes. split_and!; (eexists; split; [done|apply axis_entry_spatial]).
Qed.

Lemma header_4d_spec h :
  header_4d h !! "order"%string
  = Some (VList [VStr "time"; VStr "xspace"; VStr "yspace"; VStr "zspace"]) ∧
  (∃ v, header_4d h !! "time"%string = Some v ∧ is_time_axis (dim h !!! 4%fin) v) ∧
  dom (header_4d h) = {["order"; "xspace"; "yspace"; "zspace"; "time"]}%string ∧
  has_spatial_axes h (header_4d h).
Proof.
  split_and!; try done.
  - eexists. split; [done|]. eexists. by split_and!.
  - unfold has_spatial_axes. split_and!; (eexists; split; [done|apply axis_entry_spatial]).
Qed.
End Header.

(** ** Raw mode *)

Section RawMode.
Context (w : world).

Lemma raw_payload_3d h (data : ndarray scalar) lo hi :
  dim h !!! 0%fin = 3 → amin data = Ok lo → amax data = Ok hi →
  raw_payload module_globals w h data
  = Ok (ImInfo (json_dumps w (VDict (header_3d h)))
          (flatten (amap (rescale_voxel 16 65535 lo hi) data))).
Proof.
  intros Hdim Hlo Hhi. unfold raw_payload. resolve_names.
  rewrite (rescale_items _ _ _ lo hi) by done. cbn [mbind result_bind].
  rewrite bool_decide_eq_true_2 by done. cbn [mbind result_bind].
  by resolve_names.
Qed.

Lemma raw_payload_4d h (data : ndarray scalar) lo hi X Y Z T :
  dim h !!! 0%fin = 4 → amin data = Ok lo → amax data = Ok hi →
  shape data = [X; Y; Z; T] →
  ∃ data',
    raw_payload module_globals w h data
    = Ok (ImInfo (json_dumps w (VDict (header_4d h))) (flatten data')) ∧
    shape data' = [T; X; Y; Z] ∧
    ∀ t x y z, item data' [t; x; y; z]
               = rescale_voxel 16 65535 lo hi (item data [x; y; z; t]).
Proof.
  intros Hdim Hlo Hhi Hshape. unfold raw_payload. resolve_names.
  rewrite (rescale_items _ _ _ lo hi) by done. cbn [mbind result_bind].
  rewrite bool_decide_eq_false_2 by (rewrite Hdim; lia).
  rewrite bool_decide_eq_true_2 by done. resolve_names.
  destruct (transpose_time_first (amap (rescale_voxel 16 65535 lo hi) data) X Y Z T Hshape)
    as (data' & -> & Hshape' & Hitem).
  cbn [mbind result_bind]. resolve_names.
  exists data'. split; [done|]. split; [done|].
  intros t x y z. by rewrite Hitem.
Qed.

Lemma raw_mode_primary imagefile im data :
  nibabel_load w imagefile = Ok im → nib_get_data im = Ok data →
  get_brainbrowser_image module_globals w imagefile
  = raw_payload module_globals w (nib_header im) data.
Proof.
  intros Hload Hdata. unfold get_brainbrowser_image. resolve_names.
  rewrite Hload. cbn [mbind result_bind]. unfold read_voxels. by rewrite Hdata.
Qed.

(** C5.  In raw mode the data of the payload is the rescaled buffer in
    row-major order: for a volume of shape (X, Y, Z) the voxel (x, y, z) is
    at position (x*Y + y)*Z + z, and for a 4D buffer of shape (X, Y, Z, T),
    transposed to put time first, the voxel (x, y, z) of timepoint t is at
    position ((t*X + x)*Y + y)*Z + z; the sequence has as many items as the
    buffer (96 for time 2 and space 4, 4, 3). *)
Theorem raw_mode_row_major imagefile im (data : ndarray scalar) :
  nibabel_load w imagefile = Ok im →
  nib_get_data im = Ok data →
  (0 < size_of (shape data))%nat →
  ∃ lo hi,
    amin data = Ok lo ∧ amax data = Ok hi ∧
    (∀ X Y Z,
       dim (nib_header im) !!! 0%fin = 3 → shape data = [X; Y; Z] →
       ∃ payload,
         get_brainbrowser_image module_globals w imagefile = Ok payload ∧
         length (info_data payload) = (X * Y * Z)%nat ∧
         ∀ x y z, (x < X)%nat → (y < Y)%nat → (z < Z)%nat →
           info_data payload !! ((x * Y + y) * Z + z)%nat
           = Some (rescale_voxel 16 65535 lo hi (item data [x; y; z]))) ∧
    (∀ X Y Z T,
       dim (nib_header im) !!! 0%fin = 4 → shape data = [X; Y; Z; T] →
       ∃ payload,
         get_brainbrowser_image module_globals w imagefile = Ok payload ∧
         length (info_data payload) = (T * X * Y * Z)%nat ∧
         ∀ t x y z, (t < T)%nat → (x < X)%nat → (y < Y)%nat → (z < Z)%nat →
           info_data payload !! (((t * X + x) * Y + y) * Z + z)%nat
           = Some (rescale_voxel 16 65535 lo hi (item data [x; y; z; t]))).
Proof.
  intros Hload Hdata Hsize.
  destruct (nonempty_min_max data Hsize) as (lo & hi & Hlo & Hhi).
  exists lo, hi. split_and!; [done..| |].
  - intros X Y Z Hdim Hshape. eexists. split.
    { rewrite (raw_mode_primary _ _ _ Hload Hdata). by apply raw_payload_3d. }
    cbn [info_data]. split.
    + rewrite length_flatten. cbn [amap shape]. rewrite Hshape.
      cbn [size_of foldr]. lia.
    + intros x y z Hx Hy Hz.
      replace ((x * Y + y) * Z + z)%nat
        with (ravel (shape (amap (rescale_voxel 16 65535 lo hi) data)) [x; y; z]).
      * rewrite lookup_flatten; [done|]. cbn [amap shape]. rewrite Hshape.
        by repeat constructor.
      * cbn [amap shape]. rewrite Hshape. cbn [ravel size_of foldr]. lia.
  - intros X Y Z T Hdim Hshape.
    destruct (raw_payload_4d (nib_header im) data lo hi X Y Z T Hdim Hlo Hhi Hshape)
      as (data' & Hraw & Hshape' & Hitem).
    eexists. split.
    { rewrite (raw_mode_primary _ _ _ Hload Hdata). exact Hraw. }
    cbn [info_data]. split.
    + rewrite length_flatten, Hshape'. cbn [size_of foldr]. lia.
    + intros t x y z Ht Hx Hy Hz.
      replace (((t * X + x) * Y + y) * Z + z)%nat
        with (ravel (shape data') [t; x; y; z]).
      * rewrite lookup_flatten, Hitem; [done|]. rewrite Hshape'.
        by repeat constructor.
      * rewrite Hshape'. cbn [ravel size_of foldr]. lia.
Qed.

(** C8.  In raw mode, when [im.get_data()] raises, the old reader is tried
    once and its array, transposed, takes the place of the voxel data; when
    the old reader raises too, its error is the result of the call. *)
Theorem legacy_reader_fallback imagefile im :
  nibabel_load w imagefile = Ok im →
  (∀ data, nib_get_data im = Ok data →
     get_brainbrowser_image module_globals w imagefile
     = raw_payload module_globals w (nib_header im) data) ∧
  (∀ e, nib_get_data im = Raise e →
     (∀ legacy, nifti_getDataArray w imagefile = Ok legacy →
        get_brainbrowser_image module_globals w imagefile
        = raw_payload module_globals w (nib_header im) (transpose_T legacy) ∧
        shape (transpose_T legacy) = reverse (shape legacy) ∧
        ∀ idx, item (transpose_T legacy) idx = item legacy (reverse idx)) ∧
     (∀ e', nifti_getDataArray w imagefile = Raise e' →
        get_brainbrowser_image module_globals w imagefile = Raise e')).
Proof.
  intros Hload. split.
  - intros data Hdata. by apply raw_mode_primary.
  - intros e Hfail. unfold get_brainbrowser_image. resolve_names.
    rewrite Hload. cbn [mbind result_bind]. unfold read_voxels. rewrite Hfail.
    split.
    + intros legacy ->. done.
    + intros e' ->. done.
Qed.

Lemma encoded_mode_no_fallback imagefile im e dquality :
  nibabel_load w imagefile = Ok im → nib_get_data im = Raise e →
  get_encoded_brainbrowser_image module_globals w imagefile dquality = Raise e.
Proof.
  intros Hload Hfail. unfold get_encoded_brainbrowser_image. resolve_names.
  rewrite Hload. cbn [mbind result_bind]. by rewrite Hfail.
Qed.

Lemma raw_payload_unsupported h data :
  dim h !!! 0%fin ≠ 3 → dim h !!! 0%fin ≠ 4 →
  (∀ payload, raw_payload module_globals w h data ≠ Ok payload) ∧
  ((0 < size_of (shape data))%nat →
   raw_payload module_globals w h data = Raise unsupported).
Proof.
  intros H3 H4. unfold raw_payload. resolve_names.
  destruct (rescale 16 65535 data) as [scaled|e] eqn:Hscale; cbn [mbind result_bind].
  - rewrite !bool_decide_eq_false_2 by done. cbn [mbind result_bind]. done.
  - split; [done|]. intros Hsize.
    destruct (nonempty_min_max data Hsize) as (lo & hi & Hlo & Hhi).
    by rewrite (rescale_items _ _ _ lo hi) in Hscale.
Qed.

End RawMode.


(** ** Encoded mode *)

Section EncodedMode.

Context (w : world).

Lemma save_slice_name_error quality slicedata :
  save_slice module_globals w quality slicedata = Raise (NameError "StringIO").
Proof. reflexivity. Qed.

Lemma save_slice_repaired quality slicedata :
  save_slice repaired_globals w quality slicedata
  = Base64.b64encode <$> jpeg_save w quality slicedata.
Proof.
  unfold save_slice.
  change (lookup_name repaired_globals "StringIO") with (Ok ()).
  change (lookup_name repaired_globals "PIL") with (Ok ()).
  change (lookup_name repaired_globals "base64") with (Ok ()).
  cbn [mbind result_bind]. by destruct (jpeg_save w quality slicedata).
Qed.

Lemma encode_volume_3d_name_error dquality (data : ndarray Z) n rest :
  shape data = S n :: rest →
  encode_volume_3d module_globals w dquality data = Raise (NameError "StringIO").
Proof.
  intros Hshape. unfold encode_volume_3d, shape_at. rewrite Hshape.
  cbn [lookup list_lookup mbind result_bind seq].
  by apply mapM_raise_first.
Qed.

Lemma encode_volume_4d_name_error (data : ndarray Z) X Y Z T :
  shape data = [S X; Y; Z; S T] →
  encode_volume_4d module_globals w data = Raise (NameError "StringIO").
Proof.
  intros Hshape. unfold encode_volume_4d. resolve_names.
  destruct (transpose_time_first data _ _ _ _ Hshape) as (data' & -> & Hshape' & _).
  cbn [mbind result_bind]. unfold shape_at. rewrite Hshape'.
  cbn [lookup list_lookup mbind result_bind seq].
  erewrite mapM_raise_first; [done|].
  cbn [mbind result_bind]. by apply mapM_raise_first.
Qed.

Lemma encoded_header globals imagefile dquality im payload :
  nibabel_load w imagefile = Ok im →
  get_encoded_brainbrowser_image globals w imagefile dquality = Ok payload →
  (dim (nib_header im) !!! 0%fin = 3 ∧
     info_header payload = json_dumps w (VDict (header_3d (nib_header im)))) ∨
  (dim (nib_header im) !!! 0%fin = 4 ∧
     info_header payload = json_dumps w (VDict (header_4d (nib_header im)))).
Proof.
  intros Hload. unfold get_encoded_brainbrowser_image.
  destruct (lookup_name globals "nibabel"); cbn [mbind result_bind]; [|done].
  rewrite Hload. cbn [mbind result_bind].
  destruct (nib_get_data im) as [data|e]; cbn [mbind result_bind]; [|done].
  destruct (lookup_name globals "numpy"); cbn [mbind result_bind]; [|done].
  destruct (rescale 8 255 data) as [scaled|e]; cbn [mbind result_bind]; [|done].
  repeat case_bool_decide.
  - destruct (encode_volume_3d _ _ _ _) as [encoded|e];
      cbn [mbind result_bind]; [|done].
    destruct (lookup_name globals "json"); cbn [mbind result_bind]; [|done].
    intros [= <-]. by left.
  - destruct (encode_volume_4d _ _ _) as [encoded|e];
      cbn [mbind result_bind]; [|done].
    destruct (lookup_name globals "json"); cbn [mbind result_bind]; [|done].
    intros [= <-]. by right.
  - done.
Qed.

Lemma encoded_4d_name_error imagefile dquality im (data : ndarray scalar) X Y Z T :
  nibabel_load w imagefile = Ok im →
  nib_get_data im = Ok data →
  shape data = [S X; S Y; S Z; S T] →
  dim (nib_header im) !!! 0%fin = 4 →
  get_encoded_brainbrowser_image module_globals w imagefile dquality
  = Raise (NameError "StringIO").
Proof.
  intros Hload Hdata Hshape Hdim.
  unfold get_encoded_brainbrowser_image. resolve_names.
  rewrite Hload. cbn [mbind result_bind]. rewrite Hdata.
  cbn [mbind result_bind]. resolve_names.
  destruct (nonempty_min_max data) as (lo & hi & Hlo & Hhi).
  { rewrite Hshape. cbn [size_of foldr]. lia. }
  rewrite (rescale_items _ _ _ lo hi) by done. cbn [mbind result_bind].
  rewrite bool_decide_eq_false_2 by (rewrite Hdim; lia).
  rewrite bool_decide_eq_true_2 by done.
  by rewrite (encode_volume_4d_name_error _ X (S Y) (S Z) T).
Qed.

Lemma encoded_3d_name_error imagefile dquality im (data : ndarray scalar) X Y Z :
  nibabel_load w imagefile = Ok im →
  nib_get_data im = Ok data →
  shape data = [S X; S Y; S Z] →
  dim (nib_header im) !!! 0%fin = 3 →
  get_encoded_brainbrowser_image module_globals w imagefile dquality
  = Raise (NameError "StringIO").
Proof.
  intros Hload Hdata Hshape Hdim.
  unfold get_encoded_brainbrowser_image. resolve_names.
  rewrite Hload. cbn [mbind result_bind]. rewrite Hdata.
  cbn [mbind result_bind]. resolve_names.
  destruct (nonempty_min_max data) as (lo & hi & Hlo & Hhi).
  { rewrite Hshape. cbn [size_of foldr]. lia. }
  rewrite (rescale_items _ _ _ lo hi) by done. cbn [mbind result_bind].
  rewrite bool_decide_eq_true_2 by done.
  by rewrite (encode_volume_3d_name_error _ _ X [S Y; S Z]).
Qed.

(** C10.  With the names of the module bound in any way, the result of
    encoded mode on a 4D image does not depend on [dquality]: the 4D branch
    never passes it to [save]. *)
Theorem encoded_4d_ignores_quality globals imagefile im q1 q2 :
  nibabel_load w imagefile = Ok im →
  dim (nib_header im) !!! 0%fin = 4 →
  get_encoded_brainbrowser_image globals w imagefile q1
  = get_encoded_brainbrowser_image globals w imagefile q2.
Proof.
  intros Hload Hdim. unfold get_encoded_brainbrowser_image.
  destruct (lookup_name globals "nibabel"); cbn [mbind result_bind]; [|done].
  rewrite Hload. cbn [mbind result_bind].
  destruct (nib_get_data im) as [data|e]; cbn [mbind result_bind]; [|done].
  destruct (lookup_name globals "numpy"); cbn [mbind result_bind]; [|done].
  destruct (rescale 8 255 data) as [scaled|e]; cbn [mbind result_bind]; [|done].
  by rewrite bool_decide_eq_false_2 by (rewrite Hdim; lia).
Qed.

End EncodedMode.

(** ** Both callbacks *)

Section Callbacks.

Context (w : world).

Lemma raw_mode_result imagefile im :
  nibabel_load w imagefile = Ok im →
  (∃ data, get_brainbrowser_image module_globals w imagefile
           = raw_payload module_globals w (nib_header im) data) ∨
  (∃ e, get_brainbrowser_image module_globals w imagefile = Raise e).
Proof.
  intros Hload. unfold get_brainbrowser_image. resolve_names.
  rewrite Hload. cbn [mbind result_bind]. unfold read_voxels.
  destruct (nib_get_data im) as [data|_]; cbn [mbind result_bind].
  - left. by exists data.
  - destruct (nifti_getDataArray w imagefile) as [legacy|e]; cbn [mbind result_bind].
    + left. by exists (transpose_T legacy).
    + right. by exists e.
Qed.

(** C6.  For an image whose [dim[0]] is neither 3 nor 4, neither callback
    returns a payload; when the voxel data can be read and is not empty,
    both raise the exception for unsupported images, before the payload is
    built. *)
Theorem unsupported_dimensionality imagefile dquality im :
  nibabel_load w imagefile = Ok im →
  dim (nib_header im) !!! 0%fin ≠ 3 →
  dim (nib_header im) !!! 0%fin ≠ 4 →
  (∀ payload, get_brainbrowser_image module_globals w imagefile ≠ Ok payload) ∧
  (∀ payload,
     get_encoded_brainbrowser_image module_globals w imagefile dquality ≠ Ok payload) ∧
  (∀ data, nib_get_data im = Ok data → (0 < size_of (shape data))%nat →
     get_brainbrowser_image module_globals w imagefile = Raise unsupported ∧
     get_encoded_brainbrowser_image module_globals w imagefile dquality
     = Raise unsupported).
Proof.
  intros Hload H3 H4. split_and!.
  - intros payload Hok.
    destruct (raw_mode_result imagefile im Hload) as [[data Hraw]|[e Hraise]].
    + rewrite Hraw in Hok. by apply (raw_payload_unsupported w _ data H3 H4) in Hok.
    + by rewrite Hraise in Hok.
  - intros payload Hok.
    destruct (encoded_header w _ _ _ _ _ Hload Hok) as [[Hdim _]|[Hdim _]]; done.
  - intros data Hdata Hsize. split.
    + rewrite (raw_mode_primary w _ _ _ Hload Hdata).
      by apply raw_payload_unsupported.
    + unfold get_encoded_brainbrowser_image. resolve_names.
      rewrite Hload. cbn [mbind result_bind]. rewrite Hdata.
      cbn [mbind result_bind]. resolve_names.
      destruct (nonempty_min_max data Hsize) as (lo & hi & Hlo & Hhi).
      rewrite (rescale_items _ _ _ lo hi) by done. cbn [mbind result_bind].
      by rewrite !bool_decide_eq_false_2 by done.
Qed.

End Callbacks.

(** ** Encoded mode in the module with the two imports added *)

Section RepairedModule.

Context (w : world).

Lemma concat_fmap_bind {A B} (f : A → list B) (l : list A) :
  concat (f <$> l) = l ≫= f.
Proof.
  induction l as [|x l IH]; [done|].
  by rewrite fmap_cons, bind_cons, <- IH.
Qed.

(** What the 4D loops of lines 987-996 append once [StringIO] and [PIL] are
    bound and [save] succeeds: [T * X] strings, the one for timepoint [t]
    and index [k] at position [t * X + k]. *)
Lemma encode_volume_4d_repaired (data : ndarray Z) X Y Z T :
  shape data = [X; Y; Z; T] →
  (∀ quality slicedata, ∃ contents, jpeg_save w quality slicedata = Ok contents) →
  ∃ vol encoded,
    transpose [3; 0; 1; 2]%nat data = Ok vol ∧
    encode_volume_4d repaired_globals w data = Ok encoded ∧
    length encoded = (T * X)%nat ∧
    ∀ t k, (t < T)%nat → (k < X)%nat →
      ∃ contents,
        jpeg_save w None (subarray (subarray vol t) k) = Ok contents ∧
        encoded !! (t * X + k)%nat = Some (Base64.b64encode contents).
Proof.
  intros Hshape Hsave.
  destruct (transpose_time_first data _ _ _ _ Hshape) as (vol & Hvol & Hshape' & _).
  set (saved := λ t k : nat,
         match jpeg_save w None (subarray (subarray vol t) k) with
         | Ok contents => Base64.b64encode contents
         | Raise _ => EmptyString
         end).
  exists vol, (seq 0 T ≫= λ t, saved t <$> seq 0 X).
  split; [done|]. split; [|split].
  - unfold encode_volume_4d.
    change (lookup_name repaired_globals "numpy") with (Ok ()).
    cbn [mbind result_bind]. rewrite Hvol. cbn [mbind result_bind].
    unfold shape_at. rewrite Hshape'. cbn [lookup list_lookup mbind result_bind].
    rewrite (mapM_all_ok _ (λ t, saved t <$> seq 0 X)).
    + cbn [mbind result_bind]. by rewrite concat_fmap_bind.
    + apply Forall_forall. intros t _. apply mapM_all_ok.
      apply Forall_forall. intros k _. rewrite save_slice_repaired. unfold saved.
      by destruct (Hsave None (subarray (subarray vol t) k)) as [contents ->].
  - rewrite (length_bind_block _ _ X).
    + by rewrite length_seq.
    + apply Forall_forall. intros t _. by rewrite length_fmap, length_seq.
  - intros t k Ht Hk.
    destruct (Hsave None (subarray (subarray vol t) k)) as [contents Hc].
    exists contents. split; [done|].
    rewrite (lookup_bind_block _ _ X _ _ t).
    + rewrite list_lookup_fmap, lookup_seq_lt by done. cbn. unfold saved.
      by rewrite Hc.
    + apply Forall_forall. intros t' _. by rewrite length_fmap, length_seq.
    + by apply lookup_seq_lt.
    + done.
Qed.

(** The whole callback on a 4D image in the repaired module: the data of
    the payload is the sequence above, over the rescaled volume with time
    as its first axis. *)
Lemma encoded_4d_repaired imagefile dquality im (data : ndarray scalar) X Y Z T lo hi :
  nibabel_load w imagefile = Ok im →
  nib_get_data im = Ok data →
  shape data = [X; Y; Z; T] →
  amin data = Ok lo → amax data = Ok hi →
  dim (nib_header im) !!! 0%fin = 4 →
  (∀ quality slicedata, ∃ contents, jpeg_save w quality slicedata = Ok contents) →
  ∃ vol payload,
    get_encoded_brainbrowser_image repaired_globals w imagefile dquality = Ok payload ∧
    shape vol = [T; X; Y; Z] ∧
    (∀ t x y z, item vol [t; x; y; z]
                = rescale_voxel 8 255 lo hi (item data [x; y; z; t])) ∧
    length (info_data payload) = (T * X)%nat ∧
    ∀ t k, (t < T)%nat → (k < X)%nat →
      ∃ contents,
        jpeg_save w None (subarray (subarray vol t) k) = Ok contents ∧
        info_data payload !! (t * X + k)%nat = Some (Base64.b64encode contents).
Proof.
  intros Hload Hdata Hshape Hlo Hhi Hdim Hsave.
  pose (scaled := amap (rescale_voxel 8 255 lo hi) data).
  destruct (transpose_time_first scaled X Y Z T Hshape)
    as (vol & Hvol & Hshape' & Hitem).
  destruct (encode_volume_4d_repaired scaled X Y Z T Hshape Hsave)
    as (vol' & encoded & Hvol' & Hencoded & Hlen & Hslices).
  rewrite Hvol in Hvol'. injection Hvol' as <-.
  exists vol, (ImInfo (json_dumps w (VDict (header_4d (nib_header im)))) encoded).
  split; [|by split_and!].
  unfold get_encoded_brainbrowser_image.
  change (lookup_name repaired_globals "nibabel") with (Ok ()).
  change (lookup_name repaired_globals "numpy") with (Ok ()).
  change (lookup_name repaired_globals "json") with (Ok ()).
  cbn [mbind result_bind]. rewrite Hload. cbn [mbind result_bind].
  rewrite Hdata. cbn [mbind result_bind].
  rewrite (rescale_items _ _ _ lo hi) by done. cbn [mbind result_bind].
  rewrite bool_decide_eq_false_2 by (rewrite Hdim; lia).
  rewrite bool_decide_eq_true_2 by done.
  fold scaled. rewrite Hencoded. done.
Qed.

End RepairedModule.

(** ** The header of both callbacks *)

Section HeaderNormalization.

Context (w : world).

Lemma encode_volume_3d_repaired dquality (data : ndarray Z) n rest :
  shape data = n :: rest →
  (∀ quality slicedata, ∃ contents, jpeg_save w quality slicedata = Ok contents) →
  ∃ encoded, encode_volume_3d repaired_globals w dquality data = Ok encoded.
Proof.
  intros Hshape Hsave. unfold encode_volume_3d, shape_at. rewrite Hshape.
  cbn [lookup list_lookup mbind result_bind].
  set (saved := λ index : nat,
         match jpeg_save w (Some dquality) (subarray data index) with
         | Ok contents => Base64.b64encode contents
         | Raise _ => EmptyString
         end).
  exists (saved <$> seq 0 n). apply mapM_all_ok, Forall_forall. intros index _.
  rewrite save_slice_repaired. unfold saved.
  by destruct (Hsave (Some dquality) (subarray data index)) as [contents ->].
Qed.

(** Encoded mode in the repaired module, when the encoder returns: a
    payload, for a volume that is not empty and has the axes its branch
    reads. *)
Lemma encoded_repaired_returns imagefile dquality im (data : ndarray scalar) :
  nibabel_load w imagefile = Ok im →
  nib_get_data im = Ok data →
  (0 < size_of (shape data))%nat →
  (∀ quality slicedata, ∃ contents, jpeg_save w quality slicedata = Ok contents) →
  (dim (nib_header im) !!! 0%fin = 3 ∧ shape data ≠ [] ∨
   dim (nib_header im) !!! 0%fin = 4 ∧ length (shape data) = 4%nat) →
  ∃ encoded,
    get_encoded_brainbrowser_image repaired_globals w imagefile dquality = Ok encoded.
Proof.
  intros Hload Hdata Hsize Hsave Hdim.
  destruct (nonempty_min_max data Hsize) as (lo & hi & Hlo & Hhi).
  unfold get_encoded_brainbrowser_image.
  change (lookup_name repaired_globals "nibabel") with (Ok ()).
  change (lookup_name repaired_globals "numpy") with (Ok ()).
  change (lookup_name repaired_globals "json") with (Ok ()).
  cbn [mbind result_bind]. rewrite Hload. cbn [mbind result_bind].
  rewrite Hdata. cbn [mbind result_bind].
  rewrite (rescale_items _ _ _ lo hi) by done. cbn [mbind result_bind].
  destruct Hdim as [[H3 Hrank]|[H4 Hrank]].
  - rewrite bool_decide_eq_true_2 by done.
    destruct (shape data) as [|n rest] eqn:Hshape; [done|].
    destruct (encode_volume_3d_repaired dquality
                (amap (rescale_voxel 8 255 lo hi) data) n rest Hshape Hsave)
      as [encoded ->].
    by eexists.
  - rewrite bool_decide_eq_false_2 by (rewrite H4; lia).
    rewrite bool_decide_eq_true_2 by done.
    destruct (shape data) as [|X [|Y [|Z [|T [|]]]]] eqn:Hshape; try done.
    destruct (encode_volume_4d_repaired w (amap (rescale_voxel 8 255 lo hi) data)
                X Y Z T Hshape Hsave) as (vol & encoded & _ & -> & _).
    by eexists.
Qed.

(** C1.  For an image whose voxel data can be read and is not empty: when
    [dim[0]] is 3, raw mode returns a payload whose header is the
    serialisation of a dictionary with order [xspace, yspace, zspace], no
    time key, and for each spatial axis the entry [start = qoffset],
    [space_length = dim[i]], [step = pixdim[i]], [direction_cosines] = the
    first three entries of the srow row; when [dim[0]] is 4 (and the data
    has four axes), the order is [time, xspace, yspace, zspace] and the
    time entry has [start = 0], [space_length = dim[4]] and neither step
    nor direction_cosines.  Encoded mode builds the same header: with the
    names of the module bound in any way, every payload it returns carries
    it, and in the module with [StringIO] and [PIL] imported it does return
    a payload when the encoder does. *)
Theorem header_normalization imagefile im (data : ndarray scalar) :
  nibabel_load w imagefile = Ok im →
  nib_get_data im = Ok data →
  (0 < size_of (shape data))%nat →
  (dim (nib_header im) !!! 0%fin = 3 →
   ∃ header payload,
     get_brainbrowser_image module_globals w imagefile = Ok payload ∧
     info_header payload = json_dumps w (VDict header) ∧
     (∀ globals dquality encoded,
        get_encoded_brainbrowser_image globals w imagefile dquality = Ok encoded →
        info_header encoded = json_dumps w (VDict header)) ∧
     (shape data ≠ [] →
      (∀ quality slicedata, ∃ contents, jpeg_save w quality slicedata = Ok contents) →
      ∀ dquality, ∃ encoded,
        get_encoded_brainbrowser_image repaired_globals w imagefile dquality
        = Ok encoded) ∧
     header !! "order"%string
     = Some (VList [VStr "xspace"; VStr "yspace"; VStr "zspace"]) ∧
     header !! "time"%string = None ∧
     has_spatial_axes (nib_header im) header) ∧
  (dim (nib_header im) !!! 0%fin = 4 → length (shape data) = 4%nat →
   ∃ header payload,
     get_brainbrowser_image module_globals w imagefile = Ok payload ∧
     info_header payload = json_dumps w (VDict header) ∧
     (∀ globals dquality encoded,
        get_encoded_brainbrowser_image globals w imagefile dquality = Ok encoded →
        info_header encoded = json_dumps w (VDict header)) ∧
     ((∀ quality slicedata, ∃ contents, jpeg_save w quality slicedata = Ok contents) →
      ∀ dquality, ∃ encoded,
        get_encoded_brainbrowser_image repaired_globals w imagefile dquality
        = Ok encoded) ∧
     header !! "order"%string
     = Some (VList [VStr "time"; VStr "xspace"; VStr "yspace"; VStr "zspace"]) ∧
     (∃ v, header !! "time"%string = Some v ∧
           is_time_axis (dim (nib_header im) !!! 4%fin) v) ∧
     has_spatial_axes (nib_header im) header).
Proof.
  intros Hload Hdata Hsize.
  destruct (nonempty_min_max data Hsize) as (lo & hi & Hlo & Hhi).
  split.
  - intros Hdim. exists (header_3d (nib_header im)). eexists.
    split.
    { rewrite (raw_mode_primary w _ _ _ Hload Hdata). by apply raw_payload_3d. }
    split; [done|]. split.
    { intros globals dquality encoded Hok.
      destruct (encoded_header w _ _ _ _ _ Hload Hok) as [[_ ->]|[Hdim' _]]; [done|].
      rewrite Hdim in Hdim'. lia. }
    split.
    { intros Hrank Hsave dquality.
      apply (encoded_repaired_returns _ _ im data); auto. }
    destruct (header_3d_spec (nib_header im)) as (Horder & Htime & _ & Haxes).
    done.
  - intros Hdim Hrank.
    exists (header_4d (nib_header im)).
    assert (∃ payload,
              get_brainbrowser_image module_globals w imagefile = Ok payload ∧
              info_header payload = json_dumps w (VDict (header_4d (nib_header im))))
      as (payload & Hraw & Hheader).
    { destruct (shape data) as [|X [|Y [|Z [|T [|]]]]] eqn:Hshape; try done.
      destruct (raw_payload_4d w (nib_header im) data lo hi X Y Z T Hdim Hlo Hhi Hshape)
        as (data' & Hraw & _).
      eexists.
      split; [rewrite (raw_mode_primary w _ _ _ Hload Hdata); exact Hraw|done]. }
    exists payload. split; [done|]. split; [done|]. split.
    { intros globals dquality encoded Hok.
      destruct (encoded_header w _ _ _ _ _ Hload Hok) as [[Hdim' _]|[_ ->]]; [|done].
      rewrite Hdim in Hdim'. lia. }
    split.
    { intros Hsave dquality.
      apply (encoded_repaired_returns _ _ im data); auto. }
    destruct (header_4d_spec (nib_header im)) as (Horder & Htime & _ & Haxes).
    done.
Qed.

End HeaderNormalization.

(** ** The callbacks on the example inputs *)

(** C4.  On the 4D example (2 timepoints of 4 slices) encoded mode returns
    no slice sequence: the first slice raises [NameError], the name
    [StringIO] being bound nowhere in the module. *)
Theorem encoded_4d_raises_name_error :
  get_encoded_brainbrowser_image module_globals example_world "vol4d.nii" 75
  = Raise (NameError "StringIO").
Proof.
  by apply (encoded_4d_name_error example_world _ _ example_image_4d
              (ramp [4; 4; 3; 2]%nat) 3 3 2 1).
Qed.

Lemma header_normalization_witness :
  nibabel_load example_world "vol4d.nii" = Ok example_image_4d ∧
  nib_get_data example_image_4d = Ok (ramp [4; 4; 3; 2]%nat) ∧
  (0 < size_of (shape (ramp [4; 4; 3; 2]%nat)))%nat ∧
  ∃ header payload encoded,
    get_brainbrowser_image module_globals example_world "vol4d.nii" = Ok payload ∧
    info_header payload = json_dumps example_world (VDict header) ∧
    get_encoded_brainbrowser_image repaired_globals example_world "vol4d.nii" 75
    = Ok encoded ∧
    info_header encoded = json_dumps example_world (VDict header) ∧
    header !! "order"%string
    = Some (VList [VStr "time"; VStr "xspace"; VStr "yspace"; VStr "zspace"]) ∧
    (∃ v, header !! "time"%string = Some v ∧ is_time_axis 2 v).
Proof.
  assert (0 < size_of (shape (ramp [4; 4; 3; 2]%nat)))%nat as Hsize
    by (vm_compute; lia).
  split; [reflexivity|]. split; [reflexivity|]. split; [exact Hsize|].
  destruct (header_normalization example_world "vol4d.nii" example_image_4d
              (ramp [4; 4; 3; 2]%nat) eq_refl eq_refl Hsize) as [_ H4].
  destruct (H4 eq_refl eq_refl)
    as (header & payload & Hraw & Hheader & Hany & Hrepaired & Horder & Htime & _).
  destruct (Hrepaired (λ quality slicedata,
              ex_intro _ _ (eq_refl (example_jpeg quality slicedata))) 75)
    as [encoded Hencoded].
  exists header, payload, encoded. split; [exact Hraw|]. split; [exact Hheader|].
  split; [exact Hencoded|]. split; [exact (Hany _ _ _ Hencoded)|].
  split; [exact Horder|exact Htime].
Defined.

Lemma rescale_range_witness :
  0 ≤ 255 < 2 ^ 8 ∧
  amin voxels_0_1_4 = Ok (Integer true w16 0) ∧
  amax voxels_0_1_4 = Ok (Integer true w16 4) ∧
  ∃ out,
    rescale 8 255 voxels_0_1_4 = Ok out ∧
    flatten out = [0; 63; 255] ∧
    0 ∈ flatten out ∧ 255 ∈ flatten out.
Proof.
  assert (0 ≤ 255 < 2 ^ 8) as Hmax by lia.
  assert (has_dtype (IntType true w16) voxels_0_1_4) as Hdt
    by (repeat constructor).
  assert (representable true w16 (4 - 0)) as Hfit by (cbn; lia).
  split; [exact Hmax|]. split; [reflexivity|]. split; [reflexivity|].
  destruct (rescale_range 8 255 voxels_0_1_4 _ _ Hmax eq_refl eq_refl)
    as (out & Hout & _ & Hlo & Hint).
  destruct (Hint true w16 0 4 ltac:(lia) Hdt eq_refl eq_refl ltac:(discriminate)
              Hfit ltac:(lia)) as (Hflat & _ & Hhi).
  exists out. split; [exact Hout|]. split; [exact Hflat|]. by split.
Defined.

Lemma constant_volume_zeros_witness :
  (0 < size_of (shape uniform_volume))%nat ∧
  Forall (λ x, x = Integer true w16 5) (flatten uniform_volume) ∧
  (∃ out, rescale 8 255 uniform_volume = Ok out ∧ Forall (λ z, z = 0) (flatten out)) ∧
  (∃ out, rescale 16 65535 uniform_volume = Ok out ∧ Forall (λ z, z = 0) (flatten out)).
Proof.
  assert (0 < size_of (shape uniform_volume))%nat as Hsize by (vm_compute; lia).
  assert (Forall (λ x, x = Integer true w16 5) (flatten uniform_volume)) as Hall.
  { apply Forall_forall. by intros x (idx & -> & _)%list_elem_of_fmap. }
  split; [exact Hsize|]. split; [exact Hall|]. split.
  - exact (proj2 (proj2 (proj2
      (constant_volume_zeros 8 255 uniform_volume _ Hsize Hall)))).
  - exact (proj2 (proj2 (proj2
      (constant_volume_zeros 16 65535 uniform_volume _ Hsize Hall)))).
Defined.

Lemma raw_mode_row_major_witness :
  nibabel_load example_world "vol4d.nii" = Ok example_image_4d ∧
  nib_get_data example_image_4d = Ok (ramp [4; 4; 3; 2]%nat) ∧
  (0 < size_of (shape (ramp [4; 4; 3; 2]%nat)))%nat ∧
  ∃ payload,
    get_brainbrowser_image module_globals example_world "vol4d.nii" = Ok payload ∧
    length (info_data payload) = 96%nat.
Proof.
  assert (0 < size_of (shape (ramp [4; 4; 3; 2]%nat)))%nat as Hsize
    by (vm_compute; lia).
  split; [reflexivity|]. split; [reflexivity|]. split; [exact Hsize|].
  destruct (raw_mode_row_major example_world "vol4d.nii" example_image_4d
              (ramp [4; 4; 3; 2]%nat) eq_refl eq_refl Hsize)
    as (lo & hi & _ & _ & _ & H4).
  destruct (H4 4%nat 4%nat 3%nat 2%nat eq_refl eq_refl)
    as (payload & Hraw & Hlen & _).
  exists payload. by split.
Defined.

Lemma unsupported_dimensionality_witness :
  nibabel_load example_world "vol5d.nii" = Ok example_image_5d ∧
  dim (nib_header example_image_5d) !!! 0%fin ≠ 3 ∧
  dim (nib_header example_image_5d) !!! 0%fin ≠ 4 ∧
  get_brainbrowser_image module_globals example_world "vol5d.nii" = Raise unsupported ∧
  get_encoded_brainbrowser_image module_globals example_world "vol5d.nii" 75
  = Raise unsupported.
Proof.
  assert (dim (nib_header example_image_5d) !!! 0%fin ≠ 3) as H3 by discriminate.
  assert (dim (nib_header example_image_5d) !!! 0%fin ≠ 4) as H4 by discriminate.
  split; [reflexivity|]. split; [exact H3|]. split; [exact H4|].
  destruct (unsupported_dimensionality example_world "vol5d.nii" 75
              example_image_5d eq_refl H3 H4) as (_ & _ & Hboth).
  apply (Hboth (ramp [4; 4; 3; 2; 1]%nat) eq_refl). vm_compute. lia.
Defined.


Lemma legacy_reader_fallback_witness :
  nibabel_load example_world "old4d.nii" = Ok example_image_old ∧
  get_brainbrowser_image module_globals example_world "old4d.nii"
  = raw_payload module_globals example_world (example_header 4)
      (transpose_T (ramp [2; 3; 4; 4]%nat)).
Proof.
  split; [reflexivity|].
  destruct (legacy_reader_fallback example_world "old4d.nii" example_image_old eq_refl)
    as [_ Hfallback].
  destruct (Hfallback (LibraryError "missing bytes") eq_refl) as [Hlegacy _].
  by destruct (Hlegacy (ramp [2; 3; 4; 4]%nat) eq_refl) as [-> _].
Defined.

Lemma get_b64_images_roundtrip_witness :
  map_to_list example_file_data ≡ₚ map_to_list example_file_data ∧
  map_Forall (λ _ fpaths,
      Forall (λ path, is_Some (files example_world !! path)) fpaths)
    example_file_data ∧
  ∃ output,
    get_b64_images module_globals example_world (map_to_list example_file_data)
    = Ok output ∧
    dom output = dom example_file_data.
Proof.
  assert (map_Forall (λ _ fpaths,
      Forall (λ path, is_Some (files example_world !! path)) fpaths)
    example_file_data) as Hreadable by compute_done.
  split; [reflexivity|]. split; [exact Hreadable|].
  destruct (get_b64_images_roundtrip example_world example_file_data
              (map_to_list example_file_data) (reflexivity _) Hreadable)
    as (output & Hok & Hdom & _).
  exists output. by split.
Defined.

Lemma encoded_4d_ignores_quality_witness :
  nibabel_load example_world "vol4d.nii" = Ok example_image_4d ∧
  dim (nib_header example_image_4d) !!! 0%fin = 4 ∧
  get_encoded_brainbrowser_image repaired_globals example_world "vol4d.nii" 10
  = get_encoded_brainbrowser_image repaired_globals example_world "vol4d.nii" 90.
Proof.
  split; [reflexivity|]. split; [reflexivity|].
  exact (encoded_4d_ignores_quality example_world repaired_globals "vol4d.nii"
           example_image_4d 10 90 eq_refl eq_refl).
Defined.

(** * Further properties *)

(** ** Errors of the two callbacks *)

Section MoreCallbacks.

Context (w : world).

Lemma rescale_ok_inv bits omax (data : ndarray scalar) out :
  rescale bits omax data = Ok out →
  shape out = shape data ∧ (0 < size_of (shape data))%nat.
Proof.
  unfold rescale, amin, amax. rewrite <- length_flatten.
  destruct (flatten data) as [|x xs]; [done|]. cbn [mbind result_bind].
  intros [= <-]. split; [done|]. cbn. lia.
Qed.

Lemma positive_axes X Y Z T :
  (0 < size_of [X; Y; Z; T])%nat →
  ∃ X' Y' Z' T', X = S X' ∧ Y = S Y' ∧ Z = S Z' ∧ T = S T'.
Proof.
  cbn [size_of foldr]. intros H.
  destruct X, Y, Z, T; try lia. by eexists _, _, _, _.
Qed.

Lemma encoded_mode_not_ok imagefile dquality payload :
  get_encoded_brainbrowser_image module_globals w imagefile dquality ≠ Ok payload.
Proof.
  unfold get_encoded_brainbrowser_image. resolve_names.
  destruct (nibabel_load w imagefile) as [im|e]; cbn [mbind result_bind]; [|done].
  destruct (nib_get_data im) as [data|e]; cbn [mbind result_bind]; [|done].
  resolve_names.
  destruct (rescale 8 255 data) as [scaled|e] eqn:Hscale;
    cbn [mbind result_bind]; [|done].
  apply rescale_ok_inv in Hscale as [Hshape Hsize]. rewrite <- Hshape in Hsize.
  repeat case_bool_decide; [| |done].
  - destruct (shape scaled) as [|[|n] rest] eqn:Hs.
    + unfold encode_volume_3d, shape_at. by rewrite Hs.
    + cbn in Hsize. lia.
    + by rewrite (encode_volume_3d_name_error w _ _ n rest).
  - destruct (decide (length (shape scaled) = 4%nat)) as [Hrank|Hrank].
    + destruct (shape scaled) as [|X [|Y [|Z [|T [|]]]]] eqn:Hs; try done.
      destruct (positive_axes _ _ _ _ Hsize) as (X' & Y' & Z' & T' & -> & -> & -> & ->).
      by rewrite (encode_volume_4d_name_error w _ X' (S Y') (S Z') T').
    + unfold encode_volume_4d. resolve_names.
      by rewrite transpose_rank_mismatch.
Qed.
(** X1.  With the names the module binds, encoded mode returns no payload
    for any file and any quality: every call raises. *)
Theorem encoded_mode_always_raises imagefile dquality :
  ∃ e, get_encoded_brainbrowser_image module_globals w imagefile dquality = Raise e.
Proof.
  destruct (get_encoded_brainbrowser_image module_globals w imagefile dquality)
    as [payload|e] eqn:Hcall; [|by exists e].
  by apply encoded_mode_not_ok in Hcall.
Qed.

(** X2.  For an image whose voxel data is read and not empty, with
    [dim[0]] 3 and at least one axis, or [dim[0]] 4 and four axes, encoded
    mode raises [NameError] for [StringIO] at its first slice. *)
Theorem encoded_mode_name_error imagefile dquality im (data : ndarray scalar) :
  nibabel_load w imagefile = Ok im →
  nib_get_data im = Ok data →
  (0 < size_of (shape data))%nat →
  (dim (nib_header im) !!! 0%fin = 3 ∧ shape data ≠ [] ∨
   dim (nib_header im) !!! 0%fin = 4 ∧ length (shape data) = 4%nat) →
  get_encoded_brainbrowser_image module_globals w imagefile dquality
  = Raise (NameError "StringIO").
Proof.
  intros Hload Hdata Hsize Hdim.
  unfold get_encoded_brainbrowser_image. resolve_names.
  rewrite Hload. cbn [mbind result_bind]. rewrite Hdata. cbn [mbind result_bind].
  resolve_names.
  destruct (nonempty_min_max data Hsize) as (lo & hi & Hlo & Hhi).
  rewrite (rescale_items _ _ _ lo hi) by done. cbn [mbind result_bind].
  destruct Hdim as [[H3 Hrank]|[H4 Hrank]].
  - rewrite bool_decide_eq_true_2 by done.
    destruct (shape data) as [|[|n] rest] eqn:Hshape; [done|cbn in Hsize; lia|].
    by rewrite (encode_volume_3d_name_error w _ _ n rest).
  - rewrite bool_decide_eq_false_2 by (rewrite H4; lia).
    rewrite bool_decide_eq_true_2 by done.
    destruct (shape data) as [|X [|Y [|Z [|T [|]]]]] eqn:Hshape; try done.
    destruct X, Y, Z, T; try (cbn in Hsize; lia).
    by rewrite (encode_volume_4d_name_error w _ X (S Y) (S Z) T).
Qed.

End MoreCallbacks.

Section RawOutcomes.
Context (w : world).

Lemma empty_min (data : ndarray scalar) :
  size_of (shape data) = 0%nat → amin data = Raise zero_size_minimum.
Proof.
  rewrite <- length_flatten. unfold amin.
  by destruct (flatten data).
Qed.

Lemma raw_payload_empty h (data : ndarray scalar) :
  size_of (shape data) = 0%nat →
  raw_payload module_globals w h data = Raise zero_size_minimum.
Proof.
  intros Hsize. unfold raw_payload, rescale. resolve_names.
  by rewrite empty_min.
Qed.

Lemma raw_payload_rank_mismatch h (data : ndarray scalar) :
  (0 < size_of (shape data))%nat → dim h !!! 0%fin = 4 →
  length (shape data) ≠ 4%nat →
  raw_payload module_globals w h data = Raise axes_mismatch.
Proof.
  intros Hsize Hdim Hrank. unfold raw_payload. resolve_names.
  destruct (nonempty_min_max data Hsize) as (lo & hi & Hlo & Hhi).
  rewrite (rescale_items _ _ _ lo hi) by done. cbn [mbind result_bind].
  rewrite bool_decide_eq_false_2 by (rewrite Hdim; lia).
  rewrite bool_decide_eq_true_2 by done. resolve_names.
  by rewrite transpose_rank_mismatch.
Qed.

Lemma read_voxels_spec imagefile im data :
  read_voxels w imagefile im = Ok data ↔ voxels_read w imagefile im data.
Proof.
  unfold read_voxels, voxels_read. destruct (nib_get_data im) as [d|e].
  - split.
    + intros [= ->]. by left.
    + intros [[= ->]|(? & ? & ? & _)]; done.
  - destruct (nifti_getDataArray w imagefile) as [legacy|e']; cbn [mbind result_bind].
    + split.
      * intros [= <-]. right. by exists e, legacy.
      * intros [?|(? & ? & _ & [= <-] & ->)]; done.
    + split; [done|]. intros [?|(? & ? & _ & ? & _)]; done.
Qed.

Lemma raw_mode_unfold imagefile im :
  nibabel_load w imagefile = Ok im →
  get_brainbrowser_image module_globals w imagefile
  = read_voxels w imagefile im ≫= raw_payload module_globals w (nib_header im).
Proof.
  intros Hload. unfold get_brainbrowser_image. resolve_names. by rewrite Hload.
Qed.

(** X3.  Raw mode returns a payload exactly when [nibabel.load] succeeds,
    the voxel array (of nibabel, or of the old reader when nibabel's
    raises) is not empty, and [dim[0]] is 3, or is 4 with an array of four
    axes. *)
Theorem raw_mode_returns_iff imagefile :
  (∃ payload, get_brainbrowser_image module_globals w imagefile = Ok payload) ↔
  ∃ im data,
    nibabel_load w imagefile = Ok im ∧
    voxels_read w imagefile im data ∧
    (0 < size_of (shape data))%nat ∧
    (dim (nib_header im) !!! 0%fin = 3 ∨
     dim (nib_header im) !!! 0%fin = 4 ∧ length (shape data) = 4%nat).
Proof.
  split.
  - intros [payload Hok].
    destruct (nibabel_load w imagefile) as [im|e] eqn:Hload.
    2:{ unfold get_brainbrowser_image in Hok. revert Hok. resolve_names.
        by rewrite Hload. }
    rewrite (raw_mode_unfold _ _ Hload) in Hok.
    destruct (read_voxels w imagefile im) as [data|e] eqn:Hread; [|done].
    cbn [mbind result_bind] in Hok.
    exists im, data. split; [done|]. split; [by apply read_voxels_spec|].
    destruct (decide (size_of (shape data) = 0%nat)) as [Hzero|Hpos].
    { by rewrite raw_payload_empty in Hok. }
    assert (0 < size_of (shape data))%nat as Hsize by lia.
    split; [done|].
    destruct (decide (dim (nib_header im) !!! 0%fin = 3)) as [H3|H3]; [by left|].
    destruct (decide (dim (nib_header im) !!! 0%fin = 4)) as [H4|H4].
    + right. split; [done|].
      destruct (decide (length (shape data) = 4%nat)) as [Hrank|Hrank]; [done|].
      by rewrite raw_payload_rank_mismatch in Hok.
    + by apply (raw_payload_unsupported w _ data H3 H4) in Hok.
  - intros (im & data & Hload & Hread & Hsize & Hdim).
    apply read_voxels_spec in Hread.
    rewrite (raw_mode_unfold _ _ Hload), Hread. cbn [mbind result_bind].
    destruct (nonempty_min_max data Hsize) as (lo & hi & Hlo & Hhi).
    destruct Hdim as [H3|[H4 Hrank]].
    + eexists. by apply (raw_payload_3d w _ _ lo hi).
    + destruct (shape data) as [|X [|Y [|Z [|T [|]]]]] eqn:Hshape; try done.
      destruct (raw_payload_4d w _ data lo hi X Y Z T H4 Hlo Hhi Hshape)
        as (data' & -> & _).
      by eexists.
Qed.

(** X4.  On an image whose voxel array has no item both callbacks raise
    the [ValueError] of [data.min()], whatever [dim[0]] is. *)
Theorem empty_volume_value_error imagefile dquality im (data : ndarray scalar) :
  nibabel_load w imagefile = Ok im →
  nib_get_data im = Ok data →
  size_of (shape data) = 0%nat →
  get_brainbrowser_image module_globals w imagefile = Raise zero_size_minimum ∧
  get_encoded_brainbrowser_image module_globals w imagefile dquality
  = Raise zero_size_minimum.
Proof.
  intros Hload Hdata Hsize. split.
  - rewrite (raw_mode_primary w _ _ _ Hload Hdata). by apply raw_payload_empty.
  - unfold get_encoded_brainbrowser_image, rescale. resolve_names.
    rewrite Hload. cbn [mbind result_bind]. rewrite Hdata. cbn [mbind result_bind].
    resolve_names. by rewrite empty_min.
Qed.

(** X5.  On a non-empty image with [dim[0]] 4 whose voxel array does not
    have four axes both callbacks raise the [ValueError] of
    [numpy.transpose]. *)
Theorem rank_mismatch_value_error imagefile dquality im (data : ndarray scalar) :
  nibabel_load w imagefile = Ok im →
  nib_get_data im = Ok data →
  (0 < size_of (shape data))%nat →
  dim (nib_header im) !!! 0%fin = 4 →
  length (shape data) ≠ 4%nat →
  get_brainbrowser_image module_globals w imagefile = Raise axes_mismatch ∧
  get_encoded_brainbrowser_image module_globals w imagefile dquality
  = Raise axes_mismatch.
Proof.
  intros Hload Hdata Hsize Hdim Hrank. split.
  - rewrite (raw_mode_primary w _ _ _ Hload Hdata).
    by apply raw_payload_rank_mismatch.
  - unfold get_encoded_brainbrowser_image. resolve_names.
    rewrite Hload. cbn [mbind result_bind]. rewrite Hdata. cbn [mbind result_bind].
    resolve_names.
    destruct (nonempty_min_max data Hsize) as (lo & hi & Hlo & Hhi).
    rewrite (rescale_items _ _ _ lo hi) by done. cbn [mbind result_bind].
    rewrite bool_decide_eq_false_2 by (rewrite Hdim; lia).
    rewrite bool_decide_eq_true_2 by done.
    unfold encode_volume_4d. resolve_names.
    by rewrite transpose_rank_mismatch.
Qed.
End RawOutcomes.

(** ** Values of the rescaled buffer *)

Section MoreArrays.

Lemma elem_of_indices shp idx : idx ∈ indices shp ↔ Forall2 lt idx shp.
Proof.
  revert idx. induction shp as [|n shp IH]; intros idx; cbn [indices].
  - rewrite list_elem_of_singleton. split; [by intros ->|by inversion 1].
  - rewrite list_elem_of_bind. split.
    + intros (i & Hin & Hi). apply list_elem_of_fmap in Hin as (rest & -> & Hrest).
      apply elem_of_seq in Hi. constructor; [lia|by apply IH].
    + inversion 1 as [|i ? rest ? Hi Hrest]; subst. exists i. split.
      * apply list_elem_of_fmap. exists rest. split; [done|by apply IH].
      * apply elem_of_seq. lia.
Qed.

Lemma elem_of_flatten {A} (a : ndarray A) v :
  v ∈ flatten a ↔ ∃ idx, Forall2 lt idx (shape a) ∧ v = item a idx.
Proof.
  unfold flatten. rewrite list_elem_of_fmap. split.
  - intros (idx & -> & Hidx). exists idx. by rewrite <- elem_of_indices.
  - intros (idx & Hidx & ->). exists idx. by rewrite elem_of_indices.
Qed.

Lemma flatten_time_first {A} (a vol : ndarray A) X Y Z T :
  shape a = [X; Y; Z; T] → shape vol = [T; X; Y; Z] →
  (∀ t x y z, item vol [t; x; y; z] = item a [x; y; z; t]) →
  ∀ v, v ∈ flatten vol ↔ v ∈ flatten a.
Proof.
  intros Ha Hvol Hitem v. rewrite !elem_of_flatten, Ha, Hvol. split.
  - intros (idx & Hidx & ->).
    destruct idx as [|t [|x [|y [|z [|]]]]];
      try (exfalso; by repeat (apply Forall2_cons_1 in Hidx as [_ Hidx] || by inversion Hidx)).
    exists [x; y; z; t]. rewrite Hitem. split; [|done].
    repeat (apply Forall2_cons_1 in Hidx as [? Hidx]). by repeat constructor.
  - intros (idx & Hidx & ->).
    destruct idx as [|x [|y [|z [|t [|]]]]];
      try (exfalso; by repeat (apply Forall2_cons_1 in Hidx as [_ Hidx] || by inversion Hidx)).
    exists [t; x; y; z]. rewrite Hitem. split; [|done].
    repeat (apply Forall2_cons_1 in Hidx as [? Hidx]). by repeat constructor.
Qed.
End MoreArrays.

Section RescaleOrder.

(** X6.  On an array of an integer dtype whose maximum differs from its
    minimum and whose range [max - min] is a value of the dtype and is
    below [2 ^ 32], the rescaling keeps the order of the intensities: a
    voxel that is not brighter than another is not brighter after
    rescaling, and when the range does not exceed [omax] two different
    intensities stay different. *)
Theorem rescale_monotone signed w bits omax (data : ndarray scalar) lo hi x y :
  0 ≤ omax < 2 ^ bits → bits ≤ 16 →
  has_dtype (IntType signed w) data →
  amin data = Ok (Integer signed w lo) → amax data = Ok (Integer signed w hi) →
  hi ≠ lo →
  representable signed w (hi - lo) → hi - lo < 2 ^ 32 →
  x ∈ flatten data → y ∈ flatten data → int_value x ≤ int_value y →
  rescale_voxel bits omax (Integer signed w lo) (Integer signed w hi) x
  ≤ rescale_voxel bits omax (Integer signed w lo) (Integer signed w hi) y ∧
  (hi - lo ≤ omax → int_value x < int_value y →
   rescale_voxel bits omax (Integer signed w lo) (Integer signed w hi) x
   < rescale_voxel bits omax (Integer signed w lo) (Integer signed w hi) y).
Proof.
  intros Homax Hbits Hdt Hlo Hhi Hne Hfit H32 Hx Hy Hxy.
  destruct (rescale_voxel_exact signed w bits omax data lo hi x)
    as (Hlt & Hxr & ->); [done..|].
  destruct (rescale_voxel_exact signed w bits omax data lo hi y)
    as (_ & Hyr & ->); [done..|].
  split.
  - apply Z.div_le_mono; [lia|nia].
  - intros Hfit' Hstrict.
    assert ((int_value x - lo) * omax + (hi - lo) ≤ (int_value y - lo) * omax)
      as Hstep by nia.
    apply Z.lt_le_trans
      with ((((int_value x - lo) * omax) + 1 * (hi - lo)) `div` (hi - lo)).
    + rewrite Z.div_add by lia. lia.
    + apply Z.div_le_mono; [lia|]. lia.
Qed.

End RescaleOrder.

Section RawValues.
Context (w : world).

(** X7.  Every item of the data of a raw-mode payload is an integer of
    [0, 65535] and 0 occurs among them, whatever the dtype of the volume is.
    For a volume of an integer dtype whose maximum differs from its minimum
    and whose range [max - min] is a value of the dtype and is below
    [2 ^ 32], 65535 occurs too.  This holds in the 3D and in the transposed
    4D case. *)
Theorem raw_payload_values imagefile im (data : ndarray scalar) payload :
  nibabel_load w imagefile = Ok im →
  nib_get_data im = Ok data →
  get_brainbrowser_image module_globals w imagefile = Ok payload →
  Forall (λ v, 0 ≤ v ≤ 65535) (info_data payload) ∧
  0 ∈ info_data payload ∧
  ∀ signed w' lo hi,
    has_dtype (IntType signed w') data →
    amin data = Ok (Integer signed w' lo) → amax data = Ok (Integer signed w' hi) →
    hi ≠ lo →
    representable signed w' (hi - lo) → hi - lo < 2 ^ 32 →
    65535 ∈ info_data payload.
Proof.
  intros Hload Hdata.
  rewrite (raw_mode_primary w _ _ _ Hload Hdata).
  unfold raw_payload. resolve_names.
  destruct (rescale 16 65535 data) as [scaled|e] eqn:Hscaled;
    cbn [mbind result_bind]; [|done].
  assert (∃ lo hi, amin data = Ok lo ∧ amax data = Ok hi) as (lo & hi & Hlo & Hhi).
  { apply rescale_ok_inv in Hscaled as [_ Hsize]. by apply nonempty_min_max. }
  rewrite (rescale_items _ _ _ _ _ Hlo Hhi) in Hscaled. injection Hscaled as <-.
  destruct (rescaled_unsigned 16 65535 data lo hi ltac:(lia) Hlo) as [Hrange Hzero].
  set (scaled := amap (rescale_voxel 16 65535 lo hi) data) in *.
  assert (Forall (λ v, 0 ≤ v ≤ 65535) (flatten scaled)) as Hrange'.
  { eapply Forall_impl; [exact Hrange|]. cbn. lia. }
  assert (∀ signed w' l h,
            has_dtype (IntType signed w') data →
            amin data = Ok (Integer signed w' l) →
            amax data = Ok (Integer signed w' h) → h ≠ l →
            representable signed w' (h - l) → h - l < 2 ^ 32 →
            65535 ∈ flatten scaled) as Hmax.
  { intros signed w' l h Hdt Hl Hh Hne Hfit H32.
    destruct (rescaled_integers signed w' 16 65535 data l h ltac:(lia) ltac:(lia)
                Hdt Hl Hh Hne Hfit H32) as (_ & _ & Hin).
    rewrite Hlo in Hl. injection Hl as ->. rewrite Hhi in Hh. by injection Hh as ->. }
  clear Hrange.
  repeat case_bool_decide; [| |done].
  - cbn [mbind result_bind]. resolve_names. intros [= <-]. cbn [info_data].
    done.
  - resolve_names.
    destruct (decide (length (shape scaled) = 4%nat)) as [Hrank|Hrank].
    2:{ by rewrite transpose_rank_mismatch. }
    destruct (shape scaled) as [|X [|Y [|Z [|T [|]]]]] eqn:Hshape; try done.
    destruct (transpose_time_first scaled X Y Z T Hshape)
      as (vol & -> & Hshape' & Hitem).
    cbn [mbind result_bind]. resolve_names. intros [= <-]. cbn [info_data].
    pose proof (flatten_time_first scaled vol X Y Z T Hshape Hshape' Hitem) as Hsame.
    split_and!.
    + apply Forall_forall. intros v Hv. rewrite Forall_forall in Hrange'.
      apply Hrange'. by apply Hsame.
    + by apply Hsame.
    + intros. apply Hsame. eauto.
Qed.
End RawValues.

(** ** Errors and output of the base64 callback *)

Lemma mapM_cons_raise {A B} (f : A → result B) x l y e :
  f x = Ok y → mapM f l = Raise e → mapM f (x :: l) = Raise e.
Proof. intros Hx Hl. cbn [mapM]. by rewrite Hx, Hl. Qed.

Section B64Errors.
Context (w : world).

Lemma encode_files_outcome fpaths :
  (Forall (λ path, is_Some (files w !! path)) fpaths ∧
     encode_files module_globals w fpaths = Ok (encoded_stack w fpaths)) ∨
  (∃ path, path ∈ fpaths ∧ files w !! path = None ∧
           encode_files module_globals w fpaths = Raise (IOError path)).
Proof.
  induction fpaths as [|path fpaths IH].
  - left. by split.
  - destruct (files w !! path) as [contents|] eqn:Hc.
    + destruct IH as [[Hall Hok]|(p & Hin & Hnone & Hraise)].
      * left. assert (Forall (λ path, is_Some (files w !! path)) (path :: fpaths))
          as Hall' by (constructor; [by eexists|done]).
        split; [done|]. by apply encode_files_readable.
      * right. exists p. split_and!; [by apply list_elem_of_further|done|].
        unfold encode_files in *. eapply mapM_cons_raise; [|exact Hraise].
        rewrite Hc. by resolve_names.
    + right. exists path. split_and!; [apply list_elem_of_here|done|].
      unfold encode_files. apply mapM_raise_first. by rewrite Hc.
Qed.

Lemma b64_images_loop_outcome items output :
  (Forall (λ it, Forall (λ path, is_Some (files w !! path)) it.2) items ∧
     ∃ output', b64_images_loop module_globals w items output = Ok output') ∨
  (∃ path, listed items path ∧ files w !! path = None ∧
           b64_images_loop module_globals w items output = Raise (IOError path)).
Proof.
  revert output. induction items as [|[orient fpaths] items IH]; intros output.
  - left. split; [done|]. by eexists.
  - cbn [b64_images_loop].
    destruct (encode_files_outcome fpaths) as [[Hall ->]|(p & Hin & Hnone & ->)];
      cbn [mbind result_bind].
    + destruct (IH (<[orient := encoded_stack w fpaths]> output))
        as [[Hrest [output' ->]]|(p & (o & ps & Hin & Hp) & Hnone & ->)].
      * left. split; [by constructor|by eexists].
      * right. exists p. split_and!; [|done..].
        exists o, ps. split; [by apply list_elem_of_further|done].
    + right. exists p. split_and!; [|done..].
      exists orient, fpaths. split; [apply list_elem_of_here|done].
Qed.

(** X8.  [get_b64_images] returns a dictionary exactly when every listed
    file can be read; any error it raises is the [IOError] of a listed file
    that cannot be read, and then no part of the dictionary is returned. *)
Theorem get_b64_images_all_or_nothing items :
  ((∃ output, get_b64_images module_globals w items = Ok output) ↔
   Forall (λ it, Forall (λ path, is_Some (files w !! path)) it.2) items) ∧
  (∀ e, get_b64_images module_globals w items = Raise e →
     ∃ path, e = IOError path ∧ listed items path ∧ files w !! path = None).
Proof.
  unfold get_b64_images. resolve_names.
  destruct (b64_images_loop_outcome items ∅)
    as [[Hall [output ->]]|(p & Hlisted & Hnone & ->)].
  - split; [|done]. split; [done|]. intros _. by eexists.
  - split.
    + split; [by intros [? ?]|]. intros Hall. exfalso.
      destruct Hlisted as (o & ps & Hin & Hp).
      rewrite Forall_forall in Hall. specialize (Hall _ Hin). cbn in Hall.
      rewrite Forall_forall in Hall. destruct (Hall _ Hp) as [? Hsome].
      by rewrite Hnone in Hsome.
    + intros e [= <-]. by exists p.
Qed.
End B64Errors.

Lemma b64encode_length bs :
  String.length (Base64.b64encode bs) = (4 * ((length bs + 2) / 3))%nat.
Proof.
  induction bs as [|a|a b|a b c rest IH] using Base64Facts.three_step_ind;
    try reflexivity.
  cbn [Base64.b64encode String.length length]. rewrite IH.
  replace (S (S (S (length rest))) + 2)%nat with (length rest + 2 + 1 * 3)%nat by lia.
  rewrite Nat.div_add by lia. lia.
Qed.

Section B64Output.
Context (w : world).

Lemma b64_images_loop_entries items output output' :
  b64_images_loop module_globals w items output = Ok output' →
  ∀ orient encoded, output' !! orient = Some encoded →
    output !! orient = Some encoded ∨
    ∃ fpaths, (orient, fpaths) ∈ items ∧
              Forall (λ path, is_Some (files w !! path)) fpaths ∧
              encoded = encoded_stack w fpaths.
Proof.
  revert output. induction items as [|[o fpaths] items IH]; intros output Hok orient encoded Hlook.
  - cbn in Hok. injection Hok as <-. by left.
  - cbn [b64_images_loop] in Hok.
    destruct (encode_files_outcome w fpaths) as [[Hall Henc]|(p & _ & _ & Henc)];
      rewrite Henc in Hok; cbn [mbind result_bind] in Hok; [|done].
    destruct (IH _ Hok orient encoded Hlook) as [Hprev|(ps & Hin & Hps & ->)].
    + destruct (decide (o = orient)) as [->|Hne].
      * rewrite lookup_insert_eq in Hprev. injection Hprev as <-.
        right. exists fpaths. split_and!; [apply list_elem_of_here|done..].
      * rewrite lookup_insert_ne in Hprev by done. by left.
    + right. exists ps. split_and!; [by apply list_elem_of_further|done..].
Qed.

(** X9.  Every string of the dictionary [get_b64_images] returns is the
    base64 encoding of a listed file, and has 4 characters for every
    started group of 3 bytes of that file. *)
Theorem b64_images_are_encodings items output :
  get_b64_images module_globals w items = Ok output →
  ∀ orient encoded s, output !! orient = Some encoded → s ∈ encoded →
    ∃ path contents,
      listed items path ∧ files w !! path = Some contents ∧
      s = Base64.b64encode contents ∧
      String.length s = (4 * ((length contents + 2) / 3))%nat.
Proof.
  unfold get_b64_images. resolve_names. intros Hok orient encoded s Hlook Hs.
  destruct (b64_images_loop_entries _ _ _ Hok _ _ Hlook)
    as [Hempty|(fpaths & Hin & Hall & ->)]; [by rewrite lookup_empty in Hempty|].
  apply list_elem_of_fmap in Hs as (path & -> & Hpath).
  rewrite Forall_forall in Hall. destruct (Hall _ Hpath) as [contents Hc].
  exists path, contents. unfold file_contents. rewrite Hc.
  split_and!; [by exists orient, fpaths|done..|apply b64encode_length].
Qed.
End B64Output.

(** ** Outcomes of the stack viewer *)

Section StackOutcomes.
Context (w : world).

Lemma check_sizes_outcome paths s0 :
  check_sizes module_globals w paths (Some s0) = Ok None ∨
  (check_sizes module_globals w paths (Some s0) = Ok (Some (Some s0)) ∧
     Forall (λ path, is_Some (image_sizes w !! path)) paths) ∨
  (∃ path, path ∈ paths ∧ image_sizes w !! path = None ∧
           check_sizes module_globals w paths (Some s0) = Raise (IOError path)).
Proof.
  induction paths as [|path paths IH].
  - right. left. by split.
  - cbn [check_sizes]. resolve_names.
    destruct (image_sizes w !! path) as [s|] eqn:Hs.
    + case_bool_decide; [by left|].
      destruct IH as [->|[[-> Hall]|(p & Hin & Hnone & ->)]].
      * by left.
      * right. left. split; [done|]. constructor; [by eexists|done].
      * right. right. exists p. split_and!; [by apply list_elem_of_further|done..].
    + right. right. exists path. split_and!; [apply list_elem_of_here|done..].
Qed.

Lemma check_sizes_start_outcome paths :
  check_sizes module_globals w paths None = Ok None ∨
  (check_sizes module_globals w paths None = Ok (Some (first_size w paths)) ∧
     Forall (λ path, is_Some (image_sizes w !! path)) paths) ∨
  (∃ path, path ∈ paths ∧ image_sizes w !! path = None ∧
           check_sizes module_globals w paths None = Raise (IOError path)).
Proof.
  destruct paths as [|first paths].
  - right. left. by split.
  - cbn [check_sizes]. resolve_names. unfold first_size. cbn [head mbind option_bind].
    destruct (image_sizes w !! first) as [s0|] eqn:Hs0.
    + destruct (check_sizes_outcome paths s0) as [->|[[-> Hall]|(p & Hin & Hnone & ->)]].
      * by left.
      * right. left. split; [done|]. constructor; [by eexists|done].
      * right. right. exists p. split_and!; [by apply list_elem_of_further|done..].
    + right. right. exists first. split_and!; [apply list_elem_of_here|done..].
Qed.

Lemma check_inputs_outcome items shapes nb_slices :
  check_inputs module_globals w items shapes nb_slices = Ok None ∨
  (all_openable w items ∧
     ∃ out, check_inputs module_globals w items shapes nb_slices = Ok (Some out)) ∨
  (∃ path, listed items path ∧ image_sizes w !! path = None ∧
           check_inputs module_globals w items shapes nb_slices = Raise (IOError path)).
Proof.
  revert shapes nb_slices.
  induction items as [|[orient fpaths] items IH]; intros shapes nb_slices.
  - right. left. split; [constructor|by eexists].
  - cbn [check_inputs]. case_bool_decide; [by left|].
    destruct (check_sizes_start_outcome fpaths)
      as [->|[[-> Hall]|(p & Hin & Hnone & ->)]]; cbn [mbind result_bind].
    + by left.
    + match goal with
      | |- context [check_inputs _ _ _ ?s ?n] =>
          destruct (IH s n) as [->|[[Hrest [out ->]]|(p & (o & ps & Hin & Hp) & Hnone & ->)]]
      end.
      * by left.
      * right. left. split; [by constructor|by eexists].
      * right. right. exists p. split_and!; [|done..].
        exists o, ps. split; [by apply list_elem_of_further|done].
    + right. right. exists p. split_and!; [|done..].
      exists orient, fpaths. split; [apply list_elem_of_here|done].
Qed.

(** X10.  [TriplanarStackViewer.call] ends in one of three ways: the error
    page; the viewer page, and then every listed image could be opened and
    the input is not rejected; or the [IOError] of a listed image that
    cannot be opened. *)
Theorem stack_viewer_outcomes snap_eid items data_type :
  call module_globals w snap_eid items data_type
  = Ok (resources w ++ error_page (error_message snap_eid)) ∨
  (all_openable w items ∧ ¬ rejected_input w items ∧
     ∃ shapes nb_slices,
       call module_globals w snap_eid items data_type
       = Ok (resources w ++ [viewer_page w shapes nb_slices items data_type])) ∨
  (∃ path, listed items path ∧ image_sizes w !! path = None ∧
           call module_globals w snap_eid items data_type = Raise (IOError path)).
Proof.
  unfold call. resolve_names.
  destruct (check_inputs_outcome items ∅ ∅)
    as [->|[[Hall [[shapes nb] Hok]]|(p & Hlisted & Hnone & ->)]];
    cbn [mbind result_bind].
  - by left.
  - right. left. rewrite Hok. cbn [mbind result_bind]. split; [done|]. split.
    + destruct (check_inputs_decides w items ∅ ∅ Hall) as [[Hrej _]|[_ Hacc]]; [|done].
      by rewrite Hrej in Hok.
    + by exists shapes, nb.
  - right. right. by exists p.
Qed.

Lemma check_inputs_state items shapes nb_slices shapes' nb_slices' :
  NoDup items.*1 →
  check_inputs module_globals w items shapes nb_slices = Ok (Some (shapes', nb_slices')) →
  ∀ orient,
    shapes' !! orient
    = match (list_to_map items : gmap string (list string)) !! orient with
      | Some fpaths =>
          match first_size w fpaths with
          | Some size => Some size
          | None => shapes !! orient
          end
      | None => shapes !! orient
      end ∧
    nb_slices' !! orient
    = match (list_to_map items : gmap string (list string)) !! orient with
      | Some fpaths => Some (Z.of_nat (length fpaths) - 1)
      | None => nb_slices !! orient
      end.
Proof.
  revert shapes nb_slices.
  induction items as [|[o fpaths] items IH]; intros shapes nb_slices Hnd Hok orient.
  - cbn in Hok. injection Hok as <- <-. cbn [list_to_map foldr].
    by rewrite lookup_empty.
  - apply NoDup_cons in Hnd as [Hnotin Hnd].
    cbn [check_inputs] in Hok. case_bool_decide; [done|].
    destruct (check_sizes_start_outcome fpaths)
      as [Hc|[[Hc Hall]|(p & Hin & Hnone & Hc)]];
      rewrite Hc in Hok; cbn [mbind result_bind] in Hok; [done| |done].
    specialize (IH _ _ Hnd Hok orient).
    cbn [list_to_map foldr uncurry Datatypes.uncurry fst snd].
    destruct (decide (o = orient)) as [->|Hne].
    + rewrite lookup_insert_eq.
      rewrite (not_elem_of_list_to_map_1 _ _ Hnotin) in IH.
      destruct IH as [-> ->]. rewrite lookup_insert_eq.
      split; [|done]. destruct (first_size w fpaths); [|done].
      by rewrite lookup_insert_eq.
    + rewrite lookup_insert_ne by done.
      destruct IH as [-> ->]. rewrite lookup_insert_ne by done.
      split; [|done].
      destruct (first_size w fpaths); [by rewrite lookup_insert_ne|done].
Qed.

(** X11.  When the input is accepted, the viewer page is built from
    [shapes] holding, for each orientation with at least one image, the
    size of its first image, and from [nb_slices] holding the number of
    images minus one (so -1 for an empty list), whatever the iteration
    order of the dictionary. *)
Theorem stack_viewer_sizes snap_eid (file_data : gmap string (list string))
    items data_type :
  items ≡ₚ map_to_list file_data →
  all_openable w items →
  ¬ rejected_input w items →
  ∃ shapes nb_slices,
    call module_globals w snap_eid items data_type
    = Ok (resources w ++ [viewer_page w shapes nb_slices items data_type]) ∧
    ∀ orient,
      shapes !! orient = file_data !! orient ≫= first_size w ∧
      nb_slices !! orient
      = (λ fpaths, Z.of_nat (length fpaths) - 1) <$> file_data !! orient.
Proof.
  intros Hperm Hall Hacc.
  assert (NoDup items.*1) as Hnd.
  { rewrite Hperm. apply NoDup_fst_map_to_list. }
  destruct (check_inputs_decides w items ∅ ∅ Hall) as [[_ Hrej]|[[[shapes nb] Hok] _]];
    [done|].
  exists shapes, nb. split.
  - unfold call. resolve_names. by rewrite Hok.
  - intros orient.
    destruct (check_inputs_state items ∅ ∅ shapes nb Hnd Hok orient) as [-> ->].
    rewrite (list_to_map_proper items (map_to_list file_data)) by done.
    rewrite list_to_map_to_list, !lookup_empty.
    destruct (file_data !! orient) as [fpaths|]; [|done].
    cbn. by destruct (first_size w fpaths).
Qed.
End StackOutcomes.

(** ** The image viewer *)

Section ImageViewerFacts.
Import TriplanarImageViewer.

Lemma mapM_is_ok {A B} (f : A → result B) l :
  Forall (λ x, ∃ y, f x = Ok y) l → ∃ ys, mapM f l = Ok ys.
Proof.
  induction 1 as [|x l [y Hx] _ [ys IH]]; [by eexists|].
  exists (y :: ys). by apply mapM_cons_ok.
Qed.

Lemma getitem_in_range {A} (l : list A) index :
  - Z.of_nat (length l) ≤ index < Z.of_nat (length l) →
  ∃ x, getitem l index = Ok x.
Proof.
  intros Hrange. unfold getitem. cbv zeta.
  set (i := if bool_decide (index < 0) then index + Z.of_nat (length l) else index).
  assert (0 ≤ i < Z.of_nat (length l)) as Hi by (subst i; case_bool_decide; lia).
  rewrite bool_decide_eq_true_2 by done.
  destruct (lookup_lt_is_Some_2 l (Z.to_nat i)) as [x ->]; [lia|].
  by eexists.
Qed.

Lemma getitem_out_of_range {A} (l : list A) index :
  ¬ (- Z.of_nat (length l) ≤ index < Z.of_nat (length l)) →
  getitem l index = Raise index_error.
Proof.
  intros Hrange. unfold getitem. cbv zeta.
  set (i := if bool_decide (index < 0) then index + Z.of_nat (length l) else index).
  assert (¬ (0 ≤ i < Z.of_nat (length l))) as Hi by (subst i; case_bool_decide; lia).
  by rewrite bool_decide_eq_false_2 by done.
Qed.

Lemma build_cw_loader_multi imagefiles decorated :
  ∃ html, ∀ index, build_cw_loader imagefiles index decorated true = Ok html.
Proof. by eexists. Qed.

Lemma build_cw_loader_single imagefiles index decorated :
  - Z.of_nat (length imagefiles) ≤ index < Z.of_nat (length imagefiles) →
  ∃ html, build_cw_loader imagefiles index decorated false = Ok html.
Proof.
  intros Hin. destruct (getitem_in_range imagefiles index Hin) as [image Himage].
  unfold build_cw_loader. rewrite Himage. by eexists.
Qed.

Lemma build_cw_loader_single_raises imagefiles index decorated :
  ¬ (- Z.of_nat (length imagefiles) ≤ index < Z.of_nat (length imagefiles)) →
  build_cw_loader imagefiles index decorated false = Raise index_error.
Proof.
  intros Hout. unfold build_cw_loader. by rewrite getitem_out_of_range.
Qed.

(** X12.  [build_cw_loader] in the multiple view returns the same script for
    every index; in the single view it returns exactly for the indices
    Python accepts, [-len <= index < len], and raises [IndexError]
    otherwise. *)
Theorem build_cw_loader_index imagefiles index decorated :
  (∃ html, ∀ index', build_cw_loader imagefiles index' decorated true = Ok html) ∧
  ((∃ html, build_cw_loader imagefiles index decorated false = Ok html) ↔
   - Z.of_nat (length imagefiles) ≤ index < Z.of_nat (length imagefiles)) ∧
  (¬ (- Z.of_nat (length imagefiles) ≤ index < Z.of_nat (length imagefiles)) →
   build_cw_loader imagefiles index decorated false = Raise index_error).
Proof.
  split_and!.
  - apply build_cw_loader_multi.
  - split; [|apply build_cw_loader_single].
    intros [html Hok].
    destruct (decide (- Z.of_nat (length imagefiles) ≤ index
                      < Z.of_nat (length imagefiles))) as [|Hout]; [done|].
    by rewrite build_cw_loader_single_raises in Hok.
  - apply build_cw_loader_single_raises.
Qed.

Lemma image_event_ok imagefiles cnt :
  (cnt < length imagefiles)%nat → ∃ event, image_event imagefiles cnt = Ok event.
Proof.
  intros Hcnt. unfold image_event.
  destruct (build_cw_loader_multi imagefiles false) as [multi Hmulti].
  destruct (build_cw_loader_single imagefiles (Z.of_nat cnt) false) as [single Hsingle];
    [lia|].
  rewrite Hmulti. cbn [mbind result_bind]. rewrite Hsingle. by eexists.
Qed.

Lemma build_image_callback_ok imagefiles decorated :
  ∃ html, build_image_callback imagefiles decorated = Ok html.
Proof.
  unfold build_image_callback.
  destruct (mapM_is_ok (image_event imagefiles) (seq 0 (length imagefiles)))
    as [events ->]; [|by eexists].
  apply Forall_forall. intros cnt Hcnt%elem_of_seq.
  apply image_event_ok. lia.
Qed.



(** X13.  [build_image_callback], [build_quality_callback] and
    [build_rendering_callback] return for every list of images, the empty
    one included: each index they pass to [build_cw_loader] is in range. *)
Theorem image_callbacks_return imagefiles decorated :
  (∃ html, build_image_callback imagefiles decorated = Ok html) ∧
  (∃ html, build_quality_callback imagefiles = Ok html) ∧
  (∃ html, build_rendering_callback imagefiles = Ok html).
Proof.
  split; [apply build_image_callback_ok|].
  unfold build_quality_callback, build_rendering_callback.
  destruct (build_image_callback_ok imagefiles false) as [callback ->].
  split; by eexists.
Qed.




End ImageViewerFacts.

(** ** The further properties on the example inputs *)

Lemma encoded_mode_name_error_witness :
  nibabel_load example_world "vol3d.nii" = Ok example_image_3d ∧
  nib_get_data example_image_3d = Ok (ramp [4; 4; 3]%nat) ∧
  (0 < size_of (shape (ramp [4; 4; 3]%nat)))%nat ∧
  get_encoded_brainbrowser_image module_globals example_world "vol3d.nii" 75
  = Raise (NameError "StringIO").
Proof.
  assert (0 < size_of (shape (ramp [4; 4; 3]%nat)))%nat as Hsize
    by (vm_compute; lia).
  split; [reflexivity|]. split; [reflexivity|]. split; [exact Hsize|].
  apply (encoded_mode_name_error example_world "vol3d.nii" 75 example_image_3d
           (ramp [4; 4; 3]%nat) eq_refl eq_refl Hsize).
  left. split; [reflexivity|discriminate].
Defined.

Lemma empty_volume_value_error_witness :
  nibabel_load edge_world "empty.nii" = Ok example_image_empty ∧
  nib_get_data example_image_empty = Ok (ramp [4; 0; 3]%nat) ∧
  size_of (shape (ramp [4; 0; 3]%nat)) = 0%nat ∧
  get_brainbrowser_image module_globals edge_world "empty.nii"
  = Raise zero_size_minimum ∧
  get_encoded_brainbrowser_image module_globals edge_world "empty.nii" 75
  = Raise zero_size_minimum.
Proof.
  split; [reflexivity|]. split; [reflexivity|]. split; [reflexivity|].
  exact (empty_volume_value_error edge_world "empty.nii" 75 example_image_empty
           (ramp [4; 0; 3]%nat) eq_refl eq_refl eq_refl).
Defined.

Lemma rank_mismatch_value_error_witness :
  nibabel_load edge_world "flat4d.nii" = Ok example_image_flat ∧
  nib_get_data example_image_flat = Ok (ramp [4; 4; 3]%nat) ∧
  (0 < size_of (shape (ramp [4; 4; 3]%nat)))%nat ∧
  dim (nib_header example_image_flat) !!! 0%fin = 4 ∧
  length (shape (ramp [4; 4; 3]%nat)) ≠ 4%nat ∧
  get_brainbrowser_image module_globals edge_world "flat4d.nii" = Raise axes_mismatch ∧
  get_encoded_brainbrowser_image module_globals edge_world "flat4d.nii" 75
  = Raise axes_mismatch.
Proof.
  assert (0 < size_of (shape (ramp [4; 4; 3]%nat)))%nat as Hsize
    by (vm_compute; lia).
  assert (length (shape (ramp [4; 4; 3]%nat)) ≠ 4%nat) as Hrank by discriminate.
  split; [reflexivity|]. split; [reflexivity|]. split; [exact Hsize|].
  split; [reflexivity|]. split; [exact Hrank|].
  exact (rank_mismatch_value_error edge_world "flat4d.nii" 75 example_image_flat
           (ramp [4; 4; 3]%nat) eq_refl eq_refl Hsize eq_refl Hrank).
Defined.

Lemma rescale_monotone_witness :
  0 ≤ 255 < 2 ^ 8 ∧ 8 ≤ 16 ∧
  has_dtype (IntType true w16) voxels_0_1_4 ∧
  amin voxels_0_1_4 = Ok (Integer true w16 0) ∧
  amax voxels_0_1_4 = Ok (Integer true w16 4) ∧ 4 ≠ 0 ∧
  representable true w16 (4 - 0) ∧ 4 - 0 < 2 ^ 32 ∧
  Integer true w16 1 ∈ flatten voxels_0_1_4 ∧
  Integer true w16 4 ∈ flatten voxels_0_1_4 ∧
  int_value (Integer true w16 1) ≤ int_value (Integer true w16 4) ∧
  rescale_voxel 8 255 (Integer true w16 0) (Integer true w16 4) (Integer true w16 1)
  < rescale_voxel 8 255 (Integer true w16 0) (Integer true w16 4) (Integer true w16 4).
Proof.
  assert (0 ≤ 255 < 2 ^ 8) as Hmax by lia.
  assert (8 ≤ 16) as Hbits by lia.
  assert (has_dtype (IntType true w16) voxels_0_1_4) as Hdt
    by (repeat constructor).
  assert (4 ≠ 0) as Hne by discriminate.
  assert (representable true w16 (4 - 0)) as Hfit by (cbn; lia).
  assert (4 - 0 < 2 ^ 32) as H32 by lia.
  assert (Integer true w16 1 ∈ flatten voxels_0_1_4) as H1
    by apply list_elem_of_further, list_elem_of_here.
  assert (Integer true w16 4 ∈ flatten voxels_0_1_4) as H4
    by apply list_elem_of_further, list_elem_of_further, list_elem_of_here.
  assert (int_value (Integer true w16 1) ≤ int_value (Integer true w16 4)) as Hle
    by (cbn; lia).
  split; [exact Hmax|]. split; [exact Hbits|]. split; [exact Hdt|].
  split; [reflexivity|]. split; [reflexivity|]. split; [exact Hne|].
  split; [exact Hfit|]. split; [exact H32|]. split; [exact H1|].
  split; [exact H4|]. split; [exact Hle|].
  destruct (rescale_monotone true w16 8 255 voxels_0_1_4 0 4 _ _ Hmax Hbits Hdt
              eq_refl eq_refl Hne Hfit H32 H1 H4 Hle) as [_ Hstrict].
  apply Hstrict; cbn; lia.
Defined.

Lemma raw_payload_values_witness :
  nibabel_load example_world "vol4d.nii" = Ok example_image_4d ∧
  nib_get_data example_image_4d = Ok (ramp [4; 4; 3; 2]%nat) ∧
  ∃ payload,
    get_brainbrowser_image module_globals example_world "vol4d.nii" = Ok payload ∧
    Forall (λ v, 0 ≤ v ≤ 65535) (info_data payload) ∧
    0 ∈ info_data payload ∧ 65535 ∈ info_data payload.
Proof.
  assert (has_dtype (IntType true w16) (ramp [4; 4; 3; 2]%nat)) as Hdt.
  { apply Forall_forall. by intros x (idx & -> & _)%list_elem_of_fmap. }
  assert (amin (ramp [4; 4; 3; 2]%nat) = Ok (Integer true w16 0)) as Hlo
    by (vm_compute; reflexivity).
  assert (amax (ramp [4; 4; 3; 2]%nat) = Ok (Integer true w16 95)) as Hhi
    by (vm_compute; reflexivity).
  assert (representable true w16 (95 - 0)) as Hfit by (cbn; lia).
  split; [reflexivity|]. split; [reflexivity|].
  destruct (raw_payload_4d example_world (example_header 4) (ramp [4; 4; 3; 2]%nat)
              _ _ 4 4 3 2 eq_refl Hlo Hhi eq_refl) as (data' & Hraw & _).
  assert (get_brainbrowser_image module_globals example_world "vol4d.nii"
          = Ok (ImInfo (json_dumps example_world (VDict (header_4d (example_header 4))))
                  (flatten data'))) as Hok.
  { rewrite (raw_mode_primary example_world "vol4d.nii" example_image_4d
               (ramp [4; 4; 3; 2]%nat) eq_refl eq_refl). exact Hraw. }
  eexists. split; [exact Hok|].
  destruct (raw_payload_values example_world "vol4d.nii" example_image_4d
              (ramp [4; 4; 3; 2]%nat) _ eq_refl eq_refl Hok)
    as (Hrange & Hzero & Hmax).
  split; [exact Hrange|]. split; [exact Hzero|].
  exact (Hmax true w16 0 95 Hdt Hlo Hhi ltac:(discriminate) Hfit ltac:(lia)).
Defined.

Lemma b64_images_are_encodings_witness :
  ∃ output s,
    get_b64_images module_globals example_world (map_to_list example_file_data)
    = Ok output ∧
    output !! "axial"%string = Some [s] ∧ s ∈ [s] ∧
    ∃ path contents,
      listed (map_to_list example_file_data) path ∧
      files example_world !! path = Some contents ∧
      s = Base64.b64encode contents ∧
      String.length s = (4 * ((length contents + 2) / 3))%nat.
Proof.
  assert (map_Forall (λ _ fpaths,
      Forall (λ path, is_Some (files example_world !! path)) fpaths)
    example_file_data) as Hreadable by compute_done.
  pose proof (get_b64_images_readable example_world example_file_data
                (map_to_list example_file_data) (reflexivity _) Hreadable) as Hok.
  exists (encoded_stack example_world <$> example_file_data),
    (Base64.b64encode [xff; xd8]%byte).
  assert ((encoded_stack example_world <$> example_file_data) !! "axial"%string
          = Some [Base64.b64encode [xff; xd8]%byte]) as Hlook by reflexivity.
  assert (Base64.b64encode [xff; xd8]%byte ∈ [Base64.b64encode [xff; xd8]%byte])
    as Hin by apply list_elem_of_here.
  split; [exact Hok|]. split; [exact Hlook|]. split; [exact Hin|].
  exact (b64_images_are_encodings example_world (map_to_list example_file_data) _
           Hok "axial"%string _ _ Hlook Hin).
Defined.

Lemma stack_viewer_sizes_witness :
  map_to_list example_stack_data ≡ₚ map_to_list example_stack_data ∧
  all_openable example_world (map_to_list example_stack_data) ∧
  ¬ rejected_input example_world (map_to_list example_stack_data) ∧
  ∃ shapes nb_slices,
    call module_globals example_world "1234" (map_to_list example_stack_data) "PNG"
    = Ok (resources example_world
          ++ [viewer_page example_world shapes nb_slices
                (map_to_list example_stack_data) "PNG"]) ∧
    shapes !! "coronal"%string = Some (256, 124) ∧
    nb_slices !! "coronal"%string = Some 1.
Proof.
  assert (all_openable example_world (map_to_list example_stack_data)) as Hopen
    by (unfold all_openable; compute_done).
  assert (¬ rejected_input example_world (map_to_list example_stack_data)) as Hacc.
  { destruct (check_inputs_decides example_world (map_to_list example_stack_data)
                ∅ ∅ Hopen) as [[Hnone _]|[_ Hacc]]; [|exact Hacc].
    vm_compute in Hnone. discriminate Hnone. }
  split; [reflexivity|]. split; [exact Hopen|]. split; [exact Hacc|].
  destruct (stack_viewer_sizes example_world "1234" example_stack_data
              (map_to_list example_stack_data) "PNG" (reflexivity _) Hopen Hacc)
    as (shapes & nb_slices & Hcall & Hstate).
  exists shapes, nb_slices. split; [exact Hcall|].
  destruct (Hstate "coronal"%string) as [-> ->]. by split.
Defined.
